(** * Opportunity DAO: update engine, filter compiler and attachment ledger

    A shallow embedding of [python_flask/opportunity/dao.py]
    (class [MongoOpportunity]) and the properties of its update path,
    its filter compiler and its attachment operations.

    The DAO works on loosely typed Python dictionaries, so the embedding
    keeps them: a small universe of Python values, dictionaries as
    association lists in iteration order, a result type for raised
    exceptions, and a state monad for the collection, the clock and the
    signals that were sent. *)

From Stdlib Require Import ZArith List String Ascii Bool Lia.
From stdpp Require Import gmap pretty.
Import ListNotations.
Local Open Scope string_scope.
Local Open Scope Z_scope.

(** ** Python values *)

(** [datetime.datetime]: only [.year] and [.month] are read by the DAO;
    the remaining components are kept as one number. *)
Record datetime := DateTime { dt_year : Z; dt_month : Z; dt_rest : Z }.

(** The values the DAO handles.  Floats are outside of the universe, so
    the coercion of a float status (dao.py 440-441) never applies.
    Dictionary keys are strings; an [ObjectId] is its number. *)
#[warnings="-register-all"]
Inductive value :=
| VNone
| VBool (b : bool)
| VInt (n : Z)
| VStr (s : string)
| VTime (t : datetime)
| VOid (o : N)
| VRegex (pattern : string)
| VList (l : list value)
| VDict (d : list (string * value)).

Abbreviation dict := (list (string * value)).

(** Exceptions, by class; the three bare [Exception]s of the DAO by message. *)
Inductive error :=
| NoDataProvided          (* 'No data provided, or invalid arguments' *)
| DealerLocked            (* 'Cannot change dealer on an opportunity once it has a DMS deal number' *)
| DealNumberAssigned      (* 'Opportunity already has a DMS deal number assigned!' *)
| InvalidQuery            (* ValueError("Invalid query: {}") *)
| AttributeError
| TypeError
| KeyError
| ValueError
| UnicodeEncodeError
| ReError
| InvalidId
| IndexError
| WriteError              (* the store refuses to $set another _id *)
| HelperError.            (* raised inside market_crm.utils.helper *)

Inductive result (A : Type) :=
| Ok (a : A)
| Raise (e : error).
Arguments Ok {A} a.
Arguments Raise {A} e.

Definition rbind {A B} (r : result A) (k : A -> result B) : result B :=
  match r with
  | Ok a => k a
  | Raise e => Raise e
  end.

Definition is_ok {A} (r : result A) : bool :=
  match r with Ok _ => true | Raise _ => false end.

(** The outcome of a call into a collaborator that may raise [e]. *)
Definition or_raise {A} (e : error) (o : option A) : result A :=
  match o with Some a => Ok a | None => Raise e end.

Notation "x <~ r ;; k" := (rbind r (fun x => k))
  (at level 90, r at level 80, right associativity).

(** [[f(x) for x in l]]: the first exception ends the loop. *)
Fixpoint map_result {A B} (f : A -> result B) (l : list A) : result (list B) :=
  match l with
  | [] => Ok []
  | x :: r => y <~ f x ;; ys <~ map_result f r ;; Ok (y :: ys)
  end.

(** *** Dictionaries *)

Fixpoint dict_get (k : string) (d : dict) : option value :=
  match d with
  | [] => None
  | (k', v) :: r => if String.eqb k k' then Some v else dict_get k r
  end.

Definition dict_has (k : string) (d : dict) : bool :=
  match dict_get k d with Some _ => true | None => false end.

(** [d[k] = v]: an existing key keeps its place, a new key goes last. *)
Fixpoint dict_set (k : string) (v : value) (d : dict) : dict :=
  match d with
  | [] => [(k, v)]
  | (k', v') :: r =>
      if String.eqb k k' then (k', v) :: r else (k', v') :: dict_set k v r
  end.

(** [d.update(kw)], and [dict(d, kw...)] with [kw] as keyword arguments:
    every key of [kw] is set to the value [kw] has for it.  (The order
    in which new keys are appended is immaterial.) *)
Fixpoint dict_update (d kw : dict) : dict :=
  match kw with
  | [] => d
  | (k, v) :: r => dict_set k v (dict_update d r)
  end.

(** [d.pop(k, None)]: the dictionary without [k]. *)
Fixpoint dict_remove (k : string) (d : dict) : dict :=
  match d with
  | [] => []
  | (k', v) :: r =>
      if String.eqb k k' then dict_remove k r else (k', v) :: dict_remove k r
  end.

(** [d.get(k)] and [d.get(k, default)]. *)
Definition get_or (dflt : value) (k : string) (d : dict) : value :=
  match dict_get k d with Some v => v | None => dflt end.

Definition keys (d : dict) : list string := map fst d.

(** *** Truth, equality, [str] *)

(** [bool(v)]. *)
Definition truthy (v : value) : bool :=
  match v with
  | VNone => false
  | VBool b => b
  | VInt n => negb (n =? 0)
  | VStr s => negb (String.eqb s EmptyString)
  | VTime _ | VOid _ | VRegex _ => true
  | VList l => match l with [] => false | _ => true end
  | VDict d => match d with [] => false | _ => true end
  end.

(** The integer a number stands for in arithmetic. *)
Definition as_int (v : value) : option Z :=
  match v with
  | VInt n => Some n
  | VBool b => Some (Z.b2z b)
  | _ => None
  end.

Definition is_none (v : value) : bool :=
  match v with VNone => true | _ => false end.

(** [a == b].  [bool] is a subclass of [int]; lists compare pointwise;
    dictionaries by size and key-wise, whatever the order. *)
Fixpoint py_eq (a b : value) {struct a} : bool :=
  match a, b with
  | VNone, VNone => true
  | VBool x, VBool y => Bool.eqb x y
  | VBool x, VInt y => Z.b2z x =? y
  | VInt x, VBool y => x =? Z.b2z y
  | VInt x, VInt y => x =? y
  | VStr x, VStr y => String.eqb x y
  | VTime x, VTime y =>
      (dt_year x =? dt_year y) && (dt_month x =? dt_month y)
      && (dt_rest x =? dt_rest y)
  | VOid x, VOid y => N.eqb x y
  | VRegex x, VRegex y => String.eqb x y
  | VList xs, VList ys =>
      (fix all2 (xs ys : list value) {struct xs} : bool :=
         match xs, ys with
         | [], [] => true
         | x :: xs', y :: ys' => py_eq x y && all2 xs' ys'
         | _, _ => false
         end) xs ys
  | VDict d, VDict e =>
      (length d =? length e)%nat &&
      (fix incl (d : dict) {struct d} : bool :=
         match d with
         | [] => true
         | (k, v) :: r =>
             match dict_get k e with
             | Some w => py_eq v w && incl r
             | None => false
             end
         end) d
  | _, _ => false
  end.

(** [str(v)] on the values that label a status.  Other values print
    through [repr], which the embedding leaves to the caller. *)
Definition py_str (repr : value -> string) (v : value) : string :=
  match v with
  | VNone => "None"
  | VBool true => "True"
  | VBool false => "False"
  | VInt n => pretty n
  | VStr s => s
  | _ => repr v
  end.

(** ** The collaborators that are not part of the DAO

    [market_crm.utils.helper], the [Opportunity] model class, [bson],
    [shlex], [re] and the clock are imported by dao.py; the DAO is
    embedded over any behaviour of theirs. *)
Record Env := {
  (** the n-th reading of [datetime.utcnow()] *)
  utcnow : nat -> datetime;
  (** [helper.reporting_period], called with the keyword arguments [kw];
      None when it raises *)
  reporting_period : dict -> option value;
  (** [helper.dictdelta(before, after)] *)
  dictdelta : dict -> dict -> value;
  (** [helper.get_date_filter(start, end)]; None when it raises *)
  get_date_filter : value -> value -> option value;
  (** the [status_name] property of the model *)
  status_name : dict -> value;
  (** the [assignee_roles] attribute of the model *)
  assignee_roles : list string;
  (** [Opportunity.STATUS.ALL], [.PENDING], [.FI] *)
  STATUS_ALL : list value;
  STATUS_PENDING : value;
  STATUS_FI : value;
  (** [bson.ObjectId(x)]; None when it raises *)
  ObjectId : value -> option value;
  (** [shlex.split], with the class of what it raises *)
  shlex_split : value -> result (list string);
  (** [re.compile(_, re.IGNORECASE)]; None when it raises *)
  re_compile : string -> option value;
  (** [str] and ['{}'.format] of a value that is not None, a bool, an int
      or a string *)
  repr : value -> string
}.

(** ** The store, the clock and the signals *)

Inductive signal :=
| opportunity_updated (opportunity : dict) (delta : value)
| opportunity_status_updated (opportunity : dict) (old_opportunity_status_name : value)
| opportunity_sub_status_updated (opportunity : dict)
| opportunity_assignment (opportunity : dict) (field : dict).

(** The [opportunity] collection maps an [_id] to the other fields of
    its document, which makes [_id] unique as the store does. *)
Record state := State {
  db : gmap N dict;
  sent : list signal;
  ticks : nat
}.

(** A computation returns a value or raises, and leaves a state either way. *)
Definition M (A : Type) : Type := state -> result A * state.

Definition ret {A} (a : A) : M A := fun st => (Ok a, st).
Definition raise {A} (e : error) : M A := fun st => (Raise e, st).
Definition bind {A B} (m : M A) (k : A -> M B) : M B :=
  fun st =>
    match m st with
    | (Ok a, st') => k a st'
    | (Raise e, st') => (Raise e, st')
    end.
Definition lift {A} (r : result A) : M A := fun st => (r, st).

Notation "x <- m ;; k" := (bind m (fun x => k))
  (at level 90, m at level 80, right associativity).
Notation "m ;;; k" := (bind m (fun _ => k))
  (at level 90, right associativity).

Definition now (E : Env) : M datetime :=
  fun st => (Ok (utcnow E (ticks st)),
             State (db st) (sent st) (S (ticks st))).

Definition send (s : signal) : M unit :=
  fun st => (Ok tt, State (db st) (sent st ++ [s]) (ticks st)).

(** [find_one({'_id': id})]: the stored fields together with the [_id]. *)
Definition find_by_id (id : N) (m : gmap N dict) : option dict :=
  match m !! id with
  | Some fields => Some (("_id", VOid id) :: fields)
  | None => None
  end.

(** [get_opportunity(id)]: the model object, or None. *)
Definition get_opportunity (id : N) : M (option dict) :=
  fun st => (Ok (find_by_id id (db st)), st).

(** [self.opportunities.update({'_id': id}, {"$set": doc})]: every field
    of [doc] is set on the stored document; [_id] may only be set to the
    value it has; with no such document nothing happens. *)
Definition update_set (id : N) (doc : dict) : M unit :=
  fun st =>
    match db st !! id with
    | None => (Ok tt, st)
    | Some fields =>
        if match dict_get "_id" doc with
           | Some v => py_eq v (VOid id)
           | None => true
           end
        then (Ok tt,
              State (<[id := dict_update fields (dict_remove "_id" doc)]> (db st))
                    (sent st) (ticks st))
        else (Raise WriteError, st)
    end.

(** ** The filter compiler (dao.py 166-321) *)

(** [s.split(sep)] with a one-character separator. *)
Fixpoint split_on (sep : ascii) (s : string) : list string :=
  match s with
  | EmptyString => [EmptyString]
  | String a r =>
      if Ascii.eqb a sep then EmptyString :: split_on sep r
      else match split_on sep r with
           | h :: t => String a h :: t
           | [] => [String a EmptyString]
           end
  end.

Fixpoint contains_str (t s : string) : bool :=
  String.prefix t s ||
  match s with
  | EmptyString => false
  | String _ r => contains_str t r
  end.

(** [x in c]. *)
Definition py_in (x c : value) : result bool :=
  match c with
  | VList l => Ok (existsb (fun e => py_eq e x) l)
  | VDict d => Ok (match x with VStr k => dict_has k d | _ => false end)
  | VStr s => match x with
              | VStr t => Ok (contains_str t s)
              | _ => Raise TypeError
              end
  | _ => Raise TypeError
  end.

(** [v.get(k)]. *)
Definition attr_get (k : string) (v : value) : result value :=
  match v with
  | VDict d => Ok (get_or VNone k d)
  | _ => Raise AttributeError
  end.

(** [v[k]] with a string [k]. *)
Definition subscript (v : value) (k : string) : result value :=
  match v with
  | VDict d => match dict_get k d with
               | Some x => Ok x
               | None => Raise KeyError
               end
  | _ => Raise TypeError
  end.

(** The values [for x in v] goes through. *)
Definition iterate (v : value) : result (list value) :=
  match v with
  | VList l => Ok l
  | VDict d => Ok (map VStr (keys d))
  | VStr s => Ok (map (fun c => VStr (String c EmptyString)) (list_ascii_of_string s))
  | _ => Raise TypeError
  end.

(** The recognized filter names, in the order of the [elif] chain. *)
Definition filter_types : list string :=
  ["ids"; "statuses"; "status_date"; "assignees"; "bdc_assignees";
   "created"; "updated"; "dealer_ids"; "organization_id"; "customer_ids";
   "lead_source"; "lead_channel"; "lead_direction"; "sub_status";
   "keywords"; "assigned_to_bdc"; "reporting_period"; "stock_type";
   "created_by"; "pitches"; "leads"; "crm_lead_ids"; "credit_applications"].

Definition cond (op : string) (v : value) : value := VDict [(op, v)].
Definition clause (field : string) (v : value) : value := VDict [(field, v)].

Section FilterCompiler.
Variable E : Env.

Definition date_range (filter_value : value) : result value :=
  start_date <~ attr_get "date_from" filter_value ;;
  end_date <~ attr_get "date_to" filter_value ;;
  or_raise HelperError (get_date_filter E start_date end_date).

(** The [terms] of the keywords filter (dao.py 267-273). *)
Definition keyword_terms (filter_value : value) : result (list value) :=
  let compile := fun t => or_raise ReError (re_compile E t) in
  match (ts <~ shlex_split E filter_value ;; map_result compile ts) with
  | Raise UnicodeEncodeError | Raise ValueError =>
      match filter_value with
      | VStr s => map_result compile (split_on " " s)
      | _ => Raise AttributeError
      end
  | r => r
  end.

(** The clauses of the reporting_period filter (dao.py 283-289). *)
Fixpoint period_clauses (rp : value) (parts : list string) : result (list value) :=
  match parts with
  | [] => Ok []
  | part :: rest =>
      present <~ py_in (VStr part) rp ;;
      here <~ (if present : bool
               then v <~ subscript rp part ;;
                    Ok [clause ("reporting_period." ++ part) v]
               else Ok []) ;;
      more <~ period_clauses rp rest ;;
      Ok (here ++ more)%list
  end.

(** One turn of the loop over [filters.items()]: the clauses that one
    filter appends to [qry['$and']]. *)
Definition filter_clauses (filter_type : string) (filter_value : value)
  : result (list value) :=
  if String.eqb filter_type "ids" then
    Ok [clause "_id" (cond "$in" filter_value)]
  else if String.eqb filter_type "statuses" then
    Ok [clause "status" (cond "$in" filter_value)]
  else if String.eqb filter_type "status_date" then
    date_filter <~ date_range filter_value ;;
    Ok [cond "$or"
          (VList (map (fun status =>
                         VDict [("status", status);
                                ("last_status_change." ++ py_str (repr E) status,
                                 date_filter)])
                      (STATUS_ALL E)))]
  else if String.eqb filter_type "assignees" then
    unassigned <~ py_in (VStr "unassigned") filter_value ;;
    if unassigned : bool then
      Ok [cond "$and" (VList [clause "sales_reps" (cond "$size" (VInt 0));
                              clause "customer_reps" (cond "$size" (VInt 0));
                              clause "sales_managers" (cond "$size" (VInt 0))])]
    else
      Ok [cond "$or" (VList [clause "sales_managers" (cond "$in" filter_value);
                             clause "sales_reps" (cond "$in" filter_value);
                             clause "customer_reps" (cond "$in" filter_value);
                             clause "bdc_reps" (cond "$in" filter_value);
                             clause "finance_managers" (cond "$in" filter_value)])]
  else if String.eqb filter_type "bdc_assignees" then
    unassigned <~ py_in (VStr "unassigned") filter_value ;;
    if unassigned : bool then Ok [clause "bdc_reps" (cond "$size" (VInt 0))]
    else Ok [clause "bdc_reps" (cond "$in" filter_value)]
  else if String.eqb filter_type "created" then
    date_filter <~ date_range filter_value ;;
    Ok [clause "created" date_filter]
  else if String.eqb filter_type "updated" then
    date_filter <~ date_range filter_value ;;
    Ok [clause "updated" date_filter]
  else if String.eqb filter_type "dealer_ids" then
    Ok [clause "dealer_id" (cond "$in" filter_value)]
  else if String.eqb filter_type "organization_id" then
    Ok [clause "organization_id" filter_value]
  else if String.eqb filter_type "customer_ids" then
    customer_ids <~ (match filter_value with
                     | VStr s => Ok (map VStr (split_on "," s))
                     | _ => iterate filter_value
                     end) ;;
    customer_ids <~ map_result (fun x => or_raise InvalidId (ObjectId E x))
                               customer_ids ;;
    Ok [clause "customer_id" (cond "$in" (VList customer_ids))]
  else if existsb (String.eqb filter_type)
                  ["lead_source"; "lead_channel"; "lead_direction"] then
    Ok [clause ("marketing." ++ filter_type) filter_value]
  else if String.eqb filter_type "sub_status" then
    Ok [clause "sub_status" filter_value]
  else if String.eqb filter_type "keywords" then
    terms <~ keyword_terms filter_value ;;
    Ok [cond "$or" (VList [clause "customer_keywords" (cond "$in" (VList terms));
                           clause "dms_deal.deal_number" filter_value])]
  else if String.eqb filter_type "assigned_to_bdc" then
    Ok [clause "bdc_reps.0" (cond "$exists" filter_value)]
  else if String.eqb filter_type "reporting_period" then
    period_clauses filter_value ["year"; "month"; "quarter"]
  else if String.eqb filter_type "stock_type" then
    Ok [clause "stock_type" filter_value]
  else if String.eqb filter_type "created_by" then
    Ok [clause "creator" (cond "$in" filter_value)]
  else if String.eqb filter_type "pitches" then
    Ok [clause "pitches" (cond "$in" filter_value)]
  else if String.eqb filter_type "leads" then
    if truthy filter_value then Ok [clause "leads" (cond "$in" filter_value)]
    else Ok [clause "leads" (cond "$eq" (VList []))]
  else if String.eqb filter_type "crm_lead_ids" then
    Ok [clause "crm_lead_ids" (cond "$in" filter_value)]
  else if String.eqb filter_type "credit_applications" then
    Ok [clause "credit_applications" (cond "$in" filter_value)]
  else
    Ok [].

(** The loop: the content of [qry['$and']] after all filters. *)
Fixpoint compile_filters (filters : dict) : result (list value) :=
  match filters with
  | [] => Ok []
  | (filter_type, filter_value) :: rest =>
      here <~ filter_clauses filter_type filter_value ;;
      more <~ compile_filters rest ;;
      Ok (here ++ more)%list
  end.

Definition make_query (filters : dict) : result value :=
  clauses <~ compile_filters filters ;;
  match clauses with
  | [] => Ok (VDict [])
  | _ => Ok (cond "$and" (VList clauses))
  end.

(** *** The list query (dao.py 323-339) *)

(** A store cursor is lazy: it is the query it will run, with its
    window and its order. *)
Record cursor := Cursor {
  cur_query : value;
  cur_skip : Z;
  cur_limit : Z;
  cur_sort : list (string * value)
}.

(** [x.items()[0]] for every [x] of [sort_by]. *)
Definition first_item (x : value) : result (string * value) :=
  match x with
  | VDict [] => Raise IndexError
  | VDict (kv :: _) => Ok kv
  | _ => Raise AttributeError
  end.

Definition _get_opportunities (filters : dict)
    (sort_by page page_size filter_query : value) : result cursor :=
  query <~ make_query filters ;;
  if negb (truthy query) then Raise InvalidQuery
  else
    let conditions :=
      query :: (if truthy filter_query then [filter_query] else []) in
    let found := cond "$and" (VList conditions) in
    window <~ (if truthy page && truthy page_size then
                 match as_int page, as_int page_size with
                 | Some p, Some n =>
                     (* a negative skip is refused by the driver *)
                     if n * (p - 1) <? 0 then Raise ValueError
                     else Ok (n * (p - 1), n)
                 | _, _ => Raise TypeError
                 end
               else Ok (0, 0)) ;;
    order <~ (if truthy sort_by then
                xs <~ iterate sort_by ;; map_result first_item xs
              else Ok []) ;;
    Ok (Cursor found (fst window) (snd window) order).

End FilterCompiler.

(** ** The update engine (dao.py 430-519) *)

(** [d.setdefault(k, {})]. *)
Definition setdefault (k : string) (d : dict) : dict :=
  if dict_has k d then d else dict_set k (VDict []) d.

Section UpdateEngine.
Variable E : Env.

Definition str (v : value) : string := py_str (repr E) v.

(** The history after a change to [status] at [status_date_change]
    (dao.py 445-456): the stamp, and the FI date of an opportunity that
    goes to PENDING without one. *)
Definition stamp_history (status status_date_change : value)
    (last_status_change : dict) : dict :=
  let last_status_change :=
    dict_set (str status) status_date_change last_status_change in
  let _is_pending := String.eqb (str status) (str (STATUS_PENDING E)) in
  let _has_fi_date :=
    truthy (get_or VNone (str (STATUS_FI E)) last_status_change) in
  if _is_pending && negb _has_fi_date
  then dict_set (str (STATUS_FI E)) status_date_change last_status_change
  else last_status_change.

(** The status branch (dao.py 434-465).  Returns the opportunity, the
    keyword arguments and, when the status changes, the old status name. *)
Definition stamp_status (status_date_change : value) (opportunity kwargs : dict)
  : M (dict * dict * option value) :=
  let status := get_or VNone "status" kwargs in
  if negb (is_none status)
     && negb (py_eq status (get_or VNone "status" opportunity)) then
    let old_status_name := status_name E opportunity in
    status_date_change <-
      (if is_none status_date_change
       then t <- now E ;; ret (VTime t)
       else ret status_date_change) ;;
    let opportunity := setdefault "last_status_change" opportunity in
    match get_or VNone "last_status_change" opportunity with
    | VDict last_status_change =>
        let last_status_change :=
          stamp_history status status_date_change last_status_change in
        (* [last_status_change] is the object stored in the opportunity *)
        let opportunity :=
          dict_set "last_status_change" (VDict last_status_change) opportunity in
        kwargs <-
          (if is_none (get_or VNone "reporting_period" kwargs) then
             y <- now E ;;
             m <- now E ;;
             period <- lift (or_raise HelperError
                               (reporting_period E [("year", VInt (dt_year y));
                                                    ("month", VInt (dt_month m))])) ;;
             ret (dict_set "reporting_period" period kwargs)
           else ret kwargs) ;;
        ret (opportunity, kwargs, Some old_status_name)
    | _ => raise TypeError
    end
  else ret (opportunity, kwargs, None).

(** The assignment signal (dao.py 467-472). *)
Definition notify_assignment (opportunity kwargs : dict) : M unit :=
  let assignee_keys :=
    filter (fun k => existsb (String.eqb k) (assignee_roles E))
           (nodup string_dec (keys kwargs)) in
  match assignee_keys with
  | [k] => send (opportunity_assignment opportunity [(k, get_or VNone k kwargs)])
  | _ => ret tt
  end.

(** The dealer lock (dao.py 474-479). *)
Definition check_dealer (opportunity kwargs : dict) : result unit :=
  if dict_has "dealer_id" kwargs then
    deal_number <~ attr_get "deal_number"
                     (get_or (VDict []) "dms_deal" opportunity) ;;
    if truthy deal_number then
      current <~ subscript (VDict opportunity) "dealer_id" ;;
      if negb (py_eq (get_or VNone "dealer_id" kwargs) current)
      then Raise DealerLocked
      else Ok tt
    else Ok tt
  else Ok tt.

(** The deal number (dao.py 481-489): [deal_number] leaves [kwargs]. *)
Definition assign_deal_number (opportunity kwargs : dict) : result (dict * dict) :=
  let deal_number := get_or VNone "deal_number" kwargs in
  let kwargs := dict_remove "deal_number" kwargs in
  if truthy deal_number then
    let opportunity := setdefault "dms_deal" opportunity in
    match get_or VNone "dms_deal" opportunity with
    | VDict dms_deal =>
        if truthy (get_or VNone "deal_number" dms_deal)
           && negb (py_eq (get_or VNone "deal_number" dms_deal) deal_number)
        then Raise DealNumberAssigned
        else Ok (dict_set "dms_deal"
                   (VDict (dict_set "deal_number" deal_number dms_deal))
                   opportunity,
                 kwargs)
    | _ => Raise AttributeError
    end
  else Ok (opportunity, kwargs).

(** The reporting period (dao.py 491-493). *)
Definition recompute_period (opportunity kwargs : dict) : result dict :=
  let period := get_or VNone "reporting_period" kwargs in
  if truthy period then
    match period with
    | VDict kw =>
        derived <~ or_raise HelperError (reporting_period E kw) ;;
        Ok (dict_set "reporting_period" derived opportunity)
    | _ => Raise TypeError
    end
  else Ok opportunity.

(** The [updated] stamp (dao.py 495-496). *)
Definition stamp_updated (opportunity kwargs : dict) : M dict :=
  if negb (truthy (get_or VNone "updated" kwargs)) then
    t <- now E ;; ret (dict_set "updated" (VTime t) opportunity)
  else ret opportunity.

(** Merge, persist and signal (dao.py 498-517). *)
Definition commit (id : N) (old_status_name : option value)
    (opportunity kwargs : dict) : M dict :=
  let old_sub_status := get_or (VStr EmptyString) "sub_status" opportunity in
  let delta := dictdelta E opportunity kwargs in
  let opportunity := dict_update opportunity kwargs in
  update_set id opportunity ;;;
  send (opportunity_updated opportunity delta) ;;;
  (match old_status_name with
   | Some name => send (opportunity_status_updated opportunity name)
   | None => ret tt
   end) ;;;
  (if negb (py_eq old_sub_status (get_or (VStr EmptyString) "sub_status" opportunity))
   then send (opportunity_sub_status_updated opportunity)
   else ret tt) ;;;
  ret opportunity.

(** [update_opportunity(id, status_date_change=None, **kwargs)].  [id] is
    an ObjectId, which is never false, so [if id and kwargs] tests
    [kwargs].  With no such opportunity [get_opportunity] gives None, and
    the first attribute read on it raises before anything else happens. *)
Definition update_opportunity (id : N) (status_date_change : value)
    (kwargs : dict) : M dict :=
  if truthy (VDict kwargs) then
    found <- get_opportunity id ;;
    match found with
    | None => raise AttributeError
    | Some opportunity =>
        r <- stamp_status status_date_change opportunity kwargs ;;
        let '(opportunity, kwargs, old_status_name) := r in
        notify_assignment opportunity kwargs ;;;
        lift (check_dealer opportunity kwargs) ;;;
        r <- lift (assign_deal_number opportunity kwargs) ;;
        let '(opportunity, kwargs) := r in
        opportunity <- lift (recompute_period opportunity kwargs) ;;
        opportunity <- stamp_updated opportunity kwargs ;;
        commit id old_status_name opportunity kwargs
    end
  else raise NoDataProvided.

(** [self.update_opportunity(opportunity_id, **opportunity)]: a key named
    like a parameter binds to it, and clashes with a positional one. *)
Definition call_update_opportunity (id : N) (opportunity : dict) : M dict :=
  if dict_has "id" opportunity || dict_has "self" opportunity
  then raise TypeError
  else update_opportunity id (get_or VNone "status_date_change" opportunity)
                          (dict_remove "status_date_change" opportunity).

(** *** Deal data (dao.py 384-428) *)

(** The items of a sequence of [[key, value]] pairs. *)
Fixpoint pairs_of (l : list value) : result dict :=
  match l with
  | [] => Ok []
  | VList [VStr k; v] :: r => d <~ pairs_of r ;; Ok (dict_set k v d)
  | _ => Raise TypeError
  end.

(** [dict(old, **kw)]. *)
Definition dict_of (old : value) (kw : dict) : result dict :=
  match old with
  | VDict d => Ok (dict_update d kw)
  | VList l => d <~ pairs_of (rev l) ;; Ok (dict_update d kw)
  | VStr EmptyString => Ok (dict_update [] kw)
  | VStr _ => Raise ValueError
  | _ => Raise TypeError
  end.

(** One of the three blocks (dao.py 390-396, 398-404, 406-412), for the
    sub-field [name]. *)
Definition merge_deal_field (name : string) (data : dict) (updated_data : value)
  : M value :=
  let incoming := get_or VNone name data in
  if truthy incoming then
    t <- now E ;;
    match incoming with
    | VDict comment =>
        let comment := dict_set "updated" (VTime t) comment in
        match updated_data with
        | VDict fields =>
            merged_comment <- lift (dict_of (get_or (VDict []) name fields) comment) ;;
            ret (VDict (dict_set name (VDict merged_comment) fields))
        | _ => raise AttributeError
        end
    | _ => raise TypeError
    end
  else ret updated_data.

Definition update_opportunity_deal_data (id : N) (data : value)
    (field_name : string) : M (option dict) :=
  if truthy data
     && existsb (String.eqb field_name) ["sales_deal"; "accounting_deal"] then
    found <- get_opportunity id ;;
    match found with
    | None => raise AttributeError
    | Some opportunity =>
        let updated_data := get_or (VDict []) field_name opportunity in
        match data with
        | VDict data =>
            let data := dict_set "_id" (VOid id) data in
            updated_data <- merge_deal_field "comment" data updated_data ;;
            updated_data <- merge_deal_field "frontend_gross" data updated_data ;;
            updated_data <- merge_deal_field "backend_gross" data updated_data ;;
            if truthy updated_data then
              let delta := dictdelta E opportunity [(field_name, updated_data)] in
              let opportunity := dict_update opportunity [(field_name, updated_data)] in
              update_set id opportunity ;;;
              send (opportunity_updated opportunity delta) ;;;
              ret (Some opportunity)
            else ret (Some opportunity)
        | _ => raise TypeError
        end
    end
  else ret None.

(** *** Attachments (dao.py 628-666) *)

(** [{'attachments': {'$elemMatch': {'_id': attachment_id}}}]: some
    element is a document whose [_id] is, or is an array with, the id. *)
Definition has_id (attachment_id : N) (a : value) : bool :=
  match a with
  | VDict attachment =>
      match dict_get "_id" attachment with
      | Some (VOid o) => N.eqb o attachment_id
      | Some (VList l) =>
          existsb (fun x => match x with
                            | VOid o => N.eqb o attachment_id
                            | _ => false
                            end) l
      | _ => false
      end
  | _ => false
  end.

Definition elem_match (attachment_id : N) (attachments : value) : bool :=
  match attachments with
  | VList l => existsb (has_id attachment_id) l
  | _ => false
  end.

(** The loop of dao.py 648-651 over the attachments from [todo] on;
    [seen] are those before.  An attachment is updated in place, inside
    the list that [opportunity] holds. *)
Fixpoint modify_loop (opportunity_id attachment_id : N) (kwargs : dict)
    (seen todo : list value) (opportunity : dict) : M dict :=
  match todo with
  | [] => ret opportunity
  | VDict attachment :: rest =>
      if py_eq (get_or VNone "_id" attachment) (VOid attachment_id) then
        let changed := VDict (dict_update attachment kwargs) in
        let opportunity :=
          dict_set "attachments" (VList (seen ++ changed :: rest)) opportunity in
        call_update_opportunity opportunity_id opportunity ;;;
        modify_loop opportunity_id attachment_id kwargs
                    (seen ++ [changed]) rest opportunity
      else
        modify_loop opportunity_id attachment_id kwargs
                    (seen ++ [VDict attachment]) rest opportunity
  | _ :: _ => raise AttributeError
  end.

(** [ObjectId(x)] on an id (dao.py 634-635, 661-662).  An ObjectId is
    returned as it is; of anything else [bson] makes an ObjectId or
    raises: InvalidId on a string that is no id, TypeError on what is no
    string. *)
Definition object_id (x : value) : result N :=
  match x with
  | VOid o => Ok o
  | _ =>
      match ObjectId E x with
      | Some (VOid o) => Ok o
      | _ => Raise (match x with VStr _ => InvalidId | _ => TypeError end)
      end
  end.

(** [modify_attachment] from the query on (dao.py 637-653), for the two
    ObjectIds. *)
Definition modify_found (opportunity_id attachment_id : N) (kwargs : dict)
  : M (option dict) :=
  found <- (fun st =>
              (Ok (match find_by_id opportunity_id (db st) with
                   | Some doc =>
                       if elem_match attachment_id (get_or VNone "attachments" doc)
                       then Some doc else None
                   | None => None
                   end), st)) ;;
  match found with
  | Some opportunity =>
      attachments <- lift (iterate (get_or VNone "attachments" opportunity)) ;;
      opportunity <- modify_loop opportunity_id attachment_id kwargs
                                 [] attachments opportunity ;;
      ret (Some opportunity)
  | None => ret None
  end.

(** [modify_attachment(opportunity_id, attachment_id, **kwargs)]: both
    ids go through [ObjectId] before anything is looked up. *)
Definition modify_attachment (opportunity_id attachment_id : value)
    (kwargs : dict) : M (option dict) :=
  opportunity_id <- lift (object_id opportunity_id) ;;
  attachment_id <- lift (object_id attachment_id) ;;
  modify_found opportunity_id attachment_id kwargs.

(** [remove_attachment(opportunity_id, attachment_id)]: the ids are
    converted here, and again in [modify_attachment]. *)
Definition remove_attachment (opportunity_id attachment_id : value)
  : M (option dict) :=
  opportunity_id <- lift (object_id opportunity_id) ;;
  attachment_id <- lift (object_id attachment_id) ;;
  modify_attachment (VOid opportunity_id) (VOid attachment_id)
                    [("deleted", VBool true)].

End UpdateEngine.

(** ** What a query matches

    The document store evaluates the compiled query.  This is its
    matching rule on the fragment the assignment filters compile to:
    [$and], [$or], and on a top-level field [$in] with strings and
    [$size].  Outside of the fragment the rule is left undefined. *)

Fixpoint strings_of (l : list value) : option (list string) :=
  match l with
  | [] => Some []
  | VStr s :: r => match strings_of r with
                   | Some ss => Some (s :: ss)
                   | None => None
                   end
  | _ => None
  end.

Definition among (ss : list string) (y : string) : bool :=
  existsb (String.eqb y) ss.

(** [{field: {op: arg}}] on a document. *)
Definition test_field (doc : dict) (field : string) (c : value) : option bool :=
  if contains_str "." field then None else
  match c with
  | VDict [(op, arg)] =>
      if String.eqb op "$in" then
        match arg with
        | VList vs =>
            match strings_of vs, dict_get field doc with
            | Some ss, Some (VList xs) =>
                match strings_of xs with
                | Some ys => Some (existsb (among ss) ys)
                | None => None
                end
            | Some ss, Some (VStr y) => Some (among ss y)
            | _, _ => None
            end
        | _ => None
        end
      else if String.eqb op "$size" then
        match arg with
        | VInt n =>
            match dict_get field doc with
            | Some (VList xs) => Some (Z.of_nat (length xs) =? n)
            | _ => Some false
            end
        | _ => None
        end
      else None
  | _ => None
  end.

Definition and_opt (a b : option bool) : option bool :=
  match a, b with
  | Some x, Some y => Some (x && y)
  | _, _ => None
  end.

Definition or_opt (a b : option bool) : option bool :=
  match a, b with
  | Some x, Some y => Some (x || y)
  | _, _ => None
  end.

Fixpoint matches (doc : dict) (q : value) {struct q} : option bool :=
  match q with
  | VDict clauses =>
      (fix all (clauses : dict) : option bool :=
         match clauses with
         | [] => Some true
         | (k, c) :: r =>
             and_opt
               (if String.eqb k "$and" then
                  match c with
                  | VList [] => None
                  | VList qs =>
                      (fix conj (qs : list value) : option bool :=
                         match qs with
                         | [] => Some true
                         | q' :: r' => and_opt (matches doc q') (conj r')
                         end) qs
                  | _ => None
                  end
                else if String.eqb k "$or" then
                  match c with
                  | VList [] => None
                  | VList qs =>
                      (fix disj (qs : list value) : option bool :=
                         match qs with
                         | [] => Some false
                         | q' :: r' => or_opt (matches doc q') (disj r')
                         end) qs
                  | _ => None
                  end
                else test_field doc k c)
               (all r)
         end) clauses
  | _ => None
  end.

(** ** A concrete setting

    One behaviour of the collaborators, and a small collection, on which
    the DAO can be run. *)
Module Fixture.

Definition quarter (month : Z) : Z := (month - 1) / 3 + 1.

Definition period_of (kw : dict) : option value :=
  match dict_get "year" kw, dict_get "month" kw with
  | Some (VInt y), Some (VInt m) =>
      Some (VDict [("year", VInt y); ("month", VInt m);
                   ("quarter", VInt (quarter m))])
  | _, _ => None
  end.

(** One level of field comparison: the fields of [after] that differ. *)
Definition delta_of (before after : dict) : value :=
  VDict (filter (fun kv => negb (py_eq (get_or VNone (fst kv) before) (snd kv)))
                after).

Definition FRESH := 1.
Definition DESK := 2.
Definition FI := 3.
Definition PENDING := 4.

Definition env : Env := {|
  utcnow := fun n => DateTime 2024 5 (Z.of_nat n);
  reporting_period := period_of;
  dictdelta := delta_of;
  get_date_filter := fun a b => Some (VDict [("$gte", a); ("$lte", b)]);
  status_name := fun o => get_or VNone "status" o;
  assignee_roles := ["sales_reps"; "sales_managers"; "customer_reps";
                     "bdc_reps"; "finance_managers"];
  STATUS_ALL := map VInt [1; 2; 3; 4; 5; 6; 7; 8; 9; 10; 11];
  STATUS_PENDING := VInt PENDING;
  STATUS_FI := VInt FI;
  ObjectId := fun v => match v with VOid o => Some v | _ => None end;
  shlex_split := fun v => match v with
                          | VStr s => Ok (split_on " " s)
                          | _ => Raise AttributeError
                          end;
  re_compile := fun s => Some (VRegex s);
  repr := fun _ => "<object>"
|}.

Definition t0 : value := VTime (DateTime 2024 1 0).

(** An opportunity at DESK for dealer 10, with deal number D100. *)
Definition fields : dict :=
  [("organization_id", VStr "org1");
   ("dealer_id", VInt 10);
   ("status", VInt DESK);
   ("last_status_change", VDict [("1", t0); ("2", t0)]);
   ("sub_status", VStr EmptyString);
   ("reporting_period",
    VDict [("year", VInt 2024); ("month", VInt 1); ("quarter", VInt 1)]);
   ("dms_deal", VDict [("deal_number", VStr "D100")]);
   ("accounting_deal",
    VDict [("frontend_gross", VDict []); ("backend_gross", VDict []);
           ("comment", VDict [("content", VStr "call back")])]);
   ("sales_reps", VList []);
   ("sales_managers", VList []);
   ("customer_reps", VList []);
   ("bdc_reps", VList [VStr "bob"]);
   ("finance_managers", VList []);
   ("attachments",
    VList [VDict [("_id", VOid 7); ("key", VStr "a.pdf"); ("deleted", VBool false)];
           VDict [("_id", VOid 8); ("key", VStr "b.pdf"); ("deleted", VBool false)]]);
   ("updated", t0)].

(** An older opportunity at FI whose history has no FI date. *)
Definition fields_fi : dict :=
  [("organization_id", VStr "org1");
   ("dealer_id", VInt 10);
   ("status", VInt FI);
   ("last_status_change", VDict [("1", t0)]);
   ("dms_deal", VDict [])].

Definition st0 : state := State (<[ 2%N := fields_fi ]> {[ 1%N := fields ]}) [] 0.

End Fixture.

(** ** The other operations of the DAO *)

(** More of what dao.py imports and does not define, or leaves to the
    interpreter: the FRESH status, [helper.reporting_period] called with
    two positional arguments, the stock-type options of the model,
    [str.lower], what ['{}'.format(x)] makes of [x], which under Python 2
    raises UnicodeEncodeError on a unicode string that is not ASCII, and
    the call into the DMS, which may do anything to the state and may
    raise. *)
Record Outside := {
  STATUS_FRESH : value;
  reporting_period_at : value -> value -> option value;
  STOCK_TYPE_ALL : list value;
  STOCK_TYPE_UNKNOWN : value;
  lower : string -> string;
  format_item : value -> result string;
  handle_vehicle_sale : value -> string -> string -> M unit
}.

(** The two signals the update path does not send. *)
Inductive lifecycle_signal :=
| opportunity_created (opportunity : dict)
| opportunity_deleted (opportunity : dict).


(** [self.opportunities.insert_one(doc)] for a document whose [_id] is
    [id]: the store refuses an [_id] it has (a DuplicateKeyError, which is
    a WriteError). *)
Definition insert_one (id : N) (doc : dict) : M unit :=
  fun st =>
    match db st !! id with
    | Some _ => (Raise WriteError, st)
    | None => (Ok tt,
               State (<[id := dict_remove "_id" doc]> (db st)) (sent st) (ticks st))
    end.

(** [target[k] = v] for every item of [kwargs], in turn. *)
Fixpoint set_items (target : value) (kwargs : dict) : result value :=
  match kwargs with
  | [] => Ok target
  | (k, v) :: rest =>
      match target with
      | VDict d => set_items (VDict (dict_set k v d)) rest
      | _ => Raise TypeError
      end
  end.

(** The items [d.update(other)] sets. *)
Definition items_of (other : value) : result dict :=
  match other with
  | VDict d => Ok d
  | VList l => pairs_of (rev l)
  | VStr EmptyString => Ok []
  | VStr _ => Raise ValueError
  | _ => Raise TypeError
  end.

Definition default_preferences : dict :=
  [("vehicle_color", VList []);
   ("vehicle_type", VList []);
   ("vehicle_style", VList []);
   ("passenger_count_upper", VInt 0);
   ("passenger_count_lower", VInt 0);
   ("vehicle_features", VDict []);
   ("vehicle_features_extra", VList []);
   ("vehicle_preference_questionnaire", VDict []);
   ("preferred_vehicles", VList [])].

Definition empty_deal : value :=
  VDict [("frontend_gross", VDict []); ("backend_gross", VDict []);
         ("comment", VDict [])].

Section OtherOperations.
Variable E : Env.
Variable O : Outside.

(** dao.py 23-88. *)
Definition OPPORTUNITY_DEFAULTS : dict :=
  [("name", VStr EmptyString);
   ("customer_name", VStr EmptyString);
   ("customer_id", VNone);
   ("customer_keywords", VList []);
   ("status", STATUS_FRESH O);
   ("last_status_change", VDict []);
   ("sub_status", VStr EmptyString);
   ("lost_reason", VStr EmptyString);
   ("creator", VStr EmptyString);
   ("stock_type", VStr EmptyString);
   ("primary_pitch_id", VStr EmptyString);
   ("sales_managers", VList []);
   ("sales_reps", VList []);
   ("customer_reps", VList []);
   ("bdc_reps", VList []);
   ("finance_managers", VList []);
   ("pitches", VList []);
   ("leads", VList []);
   ("crm_lead_ids", VList []);
   ("appraisals", VList []);
   ("credit_applications", VList []);
   ("preferences", VDict default_preferences);
   ("marketing", VDict [("lead_direction", VStr EmptyString);
                        ("lead_channel", VStr EmptyString);
                        ("lead_source", VStr EmptyString);
                        ("campaign_medium", VStr EmptyString);
                        ("campaign_source", VStr EmptyString);
                        ("campaign_name", VStr EmptyString)]);
   ("updated", VNone);
   ("created", VNone);
   ("reporting_period", VNone);
   ("dms_deal", VDict []);
   ("accounting_deal", empty_deal);
   ("sales_deal", empty_deal);
   ("attachments", VList []);
   ("gocard_referral", VDict []);
   ("rdr_punch", VDict []);
   ("finance_checklist", VDict []);
   ("accounting_checklist", VDict []);
   ("extra_checklist", VDict []);
   ("organization_id", VStr EmptyString);
   ("alert_types", VList []);
   ("test_drive_number", VInt 0)].

(** [add_opportunity] with the keyword arguments [kwargs], up to and
    including the insert
    (dao.py 128-153).  [new_id] is the id that [ObjectId()] makes. *)
Definition build_and_insert (new_id : N) (kwargs : dict) : M dict :=
  let default := OPPORTUNITY_DEFAULTS in
  let opportunity := dict_update default kwargs in
  let opportunity := dict_update opportunity [("_id", VOid new_id)] in
  t <- now E ;;
  let opportunity := dict_set "created" (VTime t) opportunity in
  let opportunity := dict_set "updated" (VTime t) opportunity in
  period <- lift (or_raise HelperError
                    (reporting_period_at O (VInt (dt_year t)) (VInt (dt_month t)))) ;;
  let opportunity := dict_set "reporting_period" period opportunity in
  history <- lift (dict_of (get_or VNone "last_status_change" opportunity)
                           [(str E (get_or VNone "status" opportunity), VTime t)]) ;;
  let opportunity := dict_set "last_status_change" (VDict history) opportunity in
  opportunity <-
    (if negb (is_none (get_or VNone "preferences" kwargs)) then
       match get_or VNone "preferences" kwargs with
       | VDict given =>
           ret (dict_set "preferences"
                         (VDict (dict_update default_preferences given))
                         opportunity)
       | _ => raise TypeError
       end
     else ret opportunity) ;;
  if negb (truthy (get_or VNone "organization_id" kwargs)) then raise TypeError
  else if negb (truthy (get_or VNone "dealer_id" kwargs)) then raise TypeError
  else insert_one new_id opportunity ;;; ret opportunity.

(** [add_opportunity]: the created signal is the last thing it does. *)
Definition add_opportunity (new_id : N) (kwargs : dict)
  : state -> result dict * state * list lifecycle_signal :=
  fun st =>
    match build_and_insert new_id kwargs st with
    | (Ok opportunity, st') =>
        (Ok opportunity, st', [opportunity_created opportunity])
    | (Raise e, st') => (Raise e, st', [])
    end.

(** [delete_opportunity(id)] (dao.py 370-379). *)
Definition delete_opportunity (id : N)
  : state -> result bool * state * list lifecycle_signal :=
  fun st =>
    match find_by_id id (db st) with
    | Some opportunity =>
        (Ok true, State (delete id (db st)) (sent st) (ticks st),
         [opportunity_deleted opportunity])
    | None => (Ok false, st, [])
    end.


(** What [update_dms_deal] raises: its own exception, a failed
    [assert], or an exception of something it calls. *)
Inductive dms_error :=
| NoDealNumber     (* "Cant update deal data because opportunity has no DMS deal number!" *)
| AssertionError
| Raised (e : error).

Definition escalate {A} (m : M A) : state -> (A + dms_error) * state :=
  fun st =>
    match m st with
    | (Ok a, st') => (inl a, st')
    | (Raise e, st') => (inr (Raised e), st')
    end.

(** [stock_type] as [update_dms_deal] derives it (dao.py 578-580). *)
Definition stock_type_of (dms_deal : dict) : result value :=
  let deal_type := get_or VNone "deal_type" dms_deal in
  lowered <~ (if truthy deal_type then
                match deal_type with
                | VStr s => Ok (VStr (lower O s))
                | _ => Raise AttributeError
                end
              else Ok (VStr (lower O EmptyString))) ;;
  if existsb (fun option => py_eq option lowered) (STOCK_TYPE_ALL O)
  then Ok lowered
  else Ok (STOCK_TYPE_UNKNOWN O).

(** [update_dms_deal(id, deal_data)] (dao.py 567-586). *)
Definition update_dms_deal (id : N) (deal_data : value)
  : state -> (dict + dms_error) * state :=
  fun st =>
    match find_by_id id (db st) with
    | None => (inr (Raised TypeError), st)
    | Some opportunity =>
        match subscript (VDict opportunity) "dms_deal" with
        | Raise e => (inr (Raised e), st)
        | Ok dms =>
            match attr_get "deal_number" dms, dms with
            | Ok number, VDict dms_deal =>
                if negb (truthy number) then (inr NoDealNumber, st)
                else
                  match py_in (VStr "deal_number") deal_data with
                  | Raise e => (inr (Raised e), st)
                  | Ok true => (inr AssertionError, st)
                  | Ok false =>
                      escalate
                        (items <- lift (items_of deal_data) ;;
                         let dms_deal := dict_update dms_deal items in
                         let opportunity :=
                           dict_set "dms_deal" (VDict dms_deal) opportunity in
                         stock_type <- lift (stock_type_of dms_deal) ;;
                         update_opportunity E id VNone
                           [("dms_deal", VDict dms_deal);
                            ("stock_type", stock_type)] ;;;
                         send (opportunity_updated opportunity
                                 (VDict [("dms_deal", deal_data)])) ;;;
                         ret opportunity) st
                  end
            | Raise e, _ => (inr (Raised e), st)
            | Ok _, _ => (inr (Raised AttributeError), st)
            end
        end
    end.

(** [add_attachment(opportunity_id, attachment_type, key, **kwargs)]
    (dao.py 588-626).  [attachment_id] is the id that [ObjectId()] makes. *)
Definition new_attachment (attachment_id : N) (attachment_type key : value)
    (kwargs : dict) (date_created : datetime) : dict :=
  [("_id", VOid attachment_id);
   ("attachment_type", attachment_type);
   ("key", key);
   ("label", get_or VNone "label" kwargs);
   ("created_by", get_or VNone "created_by" kwargs);
   ("created_by_name", get_or VNone "created_by_name" kwargs);
   ("file_hash", get_or VNone "file_hash" kwargs);
   ("file_size", get_or VNone "file_size" kwargs);
   ("content_type", get_or VNone "content_type" kwargs);
   ("file_tag", get_or VNone "file_tag" kwargs);
   ("date_created", VTime date_created);
   ("deleted", VBool false)].

Definition add_attachment (opportunity_id attachment_id : N)
    (attachment_type key : value) (kwargs : dict) : M (option dict) :=
  found <- get_opportunity opportunity_id ;;
  match found with
  | Some opportunity =>
      t <- now E ;;
      let attachment := new_attachment attachment_id attachment_type key kwargs t in
      match get_or (VList []) "attachments" opportunity with
      | VList attachments =>
          let opportunity :=
            dict_set "attachments" (VList (attachments ++ [VDict attachment]))
                     opportunity in
          call_update_opportunity E opportunity_id opportunity ;;;
          ret (Some opportunity)
      | _ => raise TypeError
      end
  | None => ret None
  end.

(** [update_preferences(id, **kwargs)] (dao.py 668-680). *)
Definition update_preferences (id : N) (kwargs : dict) : M (option dict) :=
  found <- get_opportunity id ;;
  match found with
  | Some opportunity =>
      let opportunity :=
        if negb (truthy (get_or VNone "preferences" opportunity))
        then dict_set "preferences" (VDict default_preferences) opportunity
        else opportunity in
      preferences <- lift (set_items (get_or VNone "preferences" opportunity) kwargs) ;;
      opportunity <- update_opportunity E id VNone [("preferences", preferences)] ;;
      ret (Some opportunity)
  | None => ret None
  end.

(** [get_preferences(id)] (dao.py 682-684). *)
Definition get_preferences (id : N) : M value :=
  found <- get_opportunity id ;;
  match found with
  | Some opportunity => lift (subscript (VDict opportunity) "preferences")
  | None => raise TypeError
  end.

(** [update_marketing_data(id, **kwargs)] (dao.py 686-695). *)
Definition update_marketing_data (id : N) (kwargs : dict) : M (option dict) :=
  found <- get_opportunity id ;;
  match found with
  | Some opportunity =>
      marketing <- lift (subscript (VDict opportunity) "marketing") ;;
      marketing <- lift (set_items marketing kwargs) ;;
      opportunity <- update_opportunity E id VNone [("marketing", marketing)] ;;
      ret (Some opportunity)
  | None => ret None
  end.

(** [get_marketing_data(id)] (dao.py 697-701). *)
Definition get_marketing_data (id : N) : M value :=
  found <- get_opportunity id ;;
  match found with
  | Some opportunity => lift (subscript (VDict opportunity) "marketing")
  | None => ret VNone
  end.

(** [set_reporting_period(opportunity_id, year, month)] (dao.py 779-786). *)
Definition set_reporting_period (opportunity_id : N) (year month : value)
  : M dict :=
  period <- lift (or_raise HelperError
                    (reporting_period E [("year", year); ("month", month)])) ;;
  update_opportunity E opportunity_id VNone [("reporting_period", period)].

End OtherOperations.

(** ** The request schemas (schemas.py) *)

(** [OpportunitiesFilterSchema.wrap_loose_reporting_period_params]
    (schemas.py 249-260): the data to load instead, or None to load
    [data] as it is. *)
Definition move_loose (k : string) (data updated_data : dict) : dict :=
  if dict_has k data then
    let period := match get_or VNone "reporting_period" updated_data with
                  | VDict p => p
                  | _ => []
                  end in
    dict_set "reporting_period"
             (VDict (dict_set k (get_or VNone k updated_data) period))
             (dict_remove k updated_data)
  else updated_data.

Definition wrap_loose_reporting_period_params (data : dict) : option dict :=
  if negb (dict_has "reporting_period" data)
     && existsb (fun k => dict_has k data) ["month"; "year"; "quarter"] then
    let updated_data := data in
    let updated_data := dict_set "reporting_period" (VDict []) updated_data in
    let updated_data := move_loose "month" data updated_data in
    let updated_data := move_loose "year" data updated_data in
    let updated_data := move_loose "quarter" data updated_data in
    Some updated_data
  else None.

(** [OpportunitiesParamsSchema.sort_by_to_array] (schemas.py 297-302). *)
Definition sort_by_to_array (data : dict) : option dict :=
  match dict_get "sort_by" data with
  | Some (VList _) => None
  | Some v => Some (dict_set "sort_by" (VList [v]) data)
  | None => None
  end.

(** What a pre-load hook hands to the loader. *)
Definition pre_loaded (hook : dict -> option dict) (data : dict) : dict :=
  match hook data with Some updated_data => updated_data | None => data end.

(** ** A concrete setting for the other operations *)
Module Sample.

Definition lower_ascii (c : ascii) : ascii :=
  let n := nat_of_ascii c in
  if (65 <=? n)%nat && (n <=? 90)%nat then ascii_of_nat (n + 32) else c.

Fixpoint lower_string (s : string) : string :=
  match s with
  | EmptyString => EmptyString
  | String c r => String (lower_ascii c) (lower_string r)
  end.

Definition ascii_only (s : string) : bool :=
  forallb (fun c => (nat_of_ascii c <? 128)%nat) (list_ascii_of_string s).

(** The DMS knows every deal but "bad"; strings are unicode strings. *)
Definition outside : Outside := {|
  STATUS_FRESH := VInt Fixture.FRESH;
  reporting_period_at := fun y m => Fixture.period_of [("year", y); ("month", m)];
  STOCK_TYPE_ALL := [VStr "new"; VStr "used"];
  STOCK_TYPE_UNKNOWN := VStr "unknown";
  lower := lower_string;
  format_item := fun v =>
    match v with
    | VStr s => if ascii_only s then Ok s else Raise UnicodeEncodeError
    | _ => Ok (py_str (repr Fixture.env) v)
    end;
  handle_vehicle_sale := fun _ _ item =>
    if String.eqb item "FI-WIP*bad" then raise HelperError else ret tt
|}.

(** An opportunity with preferences and marketing data, and no deal yet. *)
Definition fields : dict :=
  [("organization_id", VStr "org1");
   ("dealer_id", VInt 10);
   ("status", VInt Fixture.DESK);
   ("last_status_change", VDict [("1", Fixture.t0); ("2", Fixture.t0)]);
   ("sub_status", VStr "hot");
   ("preferences", VDict [("vehicle_color", VList [VStr "red"]);
                          ("passenger_count_upper", VInt 5)]);
   ("marketing", VDict [("lead_channel", VStr "web");
                        ("lead_source", VStr "ad")]);
   ("dms_deal", VDict []);
   ("sales_reps", VList [VStr "ann"]);
   ("attachments", VList [])].

Definition st0 : state := State (<[ 3%N := fields ]> (db Fixture.st0)) [] 0.

(** The collaborators of the fixture, with an [ObjectId] that reads the
    string of one id, a [shlex.split] that has no closing quotation for
    an apostrophe and a [re.compile] that refuses an open parenthesis. *)
Definition env : Env := {|
  utcnow := utcnow Fixture.env;
  reporting_period := reporting_period Fixture.env;
  dictdelta := dictdelta Fixture.env;
  get_date_filter := get_date_filter Fixture.env;
  status_name := status_name Fixture.env;
  assignee_roles := assignee_roles Fixture.env;
  STATUS_ALL := STATUS_ALL Fixture.env;
  STATUS_PENDING := STATUS_PENDING Fixture.env;
  STATUS_FI := STATUS_FI Fixture.env;
  ObjectId := fun v => match v with
                       | VOid _ => Some v
                       | VStr s =>
                           if String.eqb s "000000000000000000000007"
                           then Some (VOid 7) else None
                       | _ => None
                       end;
  shlex_split := fun v => match v with
                          | VStr s => if contains_str "'" s then Raise ValueError
                                      else Ok (split_on " " s)
                          | _ => Raise AttributeError
                          end;
  re_compile := fun s => if String.eqb s "(" then None else Some (VRegex s);
  repr := repr Fixture.env
|}.

End Sample.

(** ** The vocabulary of the properties *)

(** An assignment set with nobody in it. *)
Definition nobody (l : list string) : bool :=
  match l with [] => true | _ => false end.

(** Whether the patch changes the status (dao.py 434). *)
Definition status_changes (opportunity kwargs : dict) : bool :=
  negb (is_none (get_or VNone "status" kwargs))
  && negb (py_eq (get_or VNone "status" kwargs) (get_or VNone "status" opportunity)).

(** The time of the change: the given one, or the clock's. *)
Definition change_time (E : Env) (status_date_change : value) (st : state)
  : value :=
  if is_none status_date_change then VTime (utcnow E (ticks st))
  else status_date_change.

(** The stored document once [commit] has written [opportunity]. *)
Definition written (fields opportunity : dict) : dict :=
  dict_update fields (dict_remove "_id" opportunity).

(** The data model has [last_status_change] a mapping. *)
Definition history_ok (opportunity : dict) : bool :=
  match dict_get "last_status_change" opportunity with
  | None | Some (VDict _) => true
  | Some _ => false
  end.

(** [helper.reporting_period] returns on a year and a month. *)
Definition calendar_total (E : Env) : Prop :=
  forall y m, exists p,
    reporting_period E [("year", VInt y); ("month", VInt m)] = Some p.

(** What [helper.reporting_period] returns it takes as its keyword
    arguments, as every change of status has it do (dao.py 460, 492). *)
Definition period_reentrant (E : Env) : Prop :=
  forall kw p,
    reporting_period E kw = Some p -> truthy p = true ->
    exists d p', p = VDict d /\ reporting_period E d = Some p'.

(** [dms_deal.deal_number] of the stored opportunity. *)
Definition stored_deal_number (id : N) (m : gmap N dict) : option value :=
  match m !! id with
  | Some fields =>
      match dict_get "dms_deal" fields with
      | Some (VDict dms_deal) => dict_get "deal_number" dms_deal
      | _ => None
      end
  | None => None
  end.

(** The recorded status dates of a stored opportunity. *)
Definition history_of (fields : dict) : dict :=
  match get_or (VDict []) "last_status_change" fields with
  | VDict l => l
  | _ => []
  end.

(** The recorded status dates of the opportunity stored under [id]. *)
Definition stored_history (id : N) (m : gmap N dict) : option dict :=
  option_map history_of (m !! id).

(** The sub-fields of a deal record that the deal-data update merges. *)
Definition deal_fields : list string :=
  ["comment"; "frontend_gross"; "backend_gross"].

(** The sub-field [name] of the patch is empty or missing, or it is a
    mapping and so is what the deal record has for it, if anything. *)
Definition mergeable (name : string) (data record : dict) : Prop :=
  truthy (get_or VNone name data) = false
  \/ exists p o, get_or VNone name data = VDict p
                 /\ get_or (VDict []) name record = VDict o.

(** The opportunity is stored and the query of dao.py 638-645 finds it. *)
Definition has_attachment (opportunity_id attachment_id : N) (m : gmap N dict)
  : bool :=
  match find_by_id opportunity_id m with
  | Some doc => elem_match attachment_id (get_or VNone "attachments" doc)
  | None => false
  end.

(** The attachments of the stored opportunity. *)
Definition stored_attachments (opportunity_id : N) (m : gmap N dict)
  : list value :=
  match m !! opportunity_id with
  | Some fields =>
      match dict_get "attachments" fields with
      | Some (VList l) => l
      | _ => []
      end
  | None => []
  end.

(** The attachment is the one the loop looks for (dao.py 649). *)
Definition is_attachment (attachment_id : N) (a : value) : bool :=
  match a with
  | VDict attachment => py_eq (get_or VNone "_id" attachment) (VOid attachment_id)
  | _ => false
  end.

(** What the loop makes of an attachment. *)
Definition modified (attachment_id : N) (kwargs : dict) (a : value) : value :=
  match a with
  | VDict attachment =>
      if py_eq (get_or VNone "_id" attachment) (VOid attachment_id)
      then VDict (dict_update attachment kwargs)
      else a
  | _ => a
  end.

(** Every attachment with the id has [deleted] set to True. *)
Definition all_deleted (attachment_id : N) (l : list value) : bool :=
  forallb (fun a => match a with
                    | VDict attachment =>
                        negb (is_attachment attachment_id a)
                        || py_eq (get_or VNone "deleted" attachment) (VBool true)
                    | _ => true
                    end) l.

(** [ObjectId(x)] is the ObjectId [o]: [x] is that ObjectId, or it is
    what [bson] makes of [x]. *)
Definition converts (E : Env) (x : value) (o : N) : Prop :=
  x = VOid o
  \/ ((forall o', x <> VOid o') /\ ObjectId E x = Some (VOid o)).

(** [ObjectId(x)] raises: [x] is no ObjectId and [bson] makes none of
    it. *)
Definition refused (E : Env) (x : value) : Prop :=
  (forall o, x <> VOid o) /\ (forall o, ObjectId E x <> Some (VOid o)).

(** The attachment is a document whose [_id] is the ObjectId
    [attachment_id]. *)
Definition attachment_of (attachment_id : N) (a : value) : Prop :=
  exists d, a = VDict d /\ dict_get "_id" d = Some (VOid attachment_id).

(** The attachment is a document whose [_id] is another ObjectId. *)
Definition other_attachment (attachment_id : N) (a : value) : Prop :=
  exists d o, a = VDict d /\ dict_get "_id" d = Some (VOid o)
              /\ o <> attachment_id.

(** Every attachment of the id is marked as deleted. *)
Definition tombstoned (attachment_id : N) (l : list value) : Prop :=
  Forall (fun a => forall d, a = VDict d ->
                             dict_get "_id" d = Some (VOid attachment_id) ->
                             dict_get "deleted" d = Some (VBool true)) l.

(** The attachment is a document. *)
Definition is_document (a : value) : bool :=
  match a with VDict _ => true | _ => false end.

(** A value that is no list and no mapping. *)
Definition scalar (v : value) : bool :=
  match v with VList _ | VDict _ => false | _ => true end.

(** The fields that decide whether [update_opportunity] takes the
    opportunity back as its own patch. *)
Definition resaved_keys : list string :=
  ["id"; "self"; "status"; "dealer_id"; "dms_deal"; "deal_number";
   "reporting_period"].

(** The stored opportunity is one that [update_opportunity] takes back
    as its own patch, which is how the attachments are saved (dao.py
    651): no field has the name of a parameter; the status and the dealer
    are scalars; the deal record is a mapping; the deal number is in the
    deal record only; the reporting period is empty or one that the
    helper accepts. *)
Definition resavable (E : Env) (fields : dict) : bool :=
  negb (dict_has "id" fields) && negb (dict_has "self" fields)
  && scalar (get_or VNone "status" fields)
  && scalar (get_or VNone "dealer_id" fields)
  && match get_or (VDict []) "dms_deal" fields with
     | VDict _ => true
     | _ => false
     end
  && negb (truthy (get_or VNone "deal_number" fields))
  && (negb (truthy (get_or VNone "reporting_period" fields))
      || match get_or VNone "reporting_period" fields with
         | VDict d => match reporting_period E d with
                      | Some _ => true
                      | None => false
                      end
         | _ => false
         end).

(** Unfolds one layer of the monad. *)
Ltac run_monad :=
  unfold bind, ret, raise, lift, now, send in *; cbn [fst snd db sent ticks] in *.

(** ** The vocabulary of the further properties *)

(** The filter gives no clause: its name is not recognized, or it is a
    reporting period with no year, month or quarter. *)
Definition clauseless (filter_type : string) (filter_value : value) : Prop :=
  ~ In filter_type filter_types
  \/ (filter_type = "reporting_period"
      /\ exists d, filter_value = VDict d
                   /\ dict_has "year" d = false
                   /\ dict_has "month" d = false
                   /\ dict_has "quarter" d = false).

(** The assignment fields among the keys of a patch (dao.py 468). *)
Definition assignee_keys (E : Env) (kwargs : dict) : list string :=
  filter (fun k => existsb (String.eqb k) (assignee_roles E))
         (nodup string_dec (keys kwargs)).

(** The assignment signal of a patch, if it has one (dao.py 469-472). *)
Definition assignment_signals (E : Env) (opportunity kwargs : dict) : list signal :=
  match assignee_keys E kwargs with
  | [k] => [opportunity_assignment opportunity [(k, get_or VNone k kwargs)]]
  | _ => []
  end.

(** The reading of the clock that follows the stamp of a status change. *)
Definition period_reading (status_date_change : value) (st : state) : nat :=
  if is_none status_date_change then S (ticks st) else ticks st.

(** The opportunity that [add_opportunity] builds before it looks at
    the preferences (dao.py 131-140). *)
Definition drafted (O : Outside) (new_id : N) (kwargs : dict) (t : datetime) (period : value)
    (history : dict) : dict :=
  dict_set "last_status_change" (VDict history)
    (dict_set "reporting_period" period
       (dict_set "updated" (VTime t)
          (dict_set "created" (VTime t)
             (dict_update (dict_update (OPPORTUNITY_DEFAULTS O) kwargs)
                          [("_id", VOid new_id)])))).

(** * Properties *)

(** ** Dictionaries *)

Lemma eqb_sym_str (a b : string) : String.eqb a b = String.eqb b a.
Proof.
  destruct (String.eqb_spec a b) as [->|Hab].
  - symmetry. apply String.eqb_refl.
  - symmetry. apply String.eqb_neq. congruence.
Qed.

Lemma dict_get_set (k k' : string) (v : value) (d : dict) :
  dict_get k (dict_set k' v d) = if String.eqb k k' then Some v else dict_get k d.
Proof.
  induction d as [|[k0 v0] r IH]; simpl.
  - reflexivity.
  - destruct (String.eqb_spec k' k0) as [->|Hne]; simpl.
    + destruct (String.eqb k k0); reflexivity.
    + destruct (String.eqb_spec k k0) as [->|Hne'].
      * destruct (String.eqb_spec k0 k'); [congruence | reflexivity].
      * exact IH.
Qed.

Lemma dict_get_set_same (k : string) (v : value) (d : dict) :
  dict_get k (dict_set k v d) = Some v.
Proof. rewrite dict_get_set, String.eqb_refl. reflexivity. Qed.

Lemma dict_get_set_other (k k' : string) (v : value) (d : dict) :
  k <> k' -> dict_get k (dict_set k' v d) = dict_get k d.
Proof.
  intros Hne. rewrite dict_get_set.
  destruct (String.eqb_spec k k'); [contradiction | reflexivity].
Qed.

Lemma dict_get_update (k : string) (d kw : dict) :
  dict_get k (dict_update d kw) =
  match dict_get k kw with Some v => Some v | None => dict_get k d end.
Proof.
  induction kw as [|[k0 v0] r IH]; simpl.
  - reflexivity.
  - rewrite dict_get_set. destruct (String.eqb k k0); [reflexivity | exact IH].
Qed.

Lemma dict_get_remove (k k' : string) (d : dict) :
  dict_get k (dict_remove k' d) = if String.eqb k k' then None else dict_get k d.
Proof.
  induction d as [|[k0 v0] r IH]; simpl.
  - destruct (String.eqb k k'); reflexivity.
  - destruct (String.eqb_spec k' k0) as [->|Hne]; simpl.
    + rewrite IH. destruct (String.eqb k k0); reflexivity.
    + destruct (String.eqb_spec k k0) as [->|Hne'].
      * destruct (String.eqb_spec k0 k'); [congruence | reflexivity].
      * exact IH.
Qed.

Lemma dict_get_remove_other (k k' : string) (d : dict) :
  k <> k' -> dict_get k (dict_remove k' d) = dict_get k d.
Proof.
  intros Hne. rewrite dict_get_remove.
  destruct (String.eqb_spec k k'); [contradiction | reflexivity].
Qed.

Lemma dict_get_setdefault (k k' : string) (d : dict) :
  k <> k' -> dict_get k (setdefault k' d) = dict_get k d.
Proof.
  intros Hne. unfold setdefault.
  destruct (dict_has k' d); [reflexivity | now apply dict_get_set_other].
Qed.

Lemma dict_get_setdefault_same (k : string) (d : dict) :
  dict_get k (setdefault k d) = Some (get_or (VDict []) k d).
Proof.
  unfold setdefault, dict_has, get_or.
  destruct (dict_get k d) eqn:Hk.
  - exact Hk.
  - apply dict_get_set_same.
Qed.

Lemma length_dict_set_ge (k : string) (v : value) (d : dict) :
  (length d <= length (dict_set k v d))%nat.
Proof.
  induction d as [|[k0 v0] r IH]; simpl.
  - lia.
  - destruct (String.eqb k k0); simpl; lia.
Qed.

Lemma dict_set_nonempty (k : string) (v : value) (d : dict) :
  truthy (VDict (dict_set k v d)) = true.
Proof.
  destruct d as [|[k0 v0] r]; simpl; [reflexivity|].
  destruct (String.eqb k k0); reflexivity.
Qed.

(** ** Equality with a string, an ObjectId *)

Lemma py_eq_str (s : string) (v : value) :
  py_eq (VStr s) v = true <-> v = VStr s.
Proof.
  destruct v; simpl; split; intros H; try discriminate.
  - apply String.eqb_eq in H. congruence.
  - injection H as ->. apply String.eqb_refl.
Qed.

Lemma py_eq_oid (o : N) (v : value) :
  py_eq v (VOid o) = true <-> v = VOid o.
Proof.
  destruct v; simpl; split; intros H; try discriminate.
  - apply N.eqb_eq in H. congruence.
  - injection H as ->. apply N.eqb_refl.
Qed.

(** ** The filter compiler *)

Section FilterCompilerFacts.
Variable E : Env.

Lemma filter_clauses_unknown (k : string) (v : value) :
  ~ In k filter_types -> filter_clauses E k v = Ok [].
Proof.
  intros Hk. unfold filter_clauses. cbn [existsb].
  repeat match goal with
         | |- context [String.eqb k ?s] =>
             destruct (String.eqb_spec k s) as [Heq|_];
             [exfalso; apply Hk; rewrite Heq; cbn; tauto | cbn [orb]]
         end.
  reflexivity.
Qed.

Lemma compile_filters_app (F1 F2 : dict) :
  compile_filters E (F1 ++ F2) =
  (a <~ compile_filters E F1 ;; b <~ compile_filters E F2 ;; Ok (a ++ b)%list).
Proof.
  induction F1 as [|[k v] r IH]; simpl.
  - destruct (compile_filters E F2); reflexivity.
  - destruct (filter_clauses E k v) as [cs|e]; simpl; [|reflexivity].
    rewrite IH.
    destruct (compile_filters E r) as [a|e]; simpl; [|reflexivity].
    destruct (compile_filters E F2) as [b|e]; simpl; [|reflexivity].
    now rewrite app_assoc.
Qed.

Lemma compile_filters_unknown (F1 F2 : dict) (k : string) (v : value) :
  ~ In k filter_types ->
  compile_filters E (F1 ++ (k, v) :: F2) = compile_filters E (F1 ++ F2).
Proof.
  intros Hk. rewrite !compile_filters_app. simpl.
  rewrite (filter_clauses_unknown k v Hk). simpl.
  destruct (compile_filters E F1) as [a|e]; simpl; [|reflexivity].
  destruct (compile_filters E F2) as [b|e]; reflexivity.
Qed.

(** C9.  A filter whose name is not one of the recognized ones is
    ignored: wherever the entry [(k, v)] stands among the filters,
    [make_query] gives what it gives without it, be it a query or an
    exception; no clause comes from it and it raises nothing. *)
Theorem make_query_ignores_unknown (F1 F2 : dict) (k : string) (v : value) :
  ~ In k filter_types ->
  make_query E (F1 ++ (k, v) :: F2) = make_query E (F1 ++ F2).
Proof.
  intros Hk. unfold make_query.
  now rewrite (compile_filters_unknown F1 F2 k v Hk).
Qed.

(** Setting an unrecognized key in the filters, new or not, changes
    nothing either. *)
Lemma compile_filters_set_unknown (F : dict) (k : string) (v : value) :
  ~ In k filter_types ->
  compile_filters E (dict_set k v F) = compile_filters E F.
Proof.
  intros Hk. induction F as [|[k0 v0] r IH]; simpl.
  - now rewrite (filter_clauses_unknown k v Hk).
  - destruct (String.eqb_spec k k0) as [<-|Hne]; simpl.
    + now rewrite !(filter_clauses_unknown k _ Hk).
    + now rewrite IH.
Qed.

(** The empty query matches every document. *)
Lemma match_all (doc : dict) : matches doc (VDict []) = Some true.
Proof. reflexivity. Qed.

(** C6, as the code has it.  Compiling no filters gives the match-all
    query and no exception; the list query refuses it: on no filters
    [_get_opportunities] raises the "Invalid query" ValueError, whatever
    its other arguments. *)
Theorem empty_filters_compile_but_list_query_raises
    (sort_by page page_size filter_query : value) :
  make_query E [] = Ok (VDict [])
  /\ (forall doc, matches doc (VDict []) = Some true)
  /\ _get_opportunities E [] sort_by page page_size filter_query
     = Raise InvalidQuery.
Proof.
  split; [reflexivity|]. split; [exact match_all|]. reflexivity.
Qed.

End FilterCompilerFacts.

Lemma make_query_ignores_unknown_witness :
  ~ In "colour" filter_types
  /\ make_query Fixture.env ([("ids", VList [VOid 1])] ++ ("colour", VStr "red") :: [])
     = make_query Fixture.env ([("ids", VList [VOid 1])] ++ []).
Proof.
  assert (H : ~ In "colour" filter_types).
  { cbn. intros H. repeat (destruct H as [H|H]; [discriminate H|]). exact H. }
  split; [exact H|].
  exact (make_query_ignores_unknown Fixture.env [("ids", VList [VOid 1])] []
           "colour" (VStr "red") H).
Defined.

(** C6 as stated fails: the list query on no filters raises. *)
Lemma list_query_on_empty_filters_raises :
  _get_opportunities Fixture.env [] VNone VNone VNone VNone = Raise InvalidQuery.
Proof. reflexivity. Qed.

(** *** The assignment filter *)

Lemma strings_of_map (l : list string) : strings_of (map VStr l) = Some l.
Proof.
  induction l as [|s r IH]; simpl; [reflexivity | now rewrite IH].
Qed.

Lemma in_strings (u : string) (vs : list string) :
  existsb (fun e => py_eq e (VStr u)) (map VStr vs) = among vs u.
Proof.
  unfold among. induction vs as [|s r IH]; simpl; [reflexivity|].
  now rewrite IH, (eqb_sym_str s u).
Qed.

Lemma size_zero (l : list string) :
  (Z.of_nat (length (map VStr l)) =? 0) = nobody l.
Proof. destruct l; reflexivity. Qed.

(** C5, as the code has it.  On an opportunity whose five assignment
    fields hold lists of user names, the query compiled from an
    [assignees] filter with "unassigned" among its values matches exactly
    when [sales_reps], [customer_reps] and [sales_managers] are empty
    ([bdc_reps] and [finance_managers] are not looked at); compiled from
    other values it matches exactly when one of the values is in one of
    the five lists. *)
Theorem assignees_filter_matches (E : Env) (vs sm sr cr br fm : list string)
    (doc : dict) :
  dict_get "sales_managers" doc = Some (VList (map VStr sm)) ->
  dict_get "sales_reps" doc = Some (VList (map VStr sr)) ->
  dict_get "customer_reps" doc = Some (VList (map VStr cr)) ->
  dict_get "bdc_reps" doc = Some (VList (map VStr br)) ->
  dict_get "finance_managers" doc = Some (VList (map VStr fm)) ->
  exists q,
    make_query E [("assignees", VList (map VStr vs))] = Ok q
    /\ matches doc q =
       Some (if among vs "unassigned"
             then nobody sr && nobody cr && nobody sm
             else existsb (among vs) sm || existsb (among vs) sr
                  || existsb (among vs) cr || existsb (among vs) br
                  || existsb (among vs) fm).
Proof.
  intros Hsm Hsr Hcr Hbr Hfm.
  unfold make_query. cbn [compile_filters].
  change (filter_clauses E "assignees" (VList (map VStr vs)))
    with (unassigned <~ py_in (VStr "unassigned") (VList (map VStr vs)) ;;
          if unassigned : bool then
            Ok [cond "$and" (VList [clause "sales_reps" (cond "$size" (VInt 0));
                                    clause "customer_reps" (cond "$size" (VInt 0));
                                    clause "sales_managers" (cond "$size" (VInt 0))])]
          else
            Ok [cond "$or"
                  (VList [clause "sales_managers" (cond "$in" (VList (map VStr vs)));
                          clause "sales_reps" (cond "$in" (VList (map VStr vs)));
                          clause "customer_reps" (cond "$in" (VList (map VStr vs)));
                          clause "bdc_reps" (cond "$in" (VList (map VStr vs)));
                          clause "finance_managers" (cond "$in" (VList (map VStr vs)))])]).
  unfold py_in. rewrite in_strings.
  destruct (among vs "unassigned"); cbn [rbind app]; eexists; (split; [reflexivity|]).
  - cbn. unfold test_field. cbn. rewrite Hsr, Hcr, Hsm, !size_zero. cbn.
    f_equal. destruct (nobody sr), (nobody cr), (nobody sm); reflexivity.
  - cbn. unfold test_field. cbn.
    rewrite Hsm, Hsr, Hcr, Hbr, Hfm, !strings_of_map. cbn.
    f_equal.
    destruct (existsb (among vs) sm), (existsb (among vs) sr),
      (existsb (among vs) cr), (existsb (among vs) br),
      (existsb (among vs) fm); reflexivity.
Qed.

Lemma assignees_filter_matches_witness :
  exists q,
    make_query Fixture.env [("assignees", VList (map VStr ["bob"]))] = Ok q
    /\ matches Fixture.fields q = Some true.
Proof.
  exact (assignees_filter_matches Fixture.env ["bob"] [] [] [] ["bob"] []
           Fixture.fields eq_refl eq_refl eq_refl eq_refl eq_refl).
Defined.

(** C5 as stated fails: an opportunity with a BDC rep and nobody in the
    other four sets is matched by the "unassigned" query. *)
Lemma unassigned_matches_with_bdc_rep :
  exists q,
    make_query Fixture.env [("assignees", VList [VStr "unassigned"])] = Ok q
    /\ matches Fixture.fields q = Some true
    /\ dict_get "bdc_reps" Fixture.fields = Some (VList [VStr "bob"]).
Proof.
  eexists. split; [reflexivity|]. split; reflexivity.
Qed.

(** ** The update engine *)

Section UpdateFacts.
Variable E : Env.

Lemma stamp_status_db sdc opp kw st r st1 :
  stamp_status E sdc opp kw st = (r, st1) -> db st1 = db st.
Proof.
  unfold stamp_status.
  destruct (negb (is_none (get_or VNone "status" kw)) && _); run_monad.
  - destruct (is_none sdc); cbn;
      (destruct (get_or VNone "last_status_change" (setdefault "last_status_change" opp));
       try (intros [= <- <-]; reflexivity));
      (destruct (is_none (get_or VNone "reporting_period" kw)); cbn;
       [destruct (or_raise HelperError _); cbn|]; intros [= <- <-]; reflexivity).
  - intros [= <- <-]. reflexivity.
Qed.

Lemma stamp_status_same sdc opp kw st :
  status_changes opp kw = false ->
  stamp_status E sdc opp kw st = (Ok (opp, kw, None), st).
Proof.
  unfold status_changes, stamp_status. intros ->. reflexivity.
Qed.

(** What the status branch leaves when the status changes. *)
Lemma stamp_status_changed sdc opp kw st opp1 kw1 osn st1 :
  status_changes opp kw = true ->
  stamp_status E sdc opp kw st = (Ok (opp1, kw1, osn), st1) ->
  exists lsc,
    get_or (VDict []) "last_status_change" opp = VDict lsc
    /\ opp1 = dict_set "last_status_change"
                (VDict (stamp_history E (get_or VNone "status" kw)
                          (change_time E sdc st) lsc))
                (setdefault "last_status_change" opp)
    /\ (kw1 = kw
        \/ exists y m p,
             reporting_period E [("year", VInt y); ("month", VInt m)] = Some p
             /\ kw1 = dict_set "reporting_period" p kw).
Proof.
  unfold status_changes, stamp_status, change_time. intros ->. run_monad.
  assert (Hlsc : get_or VNone "last_status_change" (setdefault "last_status_change" opp)
                 = get_or (VDict []) "last_status_change" opp).
  { unfold get_or at 1. now rewrite dict_get_setdefault_same. }
  rewrite Hlsc.
  destruct (is_none sdc); cbn;
    (destruct (get_or (VDict []) "last_status_change" opp) as [| | | | | | | |lsc];
     try discriminate);
    (destruct (is_none (get_or VNone "reporting_period" kw)); cbn;
     [match goal with
      | |- context [reporting_period E ?kw0] =>
          destruct (reporting_period E kw0) as [p|] eqn:Hp
      end; cbn; [|discriminate]|]);
    intros [= <- <- <- <-]; exists lsc; (split; [reflexivity|]);
    (split; [reflexivity|]); eauto 6.
Qed.

Lemma notify_assignment_run opp kw st :
  exists st', notify_assignment E opp kw st = (Ok tt, st')
              /\ db st' = db st /\ ticks st' = ticks st.
Proof.
  unfold notify_assignment.
  destruct (filter _ _) as [|k [|k' r]]; run_monad; eauto.
Qed.

Lemma stamp_updated_run opp kw st :
  exists opp' st', stamp_updated E opp kw st = (Ok opp', st')
                   /\ db st' = db st
                   /\ forall k, k <> "updated" -> dict_get k opp' = dict_get k opp.
Proof.
  unfold stamp_updated.
  destruct (negb (truthy (get_or VNone "updated" kw))); run_monad.
  - do 2 eexists. split; [reflexivity|]. split; [reflexivity|].
    intros k Hk. now apply dict_get_set_other.
  - do 2 eexists. split; [reflexivity|]. split; [reflexivity|]. reflexivity.
Qed.

Lemma commit_run id osn opp kw st fields r st' :
  db st !! id = Some fields ->
  commit E id osn opp kw st = (r, st') ->
  (is_ok r = false /\ db st' = db st)
  \/ (r = Ok (dict_update opp kw)
      /\ db st' = <[id := written fields (dict_update opp kw)]> (db st)).
Proof.
  intros Hid. unfold commit, update_set. run_monad. rewrite Hid.
  destruct (match dict_get "_id" (dict_update opp kw) with
            | Some v => py_eq v (VOid id)
            | None => true
            end); cbn.
  - destruct osn; cbn;
      (destruct (negb (py_eq _ _)); cbn; intros [= <- <-]; right; split; reflexivity).
  - intros [= <- <-]. left. split; reflexivity.
Qed.

(** The anatomy of a call: it leaves the collection as it was and
    raises, or every step went through and the merged opportunity was
    written. *)
Lemma update_opportunity_run id sdc kwargs st r st' :
  update_opportunity E id sdc kwargs st = (r, st') ->
  (is_ok r = false /\ db st' = db st)
  \/ exists fields opp1 kw1 osn st1 opp2 kw2 opp3 opp4,
       db st !! id = Some fields
       /\ stamp_status E sdc (("_id", VOid id) :: fields) kwargs st
          = (Ok (opp1, kw1, osn), st1)
       /\ check_dealer opp1 kw1 = Ok tt
       /\ assign_deal_number opp1 kw1 = Ok (opp2, kw2)
       /\ recompute_period E opp2 kw2 = Ok opp3
       /\ (forall k, k <> "updated" -> dict_get k opp4 = dict_get k opp3)
       /\ r = Ok (dict_update opp4 kw2)
       /\ db st' = <[id := written fields (dict_update opp4 kw2)]> (db st).
Proof.
  unfold update_opportunity.
  destruct (truthy (VDict kwargs)); [|intros [= <- <-]; left; split; reflexivity].
  unfold bind at 1. unfold get_opportunity, find_by_id.
  destruct (db st !! id) as [fields|] eqn:Hid;
    [|intros [= <- <-]; left; split; reflexivity].
  unfold bind at 1.
  destruct (stamp_status E sdc (("_id", VOid id) :: fields) kwargs st)
    as [[[[opp1 kw1] osn]|e] st1] eqn:Hstamp;
    [|intros [= <- <-]; left; split;
      [reflexivity | exact (stamp_status_db _ _ _ _ _ _ Hstamp)]].
  pose proof (stamp_status_db _ _ _ _ _ _ Hstamp) as Hdb1.
  unfold bind at 1.
  destruct (notify_assignment_run opp1 kw1 st1) as (st2 & -> & Hdb2 & _).
  unfold bind at 1, lift at 1.
  destruct (check_dealer opp1 kw1) as [[]|e] eqn:Hdealer;
    [|intros [= <- <-]; left; split; [reflexivity | congruence]].
  unfold bind at 1, lift at 1.
  destruct (assign_deal_number opp1 kw1) as [[opp2 kw2]|e] eqn:Hassign;
    [|intros [= <- <-]; left; split; [reflexivity | congruence]].
  unfold bind at 1, lift at 1.
  destruct (recompute_period E opp2 kw2) as [opp3|e] eqn:Hperiod;
    [|intros [= <- <-]; left; split; [reflexivity | congruence]].
  unfold bind at 1.
  destruct (stamp_updated_run opp3 kw2 st2) as (opp4 & st4 & -> & Hdb4 & Hupd).
  intros Hcommit.
  assert (Hid4 : db st4 !! id = Some fields) by congruence.
  destruct (commit_run _ _ _ _ _ _ _ _ Hid4 Hcommit) as [[Hr Hdb]|[Hr Hdb]].
  - left. split; [exact Hr | congruence].
  - right. exists fields, opp1, kw1, osn, st1, opp2, kw2, opp3, opp4.
    repeat split; try assumption. congruence.
Qed.

End UpdateFacts.

(** *** The dealer lock *)

Section DealerLock.
Variable E : Env.

Lemma stamp_status_keeps sdc opp kw st opp1 kw1 osn st1 :
  stamp_status E sdc opp kw st = (Ok (opp1, kw1, osn), st1) ->
  (forall k, k <> "last_status_change" -> dict_get k opp1 = dict_get k opp)
  /\ (forall k, k <> "reporting_period" -> dict_get k kw1 = dict_get k kw).
Proof.
  intros Hrun. destruct (status_changes opp kw) eqn:Hch.
  - destruct (stamp_status_changed E _ _ _ _ _ _ _ _ Hch Hrun)
      as (lsc & _ & -> & Hkw).
    split.
    + intros k Hk. rewrite dict_get_set_other by exact Hk.
      now apply dict_get_setdefault.
    + intros k Hk. destruct Hkw as [->|(y & m & p & _ & ->)]; [reflexivity|].
      now apply dict_get_set_other.
  - rewrite (stamp_status_same E sdc opp kw st Hch) in Hrun.
    injection Hrun as <- <- _ _. split; reflexivity.
Qed.

Lemma stamp_status_total sdc opp kw st :
  history_ok opp = true -> calendar_total E ->
  exists out st1, stamp_status E sdc opp kw st = (Ok out, st1).
Proof.
  intros Hh Hcal. destruct (status_changes opp kw) eqn:Hch.
  - unfold status_changes in Hch. unfold stamp_status. rewrite Hch. run_monad.
    assert (Hlsc : exists lsc,
               get_or VNone "last_status_change" (setdefault "last_status_change" opp)
               = VDict lsc).
    { unfold get_or at 1. rewrite dict_get_setdefault_same.
      unfold history_ok in Hh. unfold get_or.
      destruct (dict_get "last_status_change" opp) as [[| | | | | | | |lsc]|];
        try discriminate; eauto. }
    destruct Hlsc as [lsc ->].
    destruct (is_none sdc); cbn;
      (destruct (is_none (get_or VNone "reporting_period" kw)); cbn;
       [match goal with
        | |- context [reporting_period E [("year", VInt ?y); ("month", VInt ?m)]] =>
            destruct (Hcal y m) as [p ->]
        end; cbn|]; eauto).
  - rewrite (stamp_status_same E sdc opp kw st Hch). eauto.
Qed.

(** C2.  On an opportunity that has a deal number, an update whose patch
    holds a [dealer_id] other than the current one raises the dealer
    exception, whatever else the patch holds, and the collection, hence
    the stored [dealer_id], stays as it was.  (The opportunity's history
    is a mapping, and the reporting-period helper does not itself raise.) *)
Theorem dealer_locked_by_deal_number (id : N) (sdc : value) (kwargs : dict)
    (st : state) (fields dms : dict) (dn d_new d_cur : value) :
  db st !! id = Some fields ->
  dict_get "dms_deal" fields = Some (VDict dms) ->
  dict_get "deal_number" dms = Some dn ->
  truthy dn = true ->
  dict_get "dealer_id" fields = Some d_cur ->
  dict_get "dealer_id" kwargs = Some d_new ->
  py_eq d_new d_cur = false ->
  history_ok fields = true ->
  calendar_total E ->
  exists st',
    update_opportunity E id sdc kwargs st = (Raise DealerLocked, st')
    /\ db st' = db st
    /\ (exists fields', db st' !! id = Some fields'
                        /\ dict_get "dealer_id" fields' = Some d_cur).
Proof.
  intros Hid Hdms Hdn Htruthy Hcur Hnew Hne Hh Hcal.
  unfold update_opportunity.
  assert (Hkw : truthy (VDict kwargs) = true).
  { destruct kwargs; [discriminate Hnew | reflexivity]. }
  rewrite Hkw. unfold bind at 1. unfold get_opportunity, find_by_id. rewrite Hid.
  unfold bind at 1.
  destruct (stamp_status_total sdc (("_id", VOid id) :: fields) kwargs st)
    as ([[opp1 kw1] osn] & st1 & Hstamp); [exact Hh | exact Hcal |].
  rewrite Hstamp.
  pose proof (stamp_status_db _ _ _ _ _ _ _ Hstamp) as Hdb1.
  destruct (stamp_status_keeps _ _ _ _ _ _ _ _ Hstamp) as [Hopp Hkws].
  unfold bind at 1.
  destruct (notify_assignment_run E opp1 kw1 st1) as (st2 & -> & Hdb2 & _).
  unfold bind at 1, lift at 1.
  assert (Hlock : check_dealer opp1 kw1 = Raise DealerLocked).
  { unfold check_dealer, dict_has, get_or, attr_get, subscript.
    rewrite (Hkws "dealer_id") by discriminate. rewrite Hnew.
    rewrite (Hopp "dms_deal") by discriminate. cbn [dict_get String.eqb Ascii.eqb Bool.eqb].
    rewrite Hdms. cbn [rbind]. unfold get_or. rewrite Hdn, Htruthy.
    rewrite (Hopp "dealer_id") by discriminate. cbn [dict_get String.eqb Ascii.eqb Bool.eqb].
    rewrite Hcur. cbn [rbind]. now rewrite Hne. }
  rewrite Hlock. exists st2. split; [reflexivity|].
  assert (Hdb : db st2 = db st) by congruence.
  split; [exact Hdb|]. exists fields. rewrite Hdb. split; assumption.
Qed.

End DealerLock.

Lemma fixture_calendar_total : calendar_total Fixture.env.
Proof. intros y m. eexists. reflexivity. Qed.

Lemma dealer_locked_by_deal_number_witness :
  exists st',
    update_opportunity Fixture.env 1 VNone
      [("status", VInt 3); ("dealer_id", VInt 20)] Fixture.st0
    = (Raise DealerLocked, st')
    /\ db st' = db Fixture.st0
    /\ (exists fields', db st' !! 1%N = Some fields'
                        /\ dict_get "dealer_id" fields' = Some (VInt 10)).
Proof.
  apply (dealer_locked_by_deal_number Fixture.env 1 VNone
           [("status", VInt 3); ("dealer_id", VInt 20)] Fixture.st0
           Fixture.fields [("deal_number", VStr "D100")] (VStr "D100")
           (VInt 20) (VInt 10)).
  - reflexivity.
  - reflexivity.
  - reflexivity.
  - reflexivity.
  - reflexivity.
  - reflexivity.
  - reflexivity.
  - reflexivity.
  - exact fixture_calendar_total.
Defined.

(** *** The deal number *)

Section DealNumber.
Variable E : Env.

Lemma recompute_period_keeps opp kw opp3 :
  recompute_period E opp kw = Ok opp3 ->
  forall k, k <> "reporting_period" -> dict_get k opp3 = dict_get k opp.
Proof.
  unfold recompute_period.
  destruct (truthy (get_or VNone "reporting_period" kw)).
  - destruct (get_or VNone "reporting_period" kw); try discriminate.
    destruct (reporting_period E d); [|discriminate].
    intros [= <-] k Hk. now apply dict_get_set_other.
  - intros [= <-]. reflexivity.
Qed.

Lemma truthy_str (s : string) : s <> EmptyString -> truthy (VStr s) = true.
Proof.
  intros Hs. cbn. destruct (String.eqb_spec s EmptyString); [contradiction | reflexivity].
Qed.

(** The deal-number step on an opportunity that has the number [s]. *)
Lemma assign_on_numbered opp kw dms s :
  dict_get "dms_deal" opp = Some (VDict dms) ->
  dict_get "deal_number" dms = Some (VStr s) ->
  s <> EmptyString ->
  assign_deal_number opp kw =
  let deal_number := get_or VNone "deal_number" kw in
  if truthy deal_number then
    if negb (py_eq (VStr s) deal_number) then Raise DealNumberAssigned
    else Ok (dict_set "dms_deal"
               (VDict (dict_set "deal_number" deal_number dms)) opp,
             dict_remove "deal_number" kw)
  else Ok (opp, dict_remove "deal_number" kw).
Proof.
  intros Hdms Hdn Hs. unfold assign_deal_number. cbv zeta.
  set (dn := get_or VNone "deal_number" kw).
  destruct (truthy dn); [|reflexivity].
  unfold setdefault, dict_has. rewrite Hdms.
  replace (get_or VNone "dms_deal" opp) with (VDict dms)
    by (unfold get_or; now rewrite Hdms).
  replace (get_or VNone "deal_number" dms) with (VStr s)
    by (unfold get_or; now rewrite Hdn).
  now rewrite (truthy_str s Hs).
Qed.

Lemma assign_keeps_number opp kw dms s opp2 kw2 :
  dict_get "dms_deal" opp = Some (VDict dms) ->
  dict_get "deal_number" dms = Some (VStr s) ->
  s <> EmptyString ->
  assign_deal_number opp kw = Ok (opp2, kw2) ->
  kw2 = dict_remove "deal_number" kw
  /\ (forall k, k <> "dms_deal" -> dict_get k opp2 = dict_get k opp)
  /\ exists dms2, dict_get "dms_deal" opp2 = Some (VDict dms2)
                  /\ dict_get "deal_number" dms2 = Some (VStr s).
Proof.
  intros Hdms Hdn Hs. rewrite (assign_on_numbered opp kw dms s Hdms Hdn Hs).
  cbv zeta. set (dn := get_or VNone "deal_number" kw).
  destruct (truthy dn).
  - destruct (py_eq (VStr s) dn) eqn:Heq; [|discriminate].
    apply py_eq_str in Heq. rewrite Heq. cbn [negb].
    intros [= <- <-]. split; [reflexivity|]. split.
    + intros k Hk. now apply dict_get_set_other.
    + eexists. split; apply dict_get_set_same.
  - intros [= <- <-]. split; [reflexivity|]. split; [reflexivity|]. eauto.
Qed.

Lemma assign_differs opp kw dms s dn :
  dict_get "dms_deal" opp = Some (VDict dms) ->
  dict_get "deal_number" dms = Some (VStr s) ->
  s <> EmptyString ->
  dict_get "deal_number" kw = Some dn ->
  truthy dn = true ->
  dn <> VStr s ->
  assign_deal_number opp kw = Raise DealNumberAssigned.
Proof.
  intros Hdms Hdn Hs Hkw Ht Hne.
  rewrite (assign_on_numbered opp kw dms s Hdms Hdn Hs).
  unfold get_or. rewrite Hkw. cbv zeta. rewrite Ht.
  destruct (py_eq (VStr s) dn) eqn:Heq; [|reflexivity].
  apply py_eq_str in Heq. contradiction.
Qed.

Lemma assign_same opp kw dms s :
  dict_get "dms_deal" opp = Some (VDict dms) ->
  dict_get "deal_number" dms = Some (VStr s) ->
  s <> EmptyString ->
  dict_get "deal_number" kw = Some (VStr s) ->
  is_ok (assign_deal_number opp kw) = true.
Proof.
  intros Hdms Hdn Hs Hkw.
  rewrite (assign_on_numbered opp kw dms s Hdms Hdn Hs).
  unfold get_or. rewrite Hkw. cbv zeta. rewrite (truthy_str s Hs).
  assert (Heq : py_eq (VStr s) (VStr s) = true) by now apply py_eq_str.
  now rewrite Heq.
Qed.

(** Where each exception may come from: the deal-number one comes from
    the deal-number step alone. *)
Lemma stamp_status_raises sdc opp kw st e st1 :
  stamp_status E sdc opp kw st = (Raise e, st1) -> e <> DealNumberAssigned.
Proof.
  unfold stamp_status.
  destruct (negb (is_none (get_or VNone "status" kw)) && _); run_monad;
    [|discriminate].
  destruct (is_none sdc); cbn;
    (destruct (get_or VNone "last_status_change" (setdefault "last_status_change" opp));
     try (intros [= <- <-]; discriminate));
    (destruct (is_none (get_or VNone "reporting_period" kw)); cbn;
     [destruct (reporting_period E _); cbn|]; intros [= <- <-]; discriminate).
Qed.

Lemma check_dealer_raises opp kw e :
  check_dealer opp kw = Raise e -> e <> DealNumberAssigned.
Proof.
  unfold check_dealer, attr_get, subscript.
  destruct (dict_has "dealer_id" kw); [|discriminate].
  destruct (get_or (VDict []) "dms_deal" opp); cbn; try (intros [= <-]; discriminate).
  destruct (truthy _); [|discriminate].
  destruct (dict_get "dealer_id" opp); cbn; [|intros [= <-]; discriminate].
  destruct (negb _); [intros [= <-]|]; discriminate.
Qed.

Lemma recompute_period_raises opp kw e :
  recompute_period E opp kw = Raise e -> e <> DealNumberAssigned.
Proof.
  unfold recompute_period.
  destruct (truthy _); [|discriminate].
  destruct (get_or VNone "reporting_period" kw); try (intros [= <-]; discriminate).
  destruct (reporting_period E d); cbn; [discriminate | intros [= <-]; discriminate].
Qed.

Lemma commit_raises id osn opp kw st e st' :
  commit E id osn opp kw st = (Raise e, st') -> e = WriteError.
Proof.
  unfold commit, update_set. run_monad.
  destruct (db st !! id) as [fields|]; cbn.
  - destruct (match dict_get "_id" (dict_update opp kw) with
              | Some v => py_eq v (VOid id)
              | None => true
              end); cbn.
    + destruct osn; cbn; destruct (negb (py_eq _ _)); cbn; discriminate.
    + now intros [= <- _].
  - destruct osn; cbn; destruct (negb (py_eq _ _)); cbn; discriminate.
Qed.

Lemma deal_number_raised id sdc kwargs st st' :
  update_opportunity E id sdc kwargs st = (Raise DealNumberAssigned, st') ->
  exists fields opp1 kw1 osn st1,
    db st !! id = Some fields
    /\ stamp_status E sdc (("_id", VOid id) :: fields) kwargs st
       = (Ok (opp1, kw1, osn), st1)
    /\ assign_deal_number opp1 kw1 = Raise DealNumberAssigned.
Proof.
  unfold update_opportunity.
  destruct (truthy (VDict kwargs)); [|discriminate].
  unfold bind at 1. unfold get_opportunity, find_by_id.
  destruct (db st !! id) as [fields|] eqn:Hid; [|discriminate].
  unfold bind at 1.
  destruct (stamp_status E sdc (("_id", VOid id) :: fields) kwargs st)
    as [[[[opp1 kw1] osn]|e] st1] eqn:Hstamp.
  2:{ intros [= -> _]. now apply stamp_status_raises in Hstamp. }
  unfold bind at 1.
  destruct (notify_assignment_run E opp1 kw1 st1) as (st2 & -> & _).
  unfold bind at 1, lift at 1.
  destruct (check_dealer opp1 kw1) as [[]|e] eqn:Hdealer.
  2:{ intros [= -> _]. now apply check_dealer_raises in Hdealer. }
  unfold bind at 1, lift at 1.
  destruct (assign_deal_number opp1 kw1) as [[opp2 kw2]|e] eqn:Hassign.
  2:{ intros [= -> _]. exists fields, opp1, kw1, osn, st1. auto. }
  unfold bind at 1, lift at 1.
  destruct (recompute_period E opp2 kw2) as [opp3|e] eqn:Hperiod.
  2:{ intros [= -> _]. now apply recompute_period_raises in Hperiod. }
  unfold bind at 1.
  destruct (stamp_updated_run E opp3 kw2 st2) as (opp4 & st4 & -> & _).
  intros Hcommit. apply commit_raises in Hcommit. discriminate.
Qed.

End DealNumber.

Section DealNumberClaim.
Variable E : Env.

(** A call whose steps all go through writes the merged opportunity. *)
Lemma update_opportunity_steps id sdc kwargs st fields opp1 kw1 osn st1
    opp2 kw2 opp3 :
  truthy (VDict kwargs) = true ->
  db st !! id = Some fields ->
  stamp_status E sdc (("_id", VOid id) :: fields) kwargs st
  = (Ok (opp1, kw1, osn), st1) ->
  check_dealer opp1 kw1 = Ok tt ->
  assign_deal_number opp1 kw1 = Ok (opp2, kw2) ->
  recompute_period E opp2 kw2 = Ok opp3 ->
  dict_get "_id" opp3 = Some (VOid id) ->
  match dict_get "_id" kw2 with Some v => py_eq v (VOid id) | None => true end
  = true ->
  exists opp4 st',
    update_opportunity E id sdc kwargs st = (Ok (dict_update opp4 kw2), st')
    /\ (forall k, k <> "updated" -> dict_get k opp4 = dict_get k opp3)
    /\ db st' = <[id := written fields (dict_update opp4 kw2)]> (db st).
Proof.
  intros Hkw Hid Hstamp Hdealer Hassign Hperiod Hid3 Hidkw.
  unfold update_opportunity. rewrite Hkw.
  unfold bind at 1. unfold get_opportunity, find_by_id. rewrite Hid.
  unfold bind at 1. rewrite Hstamp.
  pose proof (stamp_status_db _ _ _ _ _ _ _ Hstamp) as Hdb1.
  unfold bind at 1.
  destruct (notify_assignment_run E opp1 kw1 st1) as (st2 & -> & Hdb2 & _).
  unfold bind at 1, lift at 1. rewrite Hdealer.
  unfold bind at 1, lift at 1. rewrite Hassign.
  unfold bind at 1, lift at 1. rewrite Hperiod.
  unfold bind at 1.
  destruct (stamp_updated_run E opp3 kw2 st2) as (opp4 & st4 & -> & Hdb4 & Hupd).
  exists opp4.
  assert (Hid4 : db st4 !! id = Some fields) by congruence.
  unfold commit, update_set. run_monad. rewrite Hid4.
  rewrite dict_get_update, (Hupd "_id") by discriminate. rewrite Hid3.
  assert (Hcheck : match match dict_get "_id" kw2 with
                         | Some v => Some v
                         | None => Some (VOid id)
                         end with
                   | Some v => py_eq v (VOid id)
                   | None => true
                   end = true).
  { destruct (dict_get "_id" kw2); [exact Hidkw | apply N.eqb_refl]. }
  rewrite Hcheck. cbn.
  destruct osn; cbn; (destruct (negb (py_eq _ _)); cbn; eexists;
    (split; [reflexivity|]); (split; [exact Hupd|]);
    cbn [db]; unfold written; now rewrite Hdb4, Hdb2, Hdb1).
Qed.

(** C1, as the code has it.  On an opportunity whose deal number is the
    non-empty string [s], and for an update whose patch has no [dms_deal]
    entry: the stored deal number is [s] after the call, whether it
    returned or raised; a patch with a non-empty [deal_number] other than
    [s] makes the call raise and write nothing; a patch with the
    [deal_number] [s] never raises the deal-number exception, and the
    patch that holds just that succeeds. *)
Theorem deal_number_kept_by_update (id : N) (sdc : value) (kwargs : dict)
    (st : state) (fields dms : dict) (s : string) :
  db st !! id = Some fields ->
  dict_get "dms_deal" fields = Some (VDict dms) ->
  dict_get "deal_number" dms = Some (VStr s) ->
  s <> EmptyString ->
  dict_get "dms_deal" kwargs = None ->
  let out := update_opportunity E id sdc kwargs st in
  stored_deal_number id (db (snd out)) = Some (VStr s)
  /\ (forall dn, dict_get "deal_number" kwargs = Some dn ->
                 truthy dn = true -> dn <> VStr s ->
                 is_ok (fst out) = false /\ db (snd out) = db st)
  /\ (dict_get "deal_number" kwargs = Some (VStr s) ->
      fst out <> Raise DealNumberAssigned)
  /\ (kwargs = [("deal_number", VStr s)] -> is_ok (fst out) = true).
Proof.
  intros Hid Hdms Hdn Hs Hpatch out.
  assert (Hstored : stored_deal_number id (db st) = Some (VStr s)).
  { unfold stored_deal_number. now rewrite Hid, Hdms. }
  destruct out as [r st'] eqn:Hout. subst out. cbn [fst snd].
  assert (Hopp : forall opp1 kw1 osn st1,
             stamp_status E sdc (("_id", VOid id) :: fields) kwargs st
             = (Ok (opp1, kw1, osn), st1) ->
             dict_get "dms_deal" opp1 = Some (VDict dms)
             /\ dict_get "dms_deal" kw1 = None
             /\ dict_get "deal_number" kw1 = dict_get "deal_number" kwargs).
  { intros opp1 kw1 osn st1 Hstamp.
    destruct (stamp_status_keeps _ _ _ _ _ _ _ _ _ Hstamp) as [Ho Hk].
    rewrite (Ho "dms_deal"), !Hk by discriminate. auto. }
  repeat split.
  - destruct (update_opportunity_run _ _ _ _ _ _ _ Hout)
      as [[_ Hdb]|(f & opp1 & kw1 & osn & st1 & opp2 & kw2 & opp3 & opp4 &
                   Hid' & Hstamp & _ & Hassign & Hperiod & Hupd & _ & Hdb)].
    + now rewrite Hdb.
    + assert (f = fields) by congruence. subst f.
      destruct (Hopp _ _ _ _ Hstamp) as (Hd1 & Hk1 & _).
      destruct (assign_keeps_number _ _ _ _ _ _ Hd1 Hdn Hs Hassign)
        as (-> & _ & dms2 & Hd2 & Hn2).
      unfold stored_deal_number. rewrite Hdb, lookup_insert_eq.
      unfold written.
      rewrite dict_get_update, dict_get_remove_other, dict_get_update by discriminate.
      rewrite dict_get_remove_other, Hk1 by discriminate.
      rewrite (Hupd "dms_deal") by discriminate.
      rewrite (recompute_period_keeps _ _ _ _ Hperiod "dms_deal") by discriminate.
      now rewrite Hd2.
  - destruct (update_opportunity_run _ _ _ _ _ _ _ Hout)
      as [[Hr _]|(f & opp1 & kw1 & osn & st1 & opp2 & kw2 & opp3 & opp4 &
                  Hid' & Hstamp & _ & Hassign & _)]; [exact Hr|].
    assert (f = fields) by congruence. subst f.
    destruct (Hopp _ _ _ _ Hstamp) as (Hd1 & _ & Hn1).
    rewrite (assign_differs opp1 kw1 dms s dn) in Hassign;
      [discriminate | assumption | assumption | assumption | congruence
      | assumption | assumption].
  - destruct (update_opportunity_run _ _ _ _ _ _ _ Hout)
      as [[_ Hdb]|(f & opp1 & kw1 & osn & st1 & opp2 & kw2 & opp3 & opp4 &
                   Hid' & Hstamp & _ & Hassign & _)]; [exact Hdb|].
    assert (f = fields) by congruence. subst f.
    destruct (Hopp _ _ _ _ Hstamp) as (Hd1 & _ & Hn1).
    rewrite (assign_differs opp1 kw1 dms s dn) in Hassign;
      [discriminate | assumption | assumption | assumption | congruence
      | assumption | assumption].
  - intros Hsame ->.
    destruct (deal_number_raised _ _ _ _ _ _ Hout)
      as (f & opp1 & kw1 & osn & st1 & Hid' & Hstamp & Hassign).
    assert (f = fields) by congruence. subst f.
    destruct (Hopp _ _ _ _ Hstamp) as (Hd1 & _ & Hn1).
    assert (Hok : is_ok (assign_deal_number opp1 kw1) = true).
    { apply (assign_same opp1 kw1 dms s); [assumption..|congruence]. }
    rewrite Hassign in Hok. discriminate.
  - intros ->.
    pose (opp := ("_id", VOid id) :: fields).
    assert (Hd0 : dict_get "dms_deal" opp = Some (VDict dms)) by exact Hdms.
    destruct (update_opportunity_steps id sdc [("deal_number", VStr s)] st fields
                opp [("deal_number", VStr s)] None st
                (dict_set "dms_deal" (VDict (dict_set "deal_number" (VStr s) dms)) opp)
                []
                (dict_set "dms_deal" (VDict (dict_set "deal_number" (VStr s) dms)) opp))
      as (opp4 & st4 & Hrun & _); try reflexivity; try assumption.
    + rewrite (assign_on_numbered opp _ dms s Hd0 Hdn Hs).
      pose proof (truthy_str s Hs) as Ht. cbn in Ht |- *.
      now rewrite Ht, String.eqb_refl.
    + rewrite Hrun in Hout. now injection Hout as <- _.
Qed.

End DealNumberClaim.

Lemma deal_number_kept_by_update_witness :
  let out := update_opportunity Fixture.env 1 VNone
               [("deal_number", VStr "D100")] Fixture.st0 in
  stored_deal_number 1 (db (snd out)) = Some (VStr "D100")
  /\ is_ok (fst out) = true.
Proof.
  destruct (deal_number_kept_by_update Fixture.env 1 VNone
              [("deal_number", VStr "D100")] Fixture.st0 Fixture.fields
              [("deal_number", VStr "D100")] "D100"
              eq_refl eq_refl eq_refl ltac:(discriminate) eq_refl)
    as (Hkept & _ & _ & Hok).
  split; [exact Hkept | exact (Hok eq_refl)].
Defined.

(** C1 as stated fails: a patch with a [dms_deal] entry replaces the
    stored deal number, and an empty [deal_number], which differs from
    the stored one, is ignored rather than refused. *)
Lemma deal_number_replaced_by_dms_deal_patch :
  let replaced := update_opportunity Fixture.env 1 VNone
                    [("dms_deal", VDict [("deal_number", VStr "D200")])]
                    Fixture.st0 in
  let ignored := update_opportunity Fixture.env 1 VNone
                   [("deal_number", VStr EmptyString)] Fixture.st0 in
  stored_deal_number 1 (db Fixture.st0) = Some (VStr "D100")
  /\ is_ok (fst replaced) = true
  /\ stored_deal_number 1 (db (snd replaced)) = Some (VStr "D200")
  /\ is_ok (fst ignored) = true.
Proof. vm_compute. repeat split. Qed.

(** *** The status history *)

Section StatusHistory.
Variable E : Env.

Lemma stamp_history_new status t lsc :
  dict_get (str E status) (stamp_history E status t lsc) = Some t.
Proof.
  unfold stamp_history.
  destruct (String.eqb (str E status) (str E (STATUS_PENDING E)) && _).
  - rewrite dict_get_set.
    destruct (String.eqb (str E status) (str E (STATUS_FI E))); [reflexivity|].
    apply dict_get_set_same.
  - apply dict_get_set_same.
Qed.

Lemma stamp_history_other status t lsc k :
  k <> str E status ->
  k <> str E (STATUS_FI E)
  \/ str E status <> str E (STATUS_PENDING E)
  \/ truthy (get_or VNone k lsc) = true ->
  dict_get k (stamp_history E status t lsc) = dict_get k lsc.
Proof.
  intros Hk Hwhy. unfold stamp_history.
  destruct (String.eqb_spec (str E status) (str E (STATUS_PENDING E))) as [Hp|Hp];
    cbn [andb]; [|now apply dict_get_set_other].
  destruct (String.eqb_spec k (str E (STATUS_FI E))) as [Hfi|Hfi].
  - destruct Hwhy as [Hwhy|[Hwhy|Hwhy]]; try contradiction.
    subst k. unfold get_or at 1. rewrite dict_get_set_other by exact Hk.
    fold (get_or VNone (str E (STATUS_FI E)) lsc). rewrite Hwhy. cbn [negb].
    now apply dict_get_set_other.
  - destruct (negb _); [rewrite dict_get_set_other by exact Hfi|];
      now apply dict_get_set_other.
Qed.

Lemma stamp_history_backfill status t lsc :
  str E status = str E (STATUS_PENDING E) ->
  truthy (get_or VNone (str E (STATUS_FI E)) lsc) = false ->
  dict_get (str E (STATUS_FI E)) (stamp_history E status t lsc) = Some t.
Proof.
  intros Hp Hfi.
  destruct (String.eqb_spec (str E (STATUS_FI E)) (str E status)) as [Heq|Hne].
  - rewrite Heq. apply stamp_history_new.
  - unfold stamp_history. rewrite Hp, String.eqb_refl. cbn [andb].
    unfold get_or at 1. rewrite <- Hp, dict_get_set_other by exact Hne.
    fold (get_or VNone (str E (STATUS_FI E)) lsc). rewrite Hfi. cbn [negb].
    apply dict_get_set_same.
Qed.

Lemma assign_keeps opp kw opp2 kw2 :
  assign_deal_number opp kw = Ok (opp2, kw2) ->
  kw2 = dict_remove "deal_number" kw
  /\ forall k, k <> "dms_deal" -> dict_get k opp2 = dict_get k opp.
Proof.
  unfold assign_deal_number.
  destruct (truthy (get_or VNone "deal_number" kw)).
  - destruct (get_or VNone "dms_deal" (setdefault "dms_deal" opp)); try discriminate.
    destruct (truthy _ && _); [discriminate|].
    intros [= <- <-]. split; [reflexivity|].
    intros k Hk. rewrite dict_get_set_other by exact Hk.
    now apply dict_get_setdefault.
  - intros [= <- <-]. split; reflexivity.
Qed.

(** After a call that returned with a change of status, and whose patch
    had no history of its own, the stored history is the stamped one. *)
Lemma update_opportunity_history id sdc kwargs st fields opp' st' :
  db st !! id = Some fields ->
  status_changes fields kwargs = true ->
  dict_get "last_status_change" kwargs = None ->
  update_opportunity E id sdc kwargs st = (Ok opp', st') ->
  exists fields',
    db st' !! id = Some fields'
    /\ get_or (VDict []) "last_status_change" fields = VDict (history_of fields)
    /\ dict_get "last_status_change" fields' =
       Some (VDict (stamp_history E (get_or VNone "status" kwargs)
                      (change_time E sdc st) (history_of fields)))
    /\ dict_get "last_status_change" opp' = dict_get "last_status_change" fields'.
Proof.
  intros Hid Hch Hpatch Hrun.
  destruct (update_opportunity_run _ _ _ _ _ _ _ Hrun)
    as [[Hr _]|(f & opp1 & kw1 & osn & st1 & opp2 & kw2 & opp3 & opp4 &
                Hid' & Hstamp & _ & Hassign & Hperiod & Hupd & Hr & Hdb)];
    [discriminate Hr|].
  assert (f = fields) by congruence. subst f.
  injection Hr as ->.
  assert (Hch' : status_changes (("_id", VOid id) :: fields) kwargs = true)
    by exact Hch.
  destruct (stamp_status_changed E _ _ _ _ _ _ _ _ Hch' Hstamp)
    as (lsc & Hlsc & Hopp1 & Hkw1).
  change (get_or (VDict []) "last_status_change" (("_id", VOid id) :: fields))
    with (get_or (VDict []) "last_status_change" fields) in Hlsc.
  assert (Hhist : history_of fields = lsc) by (unfold history_of; now rewrite Hlsc).
  destruct (assign_keeps _ _ _ _ Hassign) as [-> Hopp2].
  assert (Hkw2 : dict_get "last_status_change" (dict_remove "deal_number" kw1) = None).
  { rewrite dict_get_remove_other by discriminate.
    destruct Hkw1 as [->|(y & m & p & _ & ->)]; [exact Hpatch|].
    now rewrite dict_get_set_other by discriminate. }
  assert (Hfinal : dict_get "last_status_change"
                     (dict_update opp4 (dict_remove "deal_number" kw1))
                   = Some (VDict (stamp_history E (get_or VNone "status" kwargs)
                                    (change_time E sdc st) lsc))).
  { rewrite dict_get_update, Hkw2, (Hupd "last_status_change") by discriminate.
    rewrite (recompute_period_keeps _ _ _ _ Hperiod "last_status_change") by discriminate.
    rewrite (Hopp2 "last_status_change") by discriminate.
    rewrite Hopp1. apply dict_get_set_same. }
  exists (written fields (dict_update opp4 (dict_remove "deal_number" kw1))).
  split; [rewrite Hdb; apply lookup_insert_eq|].
  split; [now rewrite Hhist|].
  assert (Hw : dict_get "last_status_change"
                 (written fields (dict_update opp4 (dict_remove "deal_number" kw1)))
               = Some (VDict (stamp_history E (get_or VNone "status" kwargs)
                                (change_time E sdc st) lsc))).
  { unfold written. rewrite dict_get_update, dict_get_remove_other by discriminate.
    now rewrite Hfinal. }
  split; [now rewrite Hhist | now rewrite Hw].
Qed.

(** C3, as the code has it.  After an update that returned, whose patch
    changes the status to [s2] and has no [last_status_change] entry of
    its own: the history holds, for [s2], the given date or else the time
    of the call; every other date that was recorded is as before; and so
    is every other entry, recorded or not, but the one for FI when the
    opportunity goes to PENDING with no FI date (the backfill). *)
Theorem status_change_stamps_history (id : N) (sdc : value) (kwargs : dict)
    (st : state) (fields : dict) (s2 : value) (opp' : dict) (st' : state) :
  db st !! id = Some fields ->
  dict_get "status" kwargs = Some s2 ->
  status_changes fields kwargs = true ->
  dict_get "last_status_change" kwargs = None ->
  update_opportunity E id sdc kwargs st = (Ok opp', st') ->
  exists fields',
    db st' !! id = Some fields'
    /\ dict_get "last_status_change" fields' = Some (VDict (history_of fields'))
    /\ dict_get "last_status_change" opp' = Some (VDict (history_of fields'))
    /\ dict_get (str E s2) (history_of fields') = Some (change_time E sdc st)
    /\ (forall k, k <> str E s2 ->
                  truthy (get_or VNone k (history_of fields)) = true ->
                  dict_get k (history_of fields') = dict_get k (history_of fields))
    /\ (forall k, k <> str E s2 ->
                  k <> str E (STATUS_FI E)
                  \/ str E s2 <> str E (STATUS_PENDING E) ->
                  dict_get k (history_of fields') = dict_get k (history_of fields)).
Proof.
  intros Hid Hs2 Hch Hpatch Hrun.
  destruct (update_opportunity_history _ _ _ _ _ _ _ Hid Hch Hpatch Hrun)
    as (fields' & Hid' & _ & Hnew & Hret).
  assert (Hstatus : get_or VNone "status" kwargs = s2)
    by (unfold get_or; now rewrite Hs2).
  rewrite Hstatus in Hnew.
  assert (Hh : history_of fields'
               = stamp_history E s2 (change_time E sdc st) (history_of fields)).
  { unfold history_of at 1, get_or. now rewrite Hnew. }
  exists fields'. rewrite Hret, Hh.
  split; [exact Hid'|]. split; [exact Hnew|]. split; [exact Hnew|].
  split; [apply stamp_history_new|]. split.
  - intros k Hk Hrec. apply stamp_history_other; auto.
  - intros k Hk Hwhy. apply stamp_history_other; tauto.
Qed.

(** C4, as the code has it.  After an update that returned, whose patch
    changes the status to PENDING and has no [last_status_change] entry
    of its own: with no FI date recorded, the PENDING and the FI entries
    both hold the given date or else the time of the call; an FI date
    that was recorded is as before. *)
Theorem pending_backfills_fi (id : N) (sdc : value) (kwargs : dict)
    (st : state) (fields : dict) (s2 : value) (opp' : dict) (st' : state) :
  db st !! id = Some fields ->
  dict_get "status" kwargs = Some s2 ->
  str E s2 = str E (STATUS_PENDING E) ->
  status_changes fields kwargs = true ->
  dict_get "last_status_change" kwargs = None ->
  update_opportunity E id sdc kwargs st = (Ok opp', st') ->
  exists fields',
    db st' !! id = Some fields'
    /\ dict_get "last_status_change" fields' = Some (VDict (history_of fields'))
    /\ (truthy (get_or VNone (str E (STATUS_FI E)) (history_of fields)) = false ->
        dict_get (str E (STATUS_PENDING E)) (history_of fields')
        = Some (change_time E sdc st)
        /\ dict_get (str E (STATUS_FI E)) (history_of fields')
           = Some (change_time E sdc st))
    /\ (truthy (get_or VNone (str E (STATUS_FI E)) (history_of fields)) = true ->
        str E (STATUS_FI E) <> str E (STATUS_PENDING E) ->
        dict_get (str E (STATUS_FI E)) (history_of fields')
        = dict_get (str E (STATUS_FI E)) (history_of fields)).
Proof.
  intros Hid Hs2 Hpending Hch Hpatch Hrun.
  destruct (update_opportunity_history _ _ _ _ _ _ _ Hid Hch Hpatch Hrun)
    as (fields' & Hid' & _ & Hnew & _).
  assert (Hstatus : get_or VNone "status" kwargs = s2)
    by (unfold get_or; now rewrite Hs2).
  rewrite Hstatus in Hnew.
  assert (Hh : history_of fields'
               = stamp_history E s2 (change_time E sdc st) (history_of fields)).
  { unfold history_of at 1, get_or. now rewrite Hnew. }
  exists fields'. rewrite Hh.
  split; [exact Hid'|]. split; [exact Hnew|]. split.
  - intros Hnofi. split.
    + rewrite <- Hpending. apply stamp_history_new.
    + now apply stamp_history_backfill.
  - intros Hfi Hne. apply stamp_history_other; [congruence | auto].
Qed.

(** Such calls do return: on an opportunity whose history is a mapping,
    a patch without dealer, deal number, reporting period and [_id] goes
    through every step. *)
Lemma plain_patch_returns (id : N) (sdc : value) (kwargs : dict) (st : state)
    (fields : dict) :
  db st !! id = Some fields ->
  history_ok fields = true ->
  calendar_total E ->
  period_reentrant E ->
  kwargs <> [] ->
  dict_get "dealer_id" kwargs = None ->
  dict_get "deal_number" kwargs = None ->
  dict_get "reporting_period" kwargs = None ->
  dict_get "_id" kwargs = None ->
  is_ok (fst (update_opportunity E id sdc kwargs st)) = true.
Proof.
  intros Hid Hh Hcal Hre Hne Hdealer Hnumber Hperiod Hidkw.
  pose (opp := ("_id", VOid id) :: fields).
  destruct (stamp_status_total E sdc opp kwargs st Hh Hcal)
    as ([[opp1 kw1] osn] & st1 & Hstamp).
  destruct (stamp_status_keeps E _ _ _ _ _ _ _ _ Hstamp) as [Hopp1 Hkw1].
  assert (Hcheck : check_dealer opp1 kw1 = Ok tt).
  { unfold check_dealer, dict_has. now rewrite Hkw1, Hdealer by discriminate. }
  assert (Hassign : assign_deal_number opp1 kw1
                    = Ok (opp1, dict_remove "deal_number" kw1)).
  { unfold assign_deal_number, get_or. now rewrite Hkw1, Hnumber by discriminate. }
  assert (Hrec : exists opp3,
             recompute_period E opp1 (dict_remove "deal_number" kw1) = Ok opp3
             /\ dict_get "_id" opp3 = Some (VOid id)).
  { assert (Hid1 : dict_get "_id" opp1 = Some (VOid id))
      by (now rewrite Hopp1 by discriminate).
    unfold recompute_period, get_or.
    rewrite dict_get_remove_other by discriminate.
    destruct (status_changes opp kwargs) eqn:Hch.
    - destruct (stamp_status_changed E _ _ _ _ _ _ _ _ Hch Hstamp)
        as (lsc & _ & _ & [->|(y & m & p & Hp & ->)]).
      + rewrite Hperiod. cbn. eauto.
      + rewrite dict_get_set_same.
        destruct (truthy p) eqn:Htp; [|eauto].
        destruct (Hre _ _ Hp Htp) as (d & p' & -> & Hp').
        rewrite Hp'. cbn. eexists. split; [reflexivity|].
        now rewrite dict_get_set_other by discriminate.
    - rewrite (stamp_status_same E sdc opp kwargs st Hch) in Hstamp.
      injection Hstamp as <- <- _ _. rewrite Hperiod. cbn. eauto. }
  destruct Hrec as (opp3 & Hperiod3 & Hid3).
  destruct (update_opportunity_steps E id sdc kwargs st fields opp1 kw1 osn st1
              opp1 (dict_remove "deal_number" kw1) opp3)
    as (opp4 & st' & Hrun & _); try assumption.
  - destruct kwargs; [contradiction | reflexivity].
  - now rewrite dict_get_remove_other, Hkw1, Hidkw by discriminate.
  - now rewrite Hrun.
Qed.

End StatusHistory.

Lemma status_change_stamps_history_witness :
  let out := update_opportunity Fixture.env 1 VNone [("status", VInt 3)]
                                Fixture.st0 in
  exists fields',
    db (snd out) !! 1%N = Some fields'
    /\ dict_get "3" (history_of fields') = Some (VTime (DateTime 2024 5 0))
    /\ dict_get "2" (history_of fields') = Some Fixture.t0.
Proof.
  intros out. subst out.
  destruct (update_opportunity Fixture.env 1 VNone [("status", VInt 3)] Fixture.st0)
    as [[opp'|e] st'] eqn:Hrun; [|vm_compute in Hrun; discriminate Hrun].
  destruct (status_change_stamps_history Fixture.env 1 VNone [("status", VInt 3)]
              Fixture.st0 Fixture.fields (VInt 3) opp' st'
              eq_refl eq_refl eq_refl eq_refl Hrun)
    as (fields' & Hid & _ & _ & Hnew & Hrec & _).
  exists fields'. split; [exact Hid|]. split; [exact Hnew|].
  exact (Hrec "2" ltac:(discriminate) eq_refl).
Defined.

(** C3 as stated fails: a patch with a [last_status_change] entry
    replaces the stamped history, and an opportunity at FI with no FI
    date gets one, for the status it leaves, on going to PENDING. *)
Lemma status_history_overridden_or_backfilled :
  let overridden := update_opportunity Fixture.env 1 VNone
                      [("status", VInt 3); ("last_status_change", VDict [])]
                      Fixture.st0 in
  let backfilled := update_opportunity Fixture.env 2 VNone
                      [("status", VInt 4)] Fixture.st0 in
  is_ok (fst overridden) = true
  /\ stored_history 1 (db (snd overridden)) = Some []
  /\ is_ok (fst backfilled) = true
  /\ option_map (dict_get "3") (stored_history 2 (db Fixture.st0)) = Some None
  /\ option_map (dict_get "3") (stored_history 2 (db (snd backfilled)))
     = Some (Some (VTime (DateTime 2024 5 0))).
Proof. vm_compute. repeat split. Qed.

Lemma pending_backfills_fi_witness :
  let out := update_opportunity Fixture.env 1 VNone [("status", VInt 4)]
                                Fixture.st0 in
  exists fields',
    db (snd out) !! 1%N = Some fields'
    /\ dict_get "4" (history_of fields') = Some (VTime (DateTime 2024 5 0))
    /\ dict_get "3" (history_of fields') = Some (VTime (DateTime 2024 5 0)).
Proof.
  intros out. subst out.
  destruct (update_opportunity Fixture.env 1 VNone [("status", VInt 4)] Fixture.st0)
    as [[opp'|e] st'] eqn:Hrun; [|vm_compute in Hrun; discriminate Hrun].
  destruct (pending_backfills_fi Fixture.env 1 VNone [("status", VInt 4)]
              Fixture.st0 Fixture.fields (VInt 4) opp' st'
              eq_refl eq_refl eq_refl eq_refl eq_refl Hrun)
    as (fields' & Hid & _ & Hfill & _).
  exists fields'. split; [exact Hid|]. exact (Hfill eq_refl).
Defined.

(** C4 as stated fails: with a [last_status_change] entry in the patch,
    neither the PENDING nor the FI date is in the stored history. *)
Lemma pending_backfill_overridden_by_patch :
  let out := update_opportunity Fixture.env 1 VNone
               [("status", VInt 4);
                ("last_status_change", VDict [("2", Fixture.t0)])]
               Fixture.st0 in
  is_ok (fst out) = true
  /\ stored_history 1 (db (snd out)) = Some [("2", Fixture.t0)].
Proof. vm_compute. repeat split. Qed.

(** *** The reporting period *)

(** C7, where the code departs from it.  A patch that holds just a
    reporting period of a year and a month is stored as it came: the
    period derived from it (dao.py 492) is overwritten when the patch is
    merged (dao.py 500), so the stored period has no quarter. *)
Theorem reporting_period_patch_stored_as_given (E : Env) (id : N) (sdc : value)
    (st : state) (fields : dict) (y m : Z) (derived : value) :
  db st !! id = Some fields ->
  reporting_period E [("year", VInt y); ("month", VInt m)] = Some derived ->
  let given := VDict [("year", VInt y); ("month", VInt m)] in
  exists opp' st' fields',
    update_opportunity E id sdc [("reporting_period", given)] st = (Ok opp', st')
    /\ db st' !! id = Some fields'
    /\ dict_get "reporting_period" fields' = Some given
    /\ dict_get "reporting_period" opp' = Some given.
Proof.
  intros Hid Hderived given.
  pose (opp := ("_id", VOid id) :: fields).
  destruct (update_opportunity_steps E id sdc [("reporting_period", given)] st fields
              opp [("reporting_period", given)] None st
              opp [("reporting_period", given)]
              (dict_set "reporting_period" derived opp))
    as (opp4 & st' & Hrun & _ & Hdb); try reflexivity; try assumption.
  - unfold recompute_period. cbn. now rewrite Hderived.
  - exists (dict_update opp4 [("reporting_period", given)]), st',
      (written fields (dict_update opp4 [("reporting_period", given)])).
    split; [exact Hrun|]. split; [rewrite Hdb; apply lookup_insert_eq|].
    assert (Hgiven : dict_get "reporting_period"
                       (dict_update opp4 [("reporting_period", given)])
                     = Some given) by apply dict_get_set_same.
    split; [|exact Hgiven].
    unfold written. rewrite dict_get_update, dict_get_remove_other by discriminate.
    now rewrite Hgiven.
Qed.

Lemma reporting_period_patch_stored_as_given_witness :
  exists opp' st' fields',
    update_opportunity Fixture.env 1 VNone
      [("reporting_period", VDict [("year", VInt 2020); ("month", VInt 5)])]
      Fixture.st0 = (Ok opp', st')
    /\ db st' !! 1%N = Some fields'
    /\ dict_get "reporting_period" fields'
       = Some (VDict [("year", VInt 2020); ("month", VInt 5)])
    /\ dict_get "reporting_period" opp'
       = Some (VDict [("year", VInt 2020); ("month", VInt 5)]).
Proof.
  exact (reporting_period_patch_stored_as_given Fixture.env 1 VNone Fixture.st0
           Fixture.fields 2020 5
           (VDict [("year", VInt 2020); ("month", VInt 5); ("quarter", VInt 2)])
           eq_refl eq_refl).
Defined.

(** *** Deal data *)

Section DealData.
Variable E : Env.

Lemma merge_deal_field_spec name data record st :
  mergeable name data record ->
  exists record' st',
    merge_deal_field E name data (VDict record) st = (Ok (VDict record'), st')
    /\ db st' = db st /\ sent st' = sent st
    /\ (ticks st <= ticks st' <= S (ticks st))%nat
    /\ (forall k, k <> name -> dict_get k record' = dict_get k record)
    /\ (truthy (get_or VNone name data) = false ->
        dict_get name record' = dict_get name record)
    /\ (forall p o, get_or VNone name data = VDict p ->
                    p <> [] ->
                    get_or (VDict []) name record = VDict o ->
                    dict_get name record' =
                    Some (VDict (dict_update o
                                   (dict_set "updated" (VTime (utcnow E (ticks st))) p))))
    /\ (truthy (get_or VNone name data) = true -> record' <> [])
    /\ (record' = [] -> record = [] /\ st' = st).
Proof.
  intros Hm. unfold merge_deal_field.
  destruct (truthy (get_or VNone name data)) eqn:Ht.
  - destruct Hm as [Hm|(p & o & Hp & Ho)]; [congruence|].
    rewrite Hp, Ho. run_monad. cbn [dict_of].
    do 2 eexists. split; [reflexivity|]. cbn [db sent ticks].
    split; [reflexivity|]. split; [reflexivity|]. split; [lia|].
    split; [intros k Hk; now apply dict_get_set_other|].
    split; [discriminate|].
    split.
    + intros p' o' [= <-] _ [= <-]. apply dict_get_set_same.
    + split.
      * intros _ Hnil.
        pose proof (dict_set_nonempty name
                      (VDict (dict_update o
                                (dict_set "updated" (VTime (utcnow E (ticks st))) p)))
                      record) as Hne.
        rewrite Hnil in Hne. discriminate.
      * intros Hnil.
        pose proof (dict_set_nonempty name
                      (VDict (dict_update o
                                (dict_set "updated" (VTime (utcnow E (ticks st))) p)))
                      record) as Hne.
        rewrite Hnil in Hne. discriminate.
  - run_monad. exists record, st.
    split; [reflexivity|]. split; [reflexivity|]. split; [reflexivity|].
    split; [lia|]. split; [reflexivity|]. split; [reflexivity|].
    split.
    + intros p o Hp Hne. rewrite Hp in Ht. destruct p; [contradiction | discriminate].
    + split; [discriminate | auto].
Qed.

(** What a merged sub-field holds: its stamp, the keys of the patch, and
    the keys only the old sub-field had. *)
Lemma merged_keys (t : datetime) (p o : dict) (k : string) :
  dict_get k (dict_update o (dict_set "updated" (VTime t) p)) =
  if String.eqb k "updated" then Some (VTime t)
  else match dict_get k p with
       | Some v => Some v
       | None => dict_get k o
       end.
Proof.
  rewrite dict_get_update, dict_get_set.
  destruct (String.eqb k "updated"); reflexivity.
Qed.

End DealData.

Section DealDataClaim.
Variable E : Env.

Lemma mergeable_frame name data data' record record' :
  get_or VNone name data' = get_or VNone name data ->
  dict_get name record' = dict_get name record ->
  mergeable name data record -> mergeable name data' record'.
Proof.
  unfold mergeable, get_or. intros -> ->. auto.
Qed.

(** C8, as the code has it.  For an existing opportunity, a non-empty
    patch and the field sales_deal or accounting_deal holding a mapping:
    the call returns the opportunity; each of comment, frontend_gross and
    backend_gross that the patch holds non-empty is stamped with a
    reading of the clock taken during the call and merged over what the
    deal record had for it (the keys of the patch win, the other keys
    stay); the others, and every other key of the record, stay as they
    were; and whenever the resulting record is not empty, as it is once
    a sub-field was merged, it is written to the opportunity and the
    updated signal is sent; with an empty record nothing is written or
    sent. *)
Theorem deal_data_merged (id : N) (data : dict) (field_name : string)
    (st : state) (fields record : dict) :
  db st !! id = Some fields ->
  In field_name ["sales_deal"; "accounting_deal"] ->
  data <> [] ->
  get_or (VDict []) field_name fields = VDict record ->
  (forall name, In name deal_fields -> mergeable name data record) ->
  exists opp' st' record',
    update_opportunity_deal_data E id (VDict data) field_name st
    = (Ok (Some opp'), st')
    /\ (forall name, In name deal_fields ->
          (truthy (get_or VNone name data) = false ->
           dict_get name record' = dict_get name record)
          /\ (forall p o,
                get_or VNone name data = VDict p -> p <> [] ->
                get_or (VDict []) name record = VDict o ->
                exists j m,
                  (j < 3)%nat
                  /\ dict_get name record' = Some (VDict m)
                  /\ forall k,
                       dict_get k m =
                       if String.eqb k "updated"
                       then Some (VTime (utcnow E (ticks st + j)))
                       else match dict_get k p with
                            | Some v => Some v
                            | None => dict_get k o
                            end))
    /\ (forall k, ~ In k deal_fields -> dict_get k record' = dict_get k record)
    /\ ((exists name, In name deal_fields
                      /\ truthy (get_or VNone name data) = true) ->
        record' <> [])
    /\ (record' <> [] ->
        dict_get field_name opp' = Some (VDict record')
        /\ (exists fields', db st' !! id = Some fields'
                            /\ dict_get field_name fields' = Some (VDict record'))
        /\ exists delta, sent st' = (sent st ++ [opportunity_updated opp' delta])%list)
    /\ (record' = [] -> db st' = db st /\ sent st' = sent st).
Proof.
  intros Hid Hfield Hdata Hrecord Hmerge.
  assert (Hin : existsb (String.eqb field_name) ["sales_deal"; "accounting_deal"] = true).
  { destruct Hfield as [<-|[<-|[]]]; reflexivity. }
  assert (Hnot_id : field_name <> "_id").
  { destruct Hfield as [<-|[<-|[]]]; discriminate. }
  set (data' := dict_set "_id" (VOid id) data).
  assert (Hdata' : forall name, In name deal_fields ->
                                get_or VNone name data' = get_or VNone name data).
  { intros name Hname. unfold get_or, data'. rewrite dict_get_set_other; [reflexivity|].
    destruct Hname as [<-|[<-|[<-|[]]]]; discriminate. }
  assert (Hc : In "comment" deal_fields) by (cbn; tauto).
  assert (Hf : In "frontend_gross" deal_fields) by (cbn; tauto).
  assert (Hb : In "backend_gross" deal_fields) by (cbn; tauto).
  destruct (merge_deal_field_spec E "comment" data' record st)
    as (r1 & st1 & Hrun1 & Hdb1 & Hsent1 & Ht1 & Hfr1 & Hno1 & Hyes1 & Hne1 & Hnil1).
  { apply (mergeable_frame "comment" data data' record record);
      [now apply Hdata' | reflexivity | now apply Hmerge]. }
  destruct (merge_deal_field_spec E "frontend_gross" data' r1 st1)
    as (r2 & st2 & Hrun2 & Hdb2 & Hsent2 & Ht2 & Hfr2 & Hno2 & Hyes2 & Hne2 & Hnil2).
  { apply (mergeable_frame "frontend_gross" data data' record r1);
      [now apply Hdata' | apply Hfr1; discriminate | now apply Hmerge]. }
  destruct (merge_deal_field_spec E "backend_gross" data' r2 st2)
    as (r3 & st3 & Hrun3 & Hdb3 & Hsent3 & Ht3 & Hfr3 & Hno3 & Hyes3 & Hne3 & Hnil3).
  { apply (mergeable_frame "backend_gross" data data' record r2);
      [now apply Hdata'
      | rewrite Hfr2 by discriminate; apply Hfr1; discriminate
      | now apply Hmerge]. }
  rewrite !Hdata' in * by assumption.
  assert (Hold : forall name o, get_or (VDict []) name record = VDict o ->
                                forall r, dict_get name r = dict_get name record ->
                                          get_or (VDict []) name r = VDict o).
  { intros name o Ho r Hr. unfold get_or in *. now rewrite Hr. }
  pose (opp := ("_id", VOid id) :: fields).
  assert (Hrun : update_opportunity_deal_data E id (VDict data) field_name st =
                 (if truthy (VDict r3) then
                    (update_set id (dict_update opp [(field_name, VDict r3)]) ;;;
                     send (opportunity_updated
                             (dict_update opp [(field_name, VDict r3)])
                             (dictdelta E opp [(field_name, VDict r3)])) ;;;
                     ret (Some (dict_update opp [(field_name, VDict r3)])))
                  else ret (Some opp)) st3).
  { unfold update_opportunity_deal_data.
    assert (Htd : truthy (VDict data) = true) by (destruct data; [contradiction | reflexivity]).
    rewrite Htd, Hin. cbn [andb].
    unfold bind at 1. unfold get_opportunity, find_by_id. rewrite Hid.
    change (get_or (VDict []) field_name (("_id", VOid id) :: fields))
      with (match (if String.eqb field_name "_id" then Some (VOid id)
                   else dict_get field_name fields) with
            | Some v => v
            | None => VDict []
            end).
    destruct (String.eqb_spec field_name "_id") as [Heq|_]; [contradiction|].
    fold (get_or (VDict []) field_name fields). rewrite Hrecord.
    fold data'. unfold bind at 1. rewrite Hrun1.
    unfold bind at 1. rewrite Hrun2.
    unfold bind at 1. rewrite Hrun3. reflexivity. }
  exists (if truthy (VDict r3) then dict_update opp [(field_name, VDict r3)] else opp),
    (if truthy (VDict r3)
     then State (<[id := written fields (dict_update opp [(field_name, VDict r3)])]> (db st3))
                (sent st3 ++ [opportunity_updated
                                (dict_update opp [(field_name, VDict r3)])
                                (dictdelta E opp [(field_name, VDict r3)])])
                (ticks st3)
     else st3),
    r3.
  split.
  { rewrite Hrun. destruct (truthy (VDict r3)); [|reflexivity].
    unfold update_set. run_monad.
    assert (Hid3 : db st3 !! id = Some fields) by congruence.
    rewrite Hid3.
    assert (Hkeep : dict_get "_id" (dict_set field_name (VDict r3) opp) = Some (VOid id)).
    { now rewrite dict_get_set_other by congruence. }
    cbn [dict_update]. rewrite Hkeep. cbn [py_eq]. rewrite N.eqb_refl. reflexivity. }
  split.
  { intros name Hname.
    destruct Hname as [<-|[<-|[<-|[]]]].
    - split.
      + intros Hno. rewrite Hfr3, Hfr2 by discriminate. now apply Hno1.
      + intros p o Hp Hne Ho. exists 0%nat. eexists.
        split; [lia|]. split.
        * rewrite Hfr3, Hfr2 by discriminate. now apply (Hyes1 p o).
        * intros k. rewrite merged_keys. now rewrite Nat.add_0_r.
    - split.
      + intros Hno. rewrite Hfr3, Hno2 by (assumption || discriminate).
        apply Hfr1. discriminate.
      + intros p o Hp Hne Ho. exists (ticks st1 - ticks st)%nat. eexists.
        split; [lia|]. split.
        * rewrite Hfr3 by discriminate. apply (Hyes2 p o); [assumption..|].
          apply (Hold _ _ Ho). apply Hfr1. discriminate.
        * intros k. rewrite merged_keys.
          now replace (ticks st + (ticks st1 - ticks st))%nat with (ticks st1) by lia.
    - split.
      + intros Hno. rewrite Hno3, Hfr2 by (assumption || discriminate).
        apply Hfr1. discriminate.
      + intros p o Hp Hne Ho. exists (ticks st2 - ticks st)%nat. eexists.
        split; [lia|]. split.
        * apply (Hyes3 p o); [assumption..|].
          apply (Hold _ _ Ho). rewrite Hfr2 by discriminate. apply Hfr1. discriminate.
        * intros k. rewrite merged_keys.
          now replace (ticks st + (ticks st2 - ticks st))%nat with (ticks st2) by lia. }
  split.
  { intros k Hk. rewrite Hfr3, Hfr2, Hfr1; [reflexivity|..];
      intros ->; apply Hk; cbn; tauto. }
  split.
  { intros (name & Hname & Hyes) Hnil. subst r3.
    destruct (Hnil3 eq_refl) as [-> _]. destruct (Hnil2 eq_refl) as [-> _].
    destruct Hname as [<-|[<-|[<-|[]]]];
      [now apply Hne1 | now apply Hne2 | now apply Hne3]. }
  split.
  { intros Hne.
    assert (Htr : truthy (VDict r3) = true) by (destruct r3; [contradiction | reflexivity]).
    rewrite Htr. cbn [db sent dict_update].
    split; [apply dict_get_set_same|]. split.
    - eexists. split; [apply lookup_insert_eq|].
      unfold written. rewrite dict_get_update, dict_get_remove_other by exact Hnot_id.
      now rewrite dict_get_set_same.
    - eexists. now rewrite Hsent3, Hsent2, Hsent1. }
  intros ->. cbn [truthy].
  split; [congruence|]. congruence.
Qed.

End DealDataClaim.

Lemma deal_data_merged_witness :
  exists opp' st' record' m,
    update_opportunity_deal_data Fixture.env 1
      (VDict [("comment", VDict [("content", VStr "sold")])])
      "accounting_deal" Fixture.st0 = (Ok (Some opp'), st')
    /\ dict_get "accounting_deal" opp' = Some (VDict record')
    /\ dict_get "comment" record' = Some (VDict m)
    /\ dict_get "content" m = Some (VStr "sold")
    /\ (exists j, (j < 3)%nat
                  /\ dict_get "updated" m = Some (VTime (utcnow Fixture.env j))).
Proof.
  destruct (deal_data_merged Fixture.env 1
              [("comment", VDict [("content", VStr "sold")])]
              "accounting_deal" Fixture.st0 Fixture.fields
              [("frontend_gross", VDict []); ("backend_gross", VDict []);
               ("comment", VDict [("content", VStr "call back")])])
    as (opp' & st' & record' & Hrun & Hnames & _ & Hsome & Hwritten & _).
  - reflexivity.
  - cbn. tauto.
  - discriminate.
  - reflexivity.
  - intros name [<-|[<-|[<-|[]]]].
    + right. do 2 eexists. split; reflexivity.
    + left. reflexivity.
    + left. reflexivity.
  - destruct (Hnames "comment" ltac:(cbn; tauto)) as [_ Hmerged].
    destruct (Hmerged [("content", VStr "sold")] [("content", VStr "call back")]
                eq_refl ltac:(discriminate) eq_refl)
      as (j & m & Hj & Hm & Hkeys).
    assert (Hne : record' <> []).
    { apply Hsome. exists "comment". split; [cbn; tauto | reflexivity]. }
    destruct (Hwritten Hne) as (Hopp & _ & _).
    exists opp', st', record', m.
    split; [exact Hrun|]. split; [exact Hopp|]. split; [exact Hm|].
    split; [exact (Hkeys "content")|].
    exists j. split; [exact Hj | exact (Hkeys "updated")].
Defined.

(** C8 as stated fails: a comment that is in the patch but empty is not
    stamped, and with no sub-field changed the stored record is written
    and the updated signal sent all the same. *)
Lemma deal_data_signal_without_change :
  let out := update_opportunity_deal_data Fixture.env 1
               (VDict [("comment", VDict [])]) "accounting_deal" Fixture.st0 in
  is_ok (fst out) = true
  /\ db (snd out) = db Fixture.st0
  /\ sent Fixture.st0 = []
  /\ length (sent (snd out)) = 1%nat.
Proof. vm_compute. repeat split. Qed.

(** *** Attachments *)

Section Attachments.
Variable E : Env.

Lemma call_update_attachments id kw v st r st' fields :
  db st !! id = Some fields ->
  dict_get "attachments" kw = Some v ->
  call_update_opportunity E id kw st = (r, st') ->
  (is_ok r = false /\ db st' = db st)
  \/ (is_ok r = true
      /\ exists fields', db st' = <[id := fields']> (db st)
                         /\ dict_get "attachments" fields' = Some v).
Proof.
  intros Hid Hatt. unfold call_update_opportunity.
  destruct (dict_has "id" kw || dict_has "self" kw);
    [intros [= <- <-]; left; split; reflexivity|].
  intros Hrun.
  destruct (update_opportunity_run _ _ _ _ _ _ _ Hrun)
    as [Hleft|(f & opp1 & kw1 & osn & st1 & opp2 & kw2 & opp3 & opp4 &
               Hid' & Hstamp & _ & Hassign & _ & _ & -> & Hdb)];
    [left; exact Hleft|].
  right. split; [reflexivity|]. eexists. split; [exact Hdb|].
  destruct (stamp_status_keeps _ _ _ _ _ _ _ _ _ Hstamp) as [_ Hkw1].
  destruct (assign_keeps _ _ _ _ Hassign) as [-> _].
  assert (Hk : dict_get "attachments" (dict_remove "deal_number" kw1) = Some v).
  { rewrite dict_get_remove_other, Hkw1, dict_get_remove_other by discriminate.
    exact Hatt. }
  unfold written. rewrite dict_get_update, dict_get_remove_other by discriminate.
  now rewrite dict_get_update, Hk.
Qed.

Lemma modified_others (attachment_id : N) (kwargs : dict) (l : list value) :
  existsb (is_attachment attachment_id) l = false ->
  map (modified attachment_id kwargs) l = l.
Proof.
  induction l as [|a r IH]; cbn [existsb map]; [reflexivity|].
  intros H. apply orb_false_iff in H as [Ha Hr].
  rewrite (IH Hr). f_equal.
  destruct a; try reflexivity. cbn in Ha |- *. now rewrite Ha.
Qed.

(** The loop over [todo], from any point on: the collection is as it
    was, and then a loop that returned met no attachment with the id; or
    the opportunity holds a list of attachments as long as the one the
    loop runs over, and after a loop that returned it is that list with
    the attachments of the id modified. *)
Lemma modify_loop_run id aid kwargs :
  forall todo seen opp st r st' fields,
    db st !! id = Some fields ->
    modify_loop E id aid kwargs seen todo opp st = (r, st') ->
    (db st' = db st
     /\ (is_ok r = true -> existsb (is_attachment aid) todo = false))
    \/ (exists fields' l',
          db st' !! id = Some fields'
          /\ dict_get "attachments" fields' = Some (VList l')
          /\ length l' = length (seen ++ todo)
          /\ (is_ok r = true -> l' = (seen ++ map (modified aid kwargs) todo)%list)).
Proof.
  induction todo as [|a rest IH]; intros seen opp st r st' fields Hid; cbn [modify_loop].
  - intros [= <- <-]. left. split; reflexivity.
  - destruct a as [| | | | | | | |attachment];
      try (intros [= <- <-]; left; split; [reflexivity | discriminate]).
    cbn [existsb is_attachment map modified].
    destruct (py_eq (get_or VNone "_id" attachment) (VOid aid)) eqn:Hmatch.
    + unfold bind at 1.
      set (changed := VDict (dict_update attachment kwargs)).
      set (opp1 := dict_set "attachments" (VList (seen ++ changed :: rest)) opp).
      destruct (call_update_opportunity E id opp1 st) as [[o|e] st1] eqn:Hcall.
      * destruct (call_update_attachments id opp1 (VList (seen ++ changed :: rest))
                    st (Ok o) st1 fields Hid (dict_get_set_same _ _ _) Hcall)
          as [[Hbad _]|(_ & fields1 & Hdb1 & Hatt1)]; [discriminate Hbad|].
        assert (Hid1 : db st1 !! id = Some fields1)
          by (rewrite Hdb1; apply lookup_insert_eq).
        intros Hloop.
        destruct (IH (seen ++ [changed])%list opp1 st1 r st' fields1 Hid1 Hloop)
          as [[Hdb Hnone]|(fields' & l' & Hid' & Hatt' & Hlen & Hok)].
        -- right. exists fields1, (seen ++ changed :: rest)%list.
           rewrite Hdb. split; [exact Hid1|]. split; [exact Hatt1|].
           split; [rewrite !length_app; reflexivity|].
           intros Hr. now rewrite (modified_others aid kwargs rest (Hnone Hr)).
        -- right. exists fields', l'. split; [exact Hid'|]. split; [exact Hatt'|].
           split.
           ++ rewrite Hlen, !length_app. cbn. lia.
           ++ intros Hr. rewrite (Hok Hr), <- app_assoc. reflexivity.
      * intros [= <- <-].
        destruct (call_update_attachments id opp1 (VList (seen ++ changed :: rest))
                    st (Raise e) st1 fields Hid (dict_get_set_same _ _ _) Hcall)
          as [[_ Hdb]|(Hbad & _)]; [|discriminate Hbad].
        left. split; [exact Hdb | discriminate].
    + intros Hloop.
      destruct (IH (seen ++ [VDict attachment])%list opp st r st' fields Hid Hloop)
        as [[Hdb Hnone]|(fields' & l' & Hid' & Hatt' & Hlen & Hok)].
      * left. split; [exact Hdb | exact Hnone].
      * right. exists fields', l'. split; [exact Hid'|]. split; [exact Hatt'|].
        split.
        -- rewrite Hlen, !length_app. cbn. lia.
        -- intros Hr. rewrite (Hok Hr), <- app_assoc. reflexivity.
Qed.

End Attachments.

Section AttachmentClaim.
Variable E : Env.

Lemma modify_found_missing oid aid kwargs st :
  has_attachment oid aid (db st) = false ->
  modify_found E oid aid kwargs st = (Ok None, st).
Proof.
  unfold has_attachment, modify_found. run_monad.
  destruct (find_by_id oid (db st)) as [doc|]; [|reflexivity].
  now intros ->.
Qed.

Lemma modify_found_run oid aid kwargs st r st' :
  has_attachment oid aid (db st) = true ->
  modify_found E oid aid kwargs st = (r, st') ->
  length (stored_attachments oid (db st')) = length (stored_attachments oid (db st))
  /\ (is_ok r = true ->
      stored_attachments oid (db st')
      = map (modified aid kwargs) (stored_attachments oid (db st))).
Proof.
  unfold has_attachment, modify_found. unfold bind at 1.
  unfold find_by_id, stored_attachments.
  destruct (db st !! oid) as [fields|] eqn:Hid; [|discriminate].
  change (get_or VNone "attachments" (("_id", VOid oid) :: fields))
    with (get_or VNone "attachments" fields).
  unfold get_or.
  destruct (dict_get "attachments" fields) as [[| | | | | | |l|]|] eqn:Hatt;
    try discriminate.
  assert (Hget : dict_get "attachments" (("_id", VOid oid) :: fields)
                 = Some (VList l)) by exact Hatt.
  intros Hmatch. rewrite Hmatch. cbv beta iota.
  unfold bind at 1, lift at 1. unfold get_or. rewrite Hget. cbn [iterate].
  unfold bind at 1.
  destruct (modify_loop E oid aid kwargs [] l (("_id", VOid oid) :: fields) st)
    as [r0 st0] eqn:Hloop.
  destruct (modify_loop_run E oid aid kwargs l [] _ st r0 st0 fields Hid Hloop)
    as [[Hdb Hnone]|(fields' & l' & Hid' & Hatt' & Hlen & Hok)].
  - destruct r0 as [o|e]; run_monad; intros [= <- <-]; rewrite Hdb, Hid, Hatt.
    + split; [reflexivity|]. intros _.
      now rewrite (modified_others aid kwargs l (Hnone eq_refl)).
    + split; [reflexivity | discriminate].
  - destruct r0 as [o|e]; run_monad; intros [= <- <-]; rewrite Hid', Hatt'.
    + split; [exact Hlen|]. intros _. exact (Hok eq_refl).
    + split; [exact Hlen | discriminate].
Qed.

Lemma all_deleted_modified (aid : N) (l : list value) :
  all_deleted aid (map (modified aid [("deleted", VBool true)]) l) = true.
Proof.
  induction l as [|a r IH]; cbn [map all_deleted forallb]; [reflexivity|].
  fold (all_deleted aid (map (modified aid [("deleted", VBool true)]) r)).
  rewrite IH, andb_true_r.
  destruct a as [| | | | | | | |d]; try reflexivity.
  cbn [modified].
  destruct (py_eq (get_or VNone "_id" d) (VOid aid)) eqn:Hmatch.
  - cbn [dict_update]. unfold get_or.
    rewrite dict_get_set_same. apply orb_true_r.
  - cbn [is_attachment]. now rewrite Hmatch.
Qed.

(** The conversions of the ids. *)
Lemma object_id_converts x o : converts E x o -> object_id E x = Ok o.
Proof.
  intros [->|[Hno Hmade]]; [reflexivity|].
  unfold object_id. rewrite Hmade.
  destruct x; try reflexivity. now destruct (Hno o0).
Qed.

Lemma object_id_refused x :
  refused E x ->
  exists e, object_id E x = Raise e
            /\ (forall s, x = VStr s -> e = InvalidId).
Proof.
  intros [Hno Hnone]. unfold object_id.
  assert (Hraise : forall e,
             match ObjectId E x with
             | Some (VOid o) => Ok o
             | _ => Raise e
             end = Raise e).
  { intros e. destruct (ObjectId E x) as [[| | | | |o| | |]|] eqn:Hmade;
      try reflexivity. now destruct (Hnone o). }
  destruct x as [| | |s| |o| | |];
    try (rewrite Hraise; eexists; split; [reflexivity|];
         intros s' Hs; try discriminate Hs; reflexivity).
  now destruct (Hno o).
Qed.

Lemma modify_attachment_found v w oid aid kwargs st :
  converts E v oid -> converts E w aid ->
  modify_attachment E v w kwargs st = modify_found E oid aid kwargs st.
Proof.
  intros Hv Hw. unfold modify_attachment, bind, lift.
  now rewrite (object_id_converts _ _ Hv), (object_id_converts _ _ Hw).
Qed.

Lemma remove_attachment_found v w oid aid st :
  converts E v oid -> converts E w aid ->
  remove_attachment E v w st
  = modify_found E oid aid [("deleted", VBool true)] st.
Proof.
  intros Hv Hw. unfold remove_attachment, bind at 1 2, lift at 1 2.
  rewrite (object_id_converts _ _ Hv), (object_id_converts _ _ Hw).
  apply modify_attachment_found; now left.
Qed.

Lemma ids_refused v w kwargs st :
  refused E v \/ ((exists oid, converts E v oid) /\ refused E w) ->
  exists e,
    modify_attachment E v w kwargs st = (Raise e, st)
    /\ remove_attachment E v w st = (Raise e, st)
    /\ (forall s, (refused E v /\ v = VStr s) \/ ((exists oid, converts E v oid) /\ w = VStr s) ->
                  e = InvalidId).
Proof.
  unfold modify_attachment, remove_attachment, bind, lift.
  intros [Hv|[[oid Hv] Hw]].
  - destruct (object_id_refused v Hv) as (e & He & Hstr).
    exists e. rewrite He. split; [reflexivity|]. split; [reflexivity|].
    intros s [[_ Hs]|[[oid Hc] _]]; [now apply (Hstr s)|].
    rewrite (object_id_converts _ _ Hc) in He. discriminate He.
  - destruct (object_id_refused w Hw) as (e & He & Hstr).
    exists e. rewrite (object_id_converts _ _ Hv), He.
    split; [reflexivity|]. split; [reflexivity|].
    intros s [[Hr _]|[_ Hs]]; [|now apply (Hstr s)].
    destruct (object_id_refused v Hr) as (e' & He' & _).
    rewrite (object_id_converts _ _ Hv) in He'. discriminate He'.
Qed.

(** What the query finds, by the stored attachments. *)
Lemma has_attachment_of oid aid m :
  Exists (attachment_of aid) (stored_attachments oid m) ->
  has_attachment oid aid m = true.
Proof.
  unfold stored_attachments, has_attachment, find_by_id.
  destruct (m !! oid) as [fields|]; [|intros H; inversion H].
  change (get_or VNone "attachments" (("_id", VOid oid) :: fields))
    with (get_or VNone "attachments" fields).
  unfold get_or.
  destruct (dict_get "attachments" fields) as [[| | | | | | |l|]|];
    try (intros H; inversion H; fail).
  intros Hex. cbn [elem_match]. apply existsb_exists.
  apply List.Exists_exists in Hex. destruct Hex as (a & Hin & d & -> & Hd).
  exists (VDict d). split; [exact Hin|]. cbn. rewrite Hd. apply N.eqb_refl.
Qed.

Lemma has_attachment_other oid aid m :
  Forall (other_attachment aid) (stored_attachments oid m) ->
  has_attachment oid aid m = false.
Proof.
  unfold stored_attachments, has_attachment, find_by_id.
  destruct (m !! oid) as [fields|]; [|reflexivity].
  change (get_or VNone "attachments" (("_id", VOid oid) :: fields))
    with (get_or VNone "attachments" fields).
  unfold get_or.
  destruct (dict_get "attachments" fields) as [[| | | | | | |l|]|];
    try reflexivity.
  intros Hall. cbn [elem_match].
  induction Hall as [|a r (d & o & -> & Hd & Hne) _ IH]; [reflexivity|].
  cbn [existsb has_id]. rewrite Hd, IH.
  destruct (N.eqb_spec o aid); [contradiction | reflexivity].
Qed.

Lemma tombstoned_modified (aid : N) (l : list value) :
  tombstoned aid (map (modified aid [("deleted", VBool true)]) l).
Proof.
  unfold tombstoned. apply List.Forall_forall. intros a' Hin.
  apply in_map_iff in Hin. destruct Hin as (a & <- & _).
  intros d Hd Hid. destruct a as [| | | | | | | |d0]; try discriminate Hd.
  cbn [modified] in Hd.
  destruct (py_eq (get_or VNone "_id" d0) (VOid aid)) eqn:Hmatch.
  - injection Hd as <-. cbn [dict_update]. apply dict_get_set_same.
  - injection Hd as <-. unfold get_or in Hmatch. rewrite Hid in Hmatch.
    cbn in Hmatch. now rewrite N.eqb_refl in Hmatch.
Qed.

Lemma documents_modified (aid : N) (kwargs : dict) (l : list value) :
  forallb is_document l = true ->
  forallb is_document (map (modified aid kwargs) l) = true.
Proof.
  induction l as [|a r IH]; cbn [forallb map]; [reflexivity|].
  intros H. apply andb_true_iff in H as [Ha Hr]. rewrite (IH Hr), andb_true_r.
  destruct a; try discriminate Ha. cbn [modified].
  now destruct (py_eq _ _).
Qed.

(** *** Saving the opportunity back *)

Lemma py_eq_scalar (v : value) : scalar v = true -> py_eq v v = true.
Proof.
  destruct v; cbn; intros H; try discriminate H; try reflexivity.
  - apply Bool.eqb_reflx.
  - apply Z.eqb_refl.
  - apply String.eqb_refl.
  - now rewrite !Z.eqb_refl.
  - apply N.eqb_refl.
  - apply String.eqb_refl.
Qed.

(** [resavable] looks at the resaved keys only. *)
Lemma resavable_agree (f g : dict) :
  (forall k, In k resaved_keys -> dict_get k f = dict_get k g) ->
  resavable E f = resavable E g.
Proof.
  intros H. unfold resavable, dict_has, get_or.
  rewrite (H "id"), (H "self"), (H "status"), (H "dealer_id"), (H "dms_deal"),
    (H "deal_number"), (H "reporting_period") by (cbn; auto 8).
  reflexivity.
Qed.

(** The stored opportunity [f] and the copy [opp] that the loop holds
    are, on the resaved keys, what was found; then the copy is saved, and
    the two are so still. *)
Lemma resave oid opp st f f0 :
  db st !! oid = Some f ->
  resavable E f0 = true ->
  (forall k, In k resaved_keys -> dict_get k f = dict_get k f0) ->
  (forall k, In k resaved_keys -> dict_get k opp = dict_get k f0) ->
  dict_get "_id" opp = Some (VOid oid) ->
  exists o st' f',
    call_update_opportunity E oid opp st = (Ok o, st')
    /\ db st' = <[oid := f']> (db st)
    /\ (forall k, In k resaved_keys -> dict_get k f' = dict_get k f0).
Proof.
  intros Hid Hre Hf Hopp Hoid.
  assert (Hin : forall k, In k resaved_keys ->
                          dict_get k opp = dict_get k f0
                          /\ dict_get k f = dict_get k f0) by auto.
  destruct (Hin "id") as [Hid1 Hid2]; [cbn; auto 8|].
  destruct (Hin "self") as [Hself1 Hself2]; [cbn; auto 8|].
  destruct (Hin "status") as [Hst1 Hst2]; [cbn; auto 8|].
  destruct (Hin "dealer_id") as [Hde1 Hde2]; [cbn; auto 8|].
  destruct (Hin "dms_deal") as [Hdm1 Hdm2]; [cbn; auto 8|].
  destruct (Hin "deal_number") as [Hdn1 Hdn2]; [cbn; auto 8|].
  destruct (Hin "reporting_period") as [Hrp1 Hrp2]; [cbn; auto 8|].
  clear Hin.
  unfold resavable in Hre.
  repeat (apply andb_true_iff in Hre as [Hre ?]).
  rename H into Hperiod, H0 into Hnumber, H1 into Hdms, H2 into Hdealer,
    H3 into Hstatus, H4 into Hself.
  apply negb_true_iff in Hre, Hself, Hnumber.
  unfold call_update_opportunity, dict_has. rewrite Hid1, Hself1.
  unfold dict_has in Hre, Hself. rewrite Hre, Hself. cbn [orb].
  set (sdc := get_or VNone "status_date_change" opp).
  set (kwargs := dict_remove "status_date_change" opp).
  assert (Hkw : forall k, k <> "status_date_change" ->
                          dict_get k kwargs = dict_get k opp)
    by (intros k Hk; now apply dict_get_remove_other).
  assert (Hnonempty : truthy (VDict kwargs) = true).
  { assert (H : dict_get "_id" kwargs = Some (VOid oid))
      by (now rewrite Hkw by discriminate).
    destruct kwargs; [discriminate H | reflexivity]. }
  set (opp0 := ("_id", VOid oid) :: f).
  assert (Hopp0 : forall k, k <> "_id" -> dict_get k opp0 = dict_get k f).
  { intros k Hk. unfold opp0. cbn [dict_get].
    destruct (String.eqb_spec k "_id"); [contradiction | reflexivity]. }
  assert (Hsame : status_changes opp0 kwargs = false).
  { unfold status_changes, get_or.
    rewrite Hkw, Hst1, Hopp0, Hst2 by discriminate.
    unfold get_or in Hstatus.
    destruct (dict_get "status" f0) as [s|]; [|reflexivity].
    now rewrite (py_eq_scalar s Hstatus), andb_false_r. }
  pose proof (stamp_status_same E sdc opp0 kwargs st Hsame) as Hstamp.
  assert (Hcheck : check_dealer opp0 kwargs = Ok tt).
  { unfold check_dealer, dict_has, attr_get, subscript, get_or.
    rewrite Hkw, Hde1, Hopp0, Hdm2 by discriminate.
    destruct (dict_get "dealer_id" f0) as [dealer|] eqn:Hd; [|reflexivity].
    unfold get_or in Hdms.
    destruct (dict_get "dms_deal" f0) as [[| | | | | | | |dms]|];
      try discriminate Hdms; cbn [rbind].
    - match goal with
      | |- context [truthy ?x] => destruct (truthy x)
      end; [|reflexivity].
      change (dict_get "dealer_id" opp0) with (dict_get "dealer_id" f).
      rewrite Hde2. cbn [rbind].
      unfold get_or in Hdealer. rewrite Hd in Hdealer.
      now rewrite (py_eq_scalar dealer Hdealer).
    - reflexivity. }
  assert (Hassign : assign_deal_number opp0 kwargs
                    = Ok (opp0, dict_remove "deal_number" kwargs)).
  { unfold assign_deal_number, get_or.
    rewrite Hkw, Hdn1 by discriminate.
    unfold get_or in Hnumber. now rewrite Hnumber. }
  assert (Hrec : exists opp3,
             recompute_period E opp0 (dict_remove "deal_number" kwargs) = Ok opp3
             /\ dict_get "_id" opp3 = Some (VOid oid)
             /\ (forall k, k <> "reporting_period" ->
                           dict_get k opp3 = dict_get k opp0)
             /\ (dict_get "reporting_period" f0 = None -> opp3 = opp0)).
  { unfold recompute_period, get_or.
    rewrite dict_get_remove_other, Hkw, Hrp1 by discriminate.
    unfold get_or in Hperiod.
    destruct (dict_get "reporting_period" f0) as [p|];
      [|cbn; exists opp0; auto].
    destruct (truthy p) eqn:Htp; [|exists opp0; repeat split; discriminate].
    cbn [negb orb] in Hperiod.
    destruct p as [| | | | | | | |d]; try discriminate Hperiod.
    destruct (reporting_period E d) as [derived|]; [|discriminate Hperiod].
    cbn [or_raise rbind]. eexists. split; [reflexivity|].
    split; [now rewrite dict_get_set_other by discriminate|].
    split; [intros k Hk; now apply dict_get_set_other | discriminate]. }
  destruct Hrec as (opp3 & Hperiod3 & Hid3 & Hkeep3 & Hnoop3).
  destruct (update_opportunity_steps E oid sdc kwargs st f opp0 kwargs None st
              opp0 (dict_remove "deal_number" kwargs) opp3)
    as (opp4 & st' & Hrun & Hkeep4 & Hdb); try assumption.
  { rewrite dict_get_remove_other, Hkw, Hoid by discriminate. cbn.
    apply N.eqb_refl. }
  fold kwargs sdc. rewrite Hrun.
  eexists _, st', _. split; [reflexivity|]. split; [exact Hdb|].
  intros k Hk.
  assert (Hnid : k <> "_id")
    by (intros ->; cbn in Hk; intuition discriminate).
  assert (Hnup : k <> "updated")
    by (intros ->; cbn in Hk; intuition discriminate).
  assert (Hnsd : k <> "status_date_change")
    by (intros ->; cbn in Hk; intuition discriminate).
  unfold written. rewrite dict_get_update, dict_get_remove_other by exact Hnid.
  rewrite dict_get_update, dict_get_remove.
  destruct (String.eqb_spec k "deal_number") as [->|Hndn].
  - rewrite Hkeep4, Hkeep3, Hopp0 by discriminate. rewrite Hdn2.
    now destruct (dict_get "deal_number" f0).
  - rewrite Hkw, (Hopp k Hk) by exact Hnsd.
    destruct (dict_get k f0) as [x|] eqn:Hx; [reflexivity|].
    rewrite Hkeep4 by exact Hnup.
    destruct (String.eqb_spec k "reporting_period") as [->|Hnrp].
    + rewrite (Hnoop3 Hx), Hopp0, Hrp2, Hx by discriminate. reflexivity.
    + rewrite Hkeep3, Hopp0, (Hf k Hk), Hx by assumption. reflexivity.
Qed.

(** The loop returns on documents, whatever it has to save. *)
Lemma modify_loop_returns oid aid kwargs f0 :
  resavable E f0 = true ->
  forall todo seen opp st f,
    db st !! oid = Some f ->
    (forall k, In k resaved_keys -> dict_get k f = dict_get k f0) ->
    (forall k, In k resaved_keys -> dict_get k opp = dict_get k f0) ->
    dict_get "_id" opp = Some (VOid oid) ->
    forallb is_document todo = true ->
    exists o st' f',
      modify_loop E oid aid kwargs seen todo opp st = (Ok o, st')
      /\ db st' !! oid = Some f'
      /\ (forall k, In k resaved_keys -> dict_get k f' = dict_get k f0).
Proof.
  intros Hre. induction todo as [|a rest IH];
    intros seen opp st f Hid Hf Hopp Hoid Hdocs; cbn [modify_loop].
  - exists opp, st, f. unfold ret. auto.
  - cbn [forallb] in Hdocs. apply andb_true_iff in Hdocs as [Ha Hrest].
    destruct a as [| | | | | | | |attachment]; try discriminate Ha.
    destruct (py_eq (get_or VNone "_id" attachment) (VOid aid)).
    + set (changed := VDict (dict_update attachment kwargs)).
      set (opp1 := dict_set "attachments" (VList (seen ++ changed :: rest)) opp).
      assert (Hopp1 : forall k, In k resaved_keys ->
                                dict_get k opp1 = dict_get k f0).
      { intros k Hk. unfold opp1. rewrite dict_get_set_other; [now apply Hopp|].
        intros ->. cbn in Hk. intuition discriminate. }
      assert (Hoid1 : dict_get "_id" opp1 = Some (VOid oid))
        by (unfold opp1; now rewrite dict_get_set_other by discriminate).
      destruct (resave oid opp1 st f f0 Hid Hre Hf Hopp1 Hoid1)
        as (o & st1 & f1 & Hcall & Hdb1 & Hf1).
      assert (Hid1 : db st1 !! oid = Some f1)
        by (rewrite Hdb1; apply lookup_insert_eq).
      destruct (IH (seen ++ [changed])%list opp1 st1 f1 Hid1 Hf1 Hopp1 Hoid1 Hrest)
        as (o' & st' & f' & Hloop & Hid' & Hf').
      exists o', st', f'. unfold bind. rewrite Hcall. auto.
    + exact (IH _ opp st f Hid Hf Hopp Hoid Hrest).
Qed.

(** On an opportunity that can be saved back and whose attachments are
    documents, the query and the loop return, and the opportunity can be
    saved back again. *)
Lemma modify_found_returns oid aid kwargs st fields :
  db st !! oid = Some fields ->
  resavable E fields = true ->
  forallb is_document (stored_attachments oid (db st)) = true ->
  exists o st' fields',
    modify_found E oid aid kwargs st = (Ok o, st')
    /\ db st' !! oid = Some fields'
    /\ resavable E fields' = true
    /\ forallb is_document (stored_attachments oid (db st')) = true.
Proof.
  intros Hid Hre Hdocs.
  destruct (has_attachment oid aid (db st)) eqn:Hhas.
  2:{ rewrite (modify_found_missing _ _ kwargs _ Hhas).
      exists None, st, fields. auto. }
  assert (Hlist : exists l, dict_get "attachments" (("_id", VOid oid) :: fields)
                            = Some (VList l)
                            /\ stored_attachments oid (db st) = l).
  { unfold has_attachment, find_by_id in Hhas. rewrite Hid in Hhas.
    unfold stored_attachments. rewrite Hid.
    change (get_or VNone "attachments" (("_id", VOid oid) :: fields))
      with (get_or VNone "attachments" fields) in Hhas.
    change (dict_get "attachments" (("_id", VOid oid) :: fields))
      with (dict_get "attachments" fields).
    unfold get_or in Hhas.
    destruct (dict_get "attachments" fields) as [[| | | | | | |l|]|];
      try discriminate Hhas. eauto. }
  destruct Hlist as (l & Hget & Hstored). rewrite Hstored in Hdocs.
  assert (Hcopy : forall k, In k resaved_keys ->
                            dict_get k (("_id", VOid oid) :: fields)
                            = dict_get k fields).
  { intros k Hk. cbn [dict_get].
    destruct (String.eqb_spec k "_id") as [->|_]; [|reflexivity].
    cbn in Hk. intuition discriminate. }
  destruct (modify_loop_returns oid aid kwargs fields Hre l []
              (("_id", VOid oid) :: fields) st fields Hid
              (fun k _ => eq_refl) Hcopy eq_refl Hdocs)
    as (o & st' & fields' & Hloop & Hid' & Hagree).
  assert (Hrun : modify_found E oid aid kwargs st = (Ok (Some o), st')).
  { unfold modify_found. unfold bind at 1.
    unfold has_attachment in Hhas. unfold find_by_id in *. rewrite Hid in *.
    rewrite Hhas. cbv beta iota. unfold bind at 1, lift at 1.
    unfold get_or. rewrite Hget. cbn [iterate]. unfold bind, ret.
    now rewrite Hloop. }
  exists (Some o), st', fields'. split; [exact Hrun|]. split; [exact Hid'|].
  split; [now rewrite (resavable_agree _ _ Hagree)|].
  destruct (modify_found_run _ _ _ _ _ _ Hhas Hrun) as [_ Hmap].
  rewrite (Hmap eq_refl), Hstored. now apply documents_modified.
Qed.

(** C10, as the code has it.  Both ids go through [ObjectId] first: an
    id that it refuses makes [modify_attachment], and so
    [remove_attachment], raise, InvalidId when the id is a string, with
    nothing looked up and the state as it was.  For ids that it takes: when every stored
    attachment is a document with another id, among them when there is
    no such opportunity or no attachment, the two return None, raise
    nothing and leave the state, collection included, as it was; when
    some attachment has the id, [remove_attachment] done once and done
    again never changes the number of stored attachments, whether it
    returns or raises, and after a removal that returned every attachment
    of that id has [deleted] True, and still has after a second one.  And
    the removals do return, the first and the second, on an opportunity
    that [update_opportunity] takes back as its own patch and whose
    attachments are documents. *)
Theorem missing_attachment_noop_removal_idempotent (v w : value)
    (kwargs : dict) (st : state) :
  (refused E v \/ ((exists oid, converts E v oid) /\ refused E w) ->
   exists e,
     modify_attachment E v w kwargs st = (Raise e, st)
     /\ remove_attachment E v w st = (Raise e, st)
     /\ (forall s,
           (refused E v /\ v = VStr s)
           \/ ((exists oid, converts E v oid) /\ w = VStr s) ->
           e = InvalidId))
  /\ (forall oid aid,
        converts E v oid -> converts E w aid ->
        (Forall (other_attachment aid) (stored_attachments oid (db st)) ->
         modify_attachment E v w kwargs st = (Ok None, st)
         /\ remove_attachment E v w st = (Ok None, st))
        /\ (let once := remove_attachment E v w st in
            let twice := remove_attachment E v w (snd once) in
            (Exists (attachment_of aid) (stored_attachments oid (db st)) ->
             length (stored_attachments oid (db (snd once)))
             = length (stored_attachments oid (db st))
             /\ length (stored_attachments oid (db (snd twice)))
                = length (stored_attachments oid (db st))
             /\ (is_ok (fst once) = true ->
                 tombstoned aid (stored_attachments oid (db (snd once)))
                 /\ (is_ok (fst twice) = true ->
                     tombstoned aid (stored_attachments oid (db (snd twice))))))
            /\ (forall fields,
                  db st !! oid = Some fields ->
                  resavable E fields = true ->
                  forallb is_document (stored_attachments oid (db st)) = true ->
                  is_ok (fst once) = true /\ is_ok (fst twice) = true))).
Proof.
  split; [apply ids_refused|].
  intros oid aid Hv Hw. split.
  - intros Hother. apply has_attachment_other in Hother.
    rewrite (modify_attachment_found _ _ _ _ _ _ Hv Hw),
      (remove_attachment_found _ _ _ _ _ Hv Hw).
    split; now apply modify_found_missing.
  - cbv zeta. rewrite (remove_attachment_found _ _ _ _ st Hv Hw).
    destruct (modify_found E oid aid [("deleted", VBool true)] st)
      as [r1 st1] eqn:Honce. cbn [fst snd].
    rewrite (remove_attachment_found _ _ _ _ st1 Hv Hw).
    destruct (modify_found E oid aid [("deleted", VBool true)] st1)
      as [r2 st2] eqn:Htwice. cbn [fst snd].
    split.
    + intros Hex. apply has_attachment_of in Hex.
      destruct (modify_found_run _ _ _ _ _ _ Hex Honce) as [Hlen1 Hok1].
      destruct (has_attachment oid aid (db st1)) eqn:Hhas1.
      * destruct (modify_found_run _ _ _ _ _ _ Hhas1 Htwice) as [Hlen2 Hok2].
        split; [exact Hlen1|]. split; [congruence|].
        intros Hr1. rewrite (Hok1 Hr1). split; [apply tombstoned_modified|].
        intros Hr2. rewrite (Hok2 Hr2). apply tombstoned_modified.
      * rewrite (modify_found_missing _ _ _ _ Hhas1) in Htwice.
        injection Htwice as <- <-.
        split; [exact Hlen1|]. split; [exact Hlen1|].
        intros Hr1. rewrite (Hok1 Hr1).
        split; [apply tombstoned_modified | intros _; apply tombstoned_modified].
    + intros fields Hid Hre Hdocs.
      destruct (modify_found_returns oid aid [("deleted", VBool true)] st fields
                  Hid Hre Hdocs)
        as (o1 & st1' & fields1 & Hrun1 & Hid1 & Hre1 & Hdocs1).
      rewrite Hrun1 in Honce. injection Honce as <- <-.
      destruct (modify_found_returns oid aid [("deleted", VBool true)] st1' fields1
                  Hid1 Hre1 Hdocs1)
        as (o2 & st2' & fields2 & Hrun2 & _).
      rewrite Hrun2 in Htwice. injection Htwice as <- _.
      split; reflexivity.
Qed.

End AttachmentClaim.

Lemma missing_attachment_noop_removal_idempotent_witness :
  remove_attachment Fixture.env (VOid 1) (VOid 9) Fixture.st0
  = (Ok None, Fixture.st0)
  /\ (let id7 := VStr "000000000000000000000007" in
      let once := remove_attachment Sample.env (VOid 1) id7 Fixture.st0 in
      let twice := remove_attachment Sample.env (VOid 1) id7 (snd once) in
      is_ok (fst once) = true /\ is_ok (fst twice) = true
      /\ length (stored_attachments 1 (db (snd twice))) = 2%nat
      /\ tombstoned 7 (stored_attachments 1 (db (snd twice))))
  /\ (exists e,
        remove_attachment Sample.env (VOid 1) (VStr "7") Fixture.st0
        = (Raise e, Fixture.st0)).
Proof.
  destruct (missing_attachment_noop_removal_idempotent Fixture.env
              (VOid 1) (VOid 9) [] Fixture.st0) as [_ Hmissing].
  destruct (missing_attachment_noop_removal_idempotent Sample.env
              (VOid 1) (VStr "000000000000000000000007") [] Fixture.st0)
    as [_ Hthere].
  destruct (missing_attachment_noop_removal_idempotent Sample.env
              (VOid 1) (VStr "7") [] Fixture.st0) as [Hrefused _].
  destruct (Hmissing 1%N 9%N (or_introl eq_refl) (or_introl eq_refl))
    as [Hnone _].
  assert (Hid7 : converts Sample.env (VStr "000000000000000000000007") 7).
  { right. split; [intros o' H; discriminate H | reflexivity]. }
  destruct (Hthere 1%N 7%N (or_introl eq_refl) Hid7) as [_ [Hfound Hreturns]].
  split; [|split].
  - apply Hnone. repeat constructor.
    + exists [("_id", VOid 7); ("key", VStr "a.pdf"); ("deleted", VBool false)], 7%N.
      repeat split; try reflexivity; discriminate.
    + exists [("_id", VOid 8); ("key", VStr "b.pdf"); ("deleted", VBool false)], 8%N.
      repeat split; try reflexivity; discriminate.
  - destruct (Hreturns Fixture.fields eq_refl eq_refl eq_refl) as [Hok1 Hok2].
    destruct Hfound as (_ & Hlen & Hdel).
    { apply Exists_cons_hd. eexists. split; reflexivity. }
    split; [exact Hok1|]. split; [exact Hok2|].
    split; [exact Hlen|]. exact (proj2 (Hdel Hok1) Hok2).
  - destruct Hrefused as (e & _ & Hremove & _).
    { right. split; [exists 1%N; now left|].
      split; intros o H; discriminate H. }
    exists e. exact Hremove.
Defined.

(** C10 as stated fails: the opportunity has no attachment with the id,
    a string that is no ObjectId, and the two calls raise. *)
Lemma malformed_attachment_id_raises :
  Forall (fun a => forall d, a = VDict d ->
                             dict_get "_id" d <> Some (VStr "no-such-id"))
         (stored_attachments 1 (db Fixture.st0))
  /\ modify_attachment Fixture.env (VOid 1) (VStr "no-such-id")
                       [("label", VStr "back")] Fixture.st0
     = (Raise InvalidId, Fixture.st0)
  /\ remove_attachment Fixture.env (VOid 1) (VStr "no-such-id") Fixture.st0
     = (Raise InvalidId, Fixture.st0).
Proof.
  split; [|split; reflexivity].
  repeat constructor; intros d [= <-]; discriminate.
Qed.

(** * Further properties *)

(** ** More on the filter compiler *)

Section MoreFilterFacts.
Variable E : Env.

Lemma make_query_raises (F : dict) (e : error) :
  make_query E F = Raise e <-> compile_filters E F = Raise e.
Proof.
  unfold make_query.
  destruct (compile_filters E F) as [[|c cs]|e']; cbn; split; congruence.
Qed.

(** X1.  [make_query] raises exactly what the first filter that raises
    raises: it raises [e] if and only if the filters split into some that
    all compile, one that raises [e], and the rest, whatever that is. *)
Theorem make_query_raises_first (F : dict) (e : error) :
  make_query E F = Raise e <->
  exists F1 k v F2,
    F = (F1 ++ (k, v) :: F2)%list
    /\ is_ok (compile_filters E F1) = true
    /\ filter_clauses E k v = Raise e.
Proof.
  rewrite make_query_raises. split.
  - induction F as [|[k v] r IH]; cbn [compile_filters]; [discriminate|].
    destruct (filter_clauses E k v) as [cs|e'] eqn:Hk; cbn [rbind].
    + destruct (compile_filters E r) as [more|e''] eqn:Hr; cbn [rbind];
        [discriminate|].
      intros [= ->].
      destruct (IH eq_refl) as (F1 & k' & v' & F2 & -> & Hok & Hraise).
      exists ((k, v) :: F1), k', v', F2. split; [reflexivity|].
      split; [|exact Hraise].
      cbn [compile_filters]. rewrite Hk. cbn [rbind].
      destruct (compile_filters E F1); [reflexivity | discriminate Hok].
    + intros [= ->]. exists [], k, v, r. auto.
  - intros (F1 & k & v & F2 & -> & Hok & Hraise).
    rewrite compile_filters_app.
    destruct (compile_filters E F1) as [a|e']; [|discriminate Hok].
    cbn [rbind compile_filters]. now rewrite Hraise.
Qed.

(** A filter that gives no clause: an unrecognized one, or a
    reporting period without year, month and quarter. *)
Lemma clauseless_filter (k : string) (v : value) :
  clauseless k v -> filter_clauses E k v = Ok [].
Proof.
  intros [Hk|(-> & d & -> & Hy & Hm & Hq)].
  - now apply filter_clauses_unknown.
  - change (filter_clauses E "reporting_period" (VDict d))
      with (period_clauses (VDict d) ["year"; "month"; "quarter"]).
    cbn. now rewrite Hy, Hm, Hq.
Qed.

(** X2.  Filters that give no clause at all, not only no filters, make
    the list query raise the "Invalid query" ValueError: filter names
    that are not recognized, and a reporting period filter that has no
    year, month or quarter. *)
Theorem clauseless_filters_refused (F : dict)
    (sort_by page page_size filter_query : value) :
  Forall (fun kv => clauseless (fst kv) (snd kv)) F ->
  make_query E F = Ok (VDict [])
  /\ _get_opportunities E F sort_by page page_size filter_query
     = Raise InvalidQuery.
Proof.
  intros Hall.
  assert (Hnone : compile_filters E F = Ok []).
  { induction Hall as [|[k v] r Hkv _ IH]; [reflexivity|].
    cbn [compile_filters]. rewrite (clauseless_filter k v Hkv), IH. reflexivity. }
  assert (Hq : make_query E F = Ok (VDict [])).
  { unfold make_query. now rewrite Hnone. }
  split; [exact Hq|]. unfold _get_opportunities. now rewrite Hq.
Qed.

End MoreFilterFacts.

Lemma make_query_raises_first_witness :
  make_query Fixture.env
    [("ids", VList []); ("created", VNone); ("updated", VInt 1)]
  = Raise AttributeError.
Proof.
  apply (make_query_raises_first Fixture.env).
  exists [("ids", VList [])], "created", VNone, [("updated", VInt 1)].
  split; [reflexivity|]. split; reflexivity.
Defined.

Lemma clauseless_filters_refused_witness :
  make_query Fixture.env [("colour", VStr "red"); ("reporting_period", VDict [])]
  = Ok (VDict [])
  /\ _get_opportunities Fixture.env
       [("colour", VStr "red"); ("reporting_period", VDict [])]
       VNone VNone VNone VNone = Raise InvalidQuery.
Proof.
  apply (clauseless_filters_refused Fixture.env).
  constructor; [|constructor; [|constructor]].
  - left. cbn. intros H. repeat (destruct H as [H|H]; [discriminate H|]). exact H.
  - right. split; [reflexivity|]. exists []. repeat split.
Defined.

Lemma and_opt_true_r (x : option bool) : and_opt x (Some true) = x.
Proof. destruct x as [[]|]; reflexivity. Qed.

Lemma and_opt_true (x y : option bool) :
  and_opt x y = Some true <-> x = Some true /\ y = Some true.
Proof.
  destruct x as [[]|], y as [[]|]; cbn;
    (split; [intros H | intros [Hx Hy]]); try discriminate; auto.
Qed.

(** In the fragment that [matches] defines, a [$and] of one or more
    queries matches when all of them do. *)
Lemma matches_and (doc : dict) (qs : list value) :
  qs <> [] ->
  matches doc (cond "$and" (VList qs)) = Some true
  <-> Forall (fun q => matches doc q = Some true) qs.
Proof.
  intros Hqs.
  assert (Hconj : forall l,
             (fix conj (qs : list value) : option bool :=
                match qs with
                | [] => Some true
                | q' :: r' => and_opt (matches doc q') (conj r')
                end) l = Some true
             <-> Forall (fun q => matches doc q = Some true) l).
  { induction l as [|a r IH].
    - split; [constructor | reflexivity].
    - rewrite and_opt_true, IH. split.
      + intros [Ha Hr]. now constructor.
      + intros H. inversion H; subst. auto. }
  destruct qs as [|a r]; [contradiction|].
  rewrite <- Hconj.
  change (matches doc (cond "$and" (VList (a :: r))))
    with (and_opt ((fix conj (qs : list value) : option bool :=
                      match qs with
                      | [] => Some true
                      | q' :: r' => and_opt (matches doc q') (conj r')
                      end) (a :: r))
                  (Some true)).
  now rewrite and_opt_true_r.
Qed.

Section ListQuery.
Variable E : Env.

(** What the store finds: any rule for whether a document matches a
    query, under which a [$and] of one or more queries matches the
    documents that all of them match. *)
Variable found_by : dict -> value -> Prop.
Hypothesis and_is_conjunction :
  forall doc qs,
    qs <> [] ->
    found_by doc (cond "$and" (VList qs)) <-> Forall (found_by doc) qs.

(** X3.  The cursor of the list query looks for exactly the documents
    that the compiled filters match and that [filter_query], when one is
    given, matches too, whatever the store makes of the clauses; and
    without both a page and a page size (a page size of 0 is none) the
    cursor has no window. *)
Theorem list_query_conjoins_filter_query (F : dict)
    (sort_by page page_size filter_query q : value) (c : cursor) (doc : dict) :
  make_query E F = Ok q ->
  _get_opportunities E F sort_by page page_size filter_query = Ok c ->
  (found_by doc (cur_query c)
   <-> found_by doc q
       /\ (truthy filter_query = true -> found_by doc filter_query))
  /\ (truthy page && truthy page_size = false ->
      cur_skip c = 0 /\ cur_limit c = 0).
Proof.
  intros Hq. unfold _get_opportunities. rewrite Hq. cbn [rbind].
  destruct (negb (truthy q)); [discriminate|].
  assert (Hfound : found_by doc
                     (cond "$and"
                        (VList (q :: (if truthy filter_query
                                      then [filter_query] else []))))
                   <-> found_by doc q
                       /\ (truthy filter_query = true ->
                           found_by doc filter_query)).
  { rewrite and_is_conjunction by discriminate.
    destruct (truthy filter_query); split.
    - intros H. inversion H as [|? ? Hhead Htail]; subst.
      inversion Htail; subst. auto.
    - intros [Hhead Htail]. repeat constructor; auto.
    - intros H. inversion H; subst. split; [assumption | discriminate].
    - intros [Hhead _]. repeat constructor; auto. }
  destruct (truthy page && truthy page_size) eqn:Hwindow.
  - destruct (as_int page) as [p|]; [|discriminate].
    destruct (as_int page_size) as [n|]; [|discriminate].
    destruct (n * (p - 1) <? 0); [discriminate|]. cbn [rbind].
    destruct (if truthy sort_by then _ else _) as [order|]; [|discriminate].
    intros [= <-]. cbn [cur_query]. split; [exact Hfound | discriminate].
  - cbn [rbind].
    destruct (if truthy sort_by then _ else _) as [order|]; [|discriminate].
    intros [= <-]. cbn [cur_query cur_skip cur_limit fst snd].
    split; [exact Hfound | auto].
Qed.

End ListQuery.

Lemma list_query_conjoins_filter_query_witness :
  exists c,
    _get_opportunities Fixture.env [("assignees", VList [VStr "bob"])]
      VNone (VInt 1) (VInt 0)
      (clause "sales_reps" (cond "$size" (VInt 0))) = Ok c
    /\ matches Fixture.fields (cur_query c) = Some true
    /\ cur_skip c = 0 /\ cur_limit c = 0.
Proof.
  eexists. split; [reflexivity|].
  destruct (list_query_conjoins_filter_query Fixture.env
              (fun doc q => matches doc q = Some true) matches_and
              [("assignees", VList [VStr "bob"])] VNone (VInt 1) (VInt 0)
              (clause "sales_reps" (cond "$size" (VInt 0)))
              _ _ Fixture.fields eq_refl eq_refl) as [Hmatch Hwindow].
  split; [|exact (Hwindow eq_refl)].
  apply Hmatch. split; [reflexivity | intros _; reflexivity].
Defined.

(** X4.  The assignees and the bdc_assignees filters together: the
    query matches when both do; "unassigned" in [bdc_assignees] asks for
    an empty [bdc_reps], other values for one of them in [bdc_reps]; so
    with "unassigned" in both, four sets must be empty and
    [finance_managers] is still not looked at. *)
Theorem assignment_filters_conjoin (E : Env) (vs ws sm sr cr br fm : list string)
    (doc : dict) :
  dict_get "sales_managers" doc = Some (VList (map VStr sm)) ->
  dict_get "sales_reps" doc = Some (VList (map VStr sr)) ->
  dict_get "customer_reps" doc = Some (VList (map VStr cr)) ->
  dict_get "bdc_reps" doc = Some (VList (map VStr br)) ->
  dict_get "finance_managers" doc = Some (VList (map VStr fm)) ->
  exists q,
    make_query E [("assignees", VList (map VStr vs));
                  ("bdc_assignees", VList (map VStr ws))] = Ok q
    /\ matches doc q =
       Some ((if among vs "unassigned"
              then nobody sr && nobody cr && nobody sm
              else existsb (among vs) sm || existsb (among vs) sr
                   || existsb (among vs) cr || existsb (among vs) br
                   || existsb (among vs) fm)
             && (if among ws "unassigned"
                 then nobody br
                 else existsb (among ws) br)).
Proof.
  intros Hsm Hsr Hcr Hbr Hfm.
  unfold make_query. cbn [compile_filters].
  change (filter_clauses E "assignees" (VList (map VStr vs)))
    with (unassigned <~ py_in (VStr "unassigned") (VList (map VStr vs)) ;;
          if unassigned : bool then
            Ok [cond "$and" (VList [clause "sales_reps" (cond "$size" (VInt 0));
                                    clause "customer_reps" (cond "$size" (VInt 0));
                                    clause "sales_managers" (cond "$size" (VInt 0))])]
          else
            Ok [cond "$or"
                  (VList [clause "sales_managers" (cond "$in" (VList (map VStr vs)));
                          clause "sales_reps" (cond "$in" (VList (map VStr vs)));
                          clause "customer_reps" (cond "$in" (VList (map VStr vs)));
                          clause "bdc_reps" (cond "$in" (VList (map VStr vs)));
                          clause "finance_managers" (cond "$in" (VList (map VStr vs)))])]).
  change (filter_clauses E "bdc_assignees" (VList (map VStr ws)))
    with (unassigned <~ py_in (VStr "unassigned") (VList (map VStr ws)) ;;
          if unassigned : bool
          then Ok [clause "bdc_reps" (cond "$size" (VInt 0))]
          else Ok [clause "bdc_reps" (cond "$in" (VList (map VStr ws)))]).
  unfold py_in. rewrite !in_strings.
  destruct (among vs "unassigned"), (among ws "unassigned");
    cbn [rbind app]; eexists; (split; [reflexivity|]);
    cbn; unfold test_field; cbn;
    rewrite ?Hsm, ?Hsr, ?Hcr, ?Hbr, ?Hfm, ?size_zero, ?strings_of_map; cbn;
    f_equal;
    destruct (nobody sr), (nobody cr), (nobody sm), (nobody br),
      (existsb (among vs) sm), (existsb (among vs) sr),
      (existsb (among vs) cr), (existsb (among vs) br),
      (existsb (among vs) fm), (existsb (among ws) br); reflexivity.
Qed.

Lemma assignment_filters_conjoin_witness :
  exists q,
    make_query Fixture.env [("assignees", VList (map VStr ["unassigned"]));
                            ("bdc_assignees", VList (map VStr ["unassigned"]))]
    = Ok q
    /\ matches Fixture.fields q = Some false.
Proof.
  exact (assignment_filters_conjoin Fixture.env ["unassigned"] ["unassigned"]
           [] [] [] ["bob"] [] Fixture.fields
           eq_refl eq_refl eq_refl eq_refl eq_refl).
Defined.

Lemma map_result_all {A B} (f : A -> result B) (l : list A) (ys : list B) :
  Forall2 (fun x y => f x = Ok y) l ys -> map_result f l = Ok ys.
Proof.
  induction 1 as [|x y l ys Hx _ IH]; cbn [map_result]; [reflexivity|].
  now rewrite Hx, IH.
Qed.

Lemma compile_patterns_some (E : Env) (l : list string) (terms : list value) :
  Forall2 (fun t r => re_compile E t = Some r) l terms ->
  map_result (fun t => or_raise ReError (re_compile E t)) l = Ok terms.
Proof.
  intros H. apply map_result_all.
  induction H as [|t r l terms Ht _ IH]; constructor; [now rewrite Ht | exact IH].
Qed.

Lemma compile_patterns_none (E : Env) (l : list string) :
  Exists (fun t => re_compile E t = None) l ->
  map_result (fun t => or_raise ReError (re_compile E t)) l = Raise ReError.
Proof.
  induction 1 as [t l Ht|t l _ IH]; cbn [map_result].
  - now rewrite Ht.
  - destruct (re_compile E t); cbn; [now rewrite IH | reflexivity].
Qed.

(** X5.  The keywords filter on a string.  When [shlex.split] raises a
    ValueError or a UnicodeEncodeError, the string is split at its
    spaces instead, and with every piece a pattern the filter compiles
    to: a keyword matches one of the patterns, or the deal number is the
    whole string.  A piece that is not a pattern, there or among the
    tokens of [shlex.split], makes [make_query] raise. *)
Theorem keywords_filter_falls_back (E : Env) (s : string) :
  (shlex_split E (VStr s) = Raise ValueError
   \/ shlex_split E (VStr s) = Raise UnicodeEncodeError ->
   (forall terms,
      Forall2 (fun t r => re_compile E t = Some r) (split_on " " s) terms ->
      make_query E [("keywords", VStr s)]
      = Ok (cond "$and"
              (VList [cond "$or"
                        (VList [clause "customer_keywords" (cond "$in" (VList terms));
                                clause "dms_deal.deal_number" (VStr s)])])))
   /\ (Exists (fun t => re_compile E t = None) (split_on " " s) ->
       make_query E [("keywords", VStr s)] = Raise ReError))
  /\ (forall tokens,
        shlex_split E (VStr s) = Ok tokens ->
        Exists (fun t => re_compile E t = None) tokens ->
        make_query E [("keywords", VStr s)] = Raise ReError).
Proof.
  assert (Hq : make_query E [("keywords", VStr s)] =
               (terms <~ keyword_terms E (VStr s) ;;
                Ok (cond "$and"
                      (VList [cond "$or"
                                (VList [clause "customer_keywords"
                                          (cond "$in" (VList terms));
                                        clause "dms_deal.deal_number" (VStr s)])])))).
  { unfold make_query. cbn [compile_filters].
    change (filter_clauses E "keywords" (VStr s))
      with (terms <~ keyword_terms E (VStr s) ;;
            Ok [cond "$or"
                  (VList [clause "customer_keywords" (cond "$in" (VList terms));
                          clause "dms_deal.deal_number" (VStr s)])]).
    destruct (keyword_terms E (VStr s)); reflexivity. }
  rewrite Hq. unfold keyword_terms. split.
  - intros Hshlex. split.
    + intros terms Hterms.
      destruct Hshlex as [-> | ->]; cbn [rbind];
        now rewrite (compile_patterns_some E _ _ Hterms).
    + intros Hbad.
      destruct Hshlex as [-> | ->]; cbn [rbind];
        now rewrite (compile_patterns_none E _ Hbad).
  - intros tokens -> Hbad. cbn [rbind].
    now rewrite (compile_patterns_none E _ Hbad).
Qed.

Lemma keywords_filter_falls_back_witness :
  make_query Sample.env [("keywords", VStr "O'Neil x")]
  = Ok (cond "$and"
          (VList [cond "$or"
                    (VList [clause "customer_keywords"
                              (cond "$in" (VList [VRegex "O'Neil"; VRegex "x"]));
                            clause "dms_deal.deal_number" (VStr "O'Neil x")])]))
  /\ make_query Sample.env [("keywords", VStr "a (")] = Raise ReError.
Proof.
  destruct (keywords_filter_falls_back Sample.env "O'Neil x") as [Hfall _].
  destruct (keywords_filter_falls_back Sample.env "a (") as [_ Htokens].
  split.
  - apply (proj1 (Hfall (or_introl eq_refl))).
    repeat constructor.
  - apply (Htokens ["a"; "("] eq_refl).
    apply Exists_cons_tl, Exists_cons_hd. reflexivity.
Defined.

(** ** More on the update engine *)

Section UpdateTrace.
Variable E : Env.

Lemma notify_assignment_sent opp kw st :
  exists st', notify_assignment E opp kw st = (Ok tt, st')
              /\ db st' = db st /\ ticks st' = ticks st
              /\ sent st' = (sent st ++ assignment_signals E opp kw)%list.
Proof.
  unfold notify_assignment, assignment_signals, assignee_keys.
  destruct (filter _ _) as [|k [|k' r]]; run_monad;
    eexists; (split; [reflexivity|]); cbn [db sent ticks];
    rewrite ?app_nil_r; auto.
Qed.

(** The status branch in full, for a patch that changes the status. *)
Lemma stamp_status_detail sdc opp kw st opp1 kw1 osn st1 :
  status_changes opp kw = true ->
  stamp_status E sdc opp kw st = (Ok (opp1, kw1, osn), st1) ->
  osn = Some (status_name E opp)
  /\ db st1 = db st /\ sent st1 = sent st
  /\ (if is_none (get_or VNone "reporting_period" kw)
      then exists p,
             reporting_period E
               [("year", VInt (dt_year (utcnow E (period_reading sdc st))));
                ("month", VInt (dt_month (utcnow E (S (period_reading sdc st)))))]
             = Some p
             /\ kw1 = dict_set "reporting_period" p kw
             /\ ticks st1 = S (S (period_reading sdc st))
      else kw1 = kw /\ ticks st1 = period_reading sdc st).
Proof.
  unfold status_changes, stamp_status, period_reading. intros ->. run_monad.
  destruct (is_none sdc); cbn;
    (destruct (get_or VNone "last_status_change" (setdefault "last_status_change" opp));
     try discriminate);
    (destruct (is_none (get_or VNone "reporting_period" kw)); cbn;
     [match goal with
      | |- context [reporting_period E ?kw0] =>
          destruct (reporting_period E kw0) as [p|] eqn:Hp
      end; cbn; [|discriminate]|]);
    intros [= <- <- <- <-]; cbn [db sent ticks]; repeat split; eauto.
Qed.

Lemma stamp_status_quiet sdc opp kw st r st1 :
  stamp_status E sdc opp kw st = (r, st1) -> sent st1 = sent st.
Proof.
  unfold stamp_status.
  destruct (negb (is_none (get_or VNone "status" kw)) && _); run_monad.
  - destruct (is_none sdc); cbn;
      (destruct (get_or VNone "last_status_change" (setdefault "last_status_change" opp));
       try (intros [= <- <-]; reflexivity));
      (destruct (is_none (get_or VNone "reporting_period" kw)); cbn;
       [destruct (or_raise HelperError _); cbn|]; intros [= <- <-]; reflexivity).
  - intros [= <- <-]. reflexivity.
Qed.

(** The opportunity once [updated] is stamped (dao.py 495-496). *)
Lemma stamp_updated_detail opp kw st :
  exists st',
    stamp_updated E opp kw st
    = (Ok (if truthy (get_or VNone "updated" kw) then opp
           else dict_set "updated" (VTime (utcnow E (ticks st))) opp), st')
    /\ db st' = db st /\ sent st' = sent st
    /\ ticks st' = (if truthy (get_or VNone "updated" kw) then ticks st
                    else S (ticks st)).
Proof.
  unfold stamp_updated.
  destruct (truthy (get_or VNone "updated" kw)); run_monad;
    eexists; (split; [reflexivity|]); auto.
Qed.

(** A call that returned, step by step, with what it wrote and sent. *)
Lemma update_opportunity_trace id sdc kwargs st o st' :
  update_opportunity E id sdc kwargs st = (Ok o, st') ->
  exists fields opp1 kw1 osn st1 opp2 kw2 opp3 opp4,
    db st !! id = Some fields
    /\ stamp_status E sdc (("_id", VOid id) :: fields) kwargs st
       = (Ok (opp1, kw1, osn), st1)
    /\ check_dealer opp1 kw1 = Ok tt
    /\ assign_deal_number opp1 kw1 = Ok (opp2, kw2)
    /\ recompute_period E opp2 kw2 = Ok opp3
    /\ opp4 = (if truthy (get_or VNone "updated" kw2) then opp3
               else dict_set "updated" (VTime (utcnow E (ticks st1))) opp3)
    /\ o = dict_update opp4 kw2
    /\ db st' = <[id := written fields o]> (db st)
    /\ ticks st' = (if truthy (get_or VNone "updated" kw2) then ticks st1
                    else S (ticks st1))
    /\ sent st' =
       (sent st ++ assignment_signals E opp1 kw1
        ++ [opportunity_updated o (dictdelta E opp4 kw2)]
        ++ (match osn with
            | Some name => [opportunity_status_updated o name]
            | None => []
            end)
        ++ (if negb (py_eq (get_or (VStr EmptyString) "sub_status" opp4)
                           (get_or (VStr EmptyString) "sub_status" o))
            then [opportunity_sub_status_updated o]
            else []))%list.
Proof.
  unfold update_opportunity.
  destruct (truthy (VDict kwargs)); [|discriminate].
  unfold bind at 1. unfold get_opportunity, find_by_id.
  destruct (db st !! id) as [fields|] eqn:Hid; [|discriminate].
  unfold bind at 1.
  destruct (stamp_status E sdc (("_id", VOid id) :: fields) kwargs st)
    as [[[[opp1 kw1] osn]|e] st1] eqn:Hstamp; [|discriminate].
  pose proof (stamp_status_db _ _ _ _ _ _ _ Hstamp) as Hdb1.
  pose proof (stamp_status_quiet _ _ _ _ _ _ Hstamp) as Hsent1.
  unfold bind at 1.
  destruct (notify_assignment_sent opp1 kw1 st1) as (st2 & -> & Hdb2 & Ht2 & Hsent2).
  unfold bind at 1, lift at 1.
  destruct (check_dealer opp1 kw1) as [[]|e] eqn:Hdealer; [|discriminate].
  unfold bind at 1, lift at 1.
  destruct (assign_deal_number opp1 kw1) as [[opp2 kw2]|e] eqn:Hassign; [|discriminate].
  unfold bind at 1, lift at 1.
  destruct (recompute_period E opp2 kw2) as [opp3|e] eqn:Hperiod; [|discriminate].
  unfold bind at 1.
  destruct (stamp_updated_detail opp3 kw2 st2) as (st4 & -> & Hdb4 & Hsent4 & Ht4).
  rewrite Ht2 in *.
  set (opp4 := if truthy (get_or VNone "updated" kw2) then opp3
               else dict_set "updated" (VTime (utcnow E (ticks st1))) opp3).
  assert (Hid4 : db st4 !! id = Some fields) by congruence.
  unfold commit, update_set. run_monad. rewrite Hid4.
  destruct (match dict_get "_id" (dict_update opp4 kw2) with
            | Some v => py_eq v (VOid id)
            | None => true
            end); [|discriminate].
  cbn.
  intros Hrun. exists fields, opp1, kw1, osn, st1, opp2, kw2, opp3, opp4.
  assert (Ho : o = dict_update opp4 kw2).
  { destruct osn; cbn in Hrun; destruct (negb (py_eq _ _)); cbn in Hrun;
      now injection Hrun as <- _. }
  subst o.
  do 7 (split; [auto; fail|]).
  destruct osn; cbn in Hrun;
    destruct (negb (py_eq (get_or (VStr EmptyString) "sub_status" opp4)
                          (get_or (VStr EmptyString) "sub_status"
                                  (dict_update opp4 kw2))));
    cbn in Hrun; injection Hrun as <-; cbn [db sent ticks];
    rewrite Hsent4, Hsent2, Hsent1, Hdb4, Hdb2, Hdb1, Ht4;
    unfold written; repeat split; rewrite <- ?app_assoc; reflexivity.
Qed.

End UpdateTrace.

Lemma written_get (k : string) (fields o : dict) :
  k <> "_id" ->
  dict_get k (written fields o)
  = match dict_get k o with Some v => Some v | None => dict_get k fields end.
Proof.
  intros Hk. unfold written.
  now rewrite dict_get_update, dict_get_remove_other.
Qed.

Lemma written_get_same (k : string) (fields o : dict) :
  k <> "_id" -> dict_get k o = dict_get k fields ->
  dict_get k (written fields o) = dict_get k fields.
Proof.
  intros Hk Ho. rewrite written_get by exact Hk. rewrite Ho.
  now destruct (dict_get k fields).
Qed.

Lemma status_changes_id (id : N) (fields kwargs : dict) :
  status_changes (("_id", VOid id) :: fields) kwargs = status_changes fields kwargs.
Proof. reflexivity. Qed.

Section UpdateMore.
Variable E : Env.

(** A key of the patch is among the keyword arguments after the status
    branch, but for a [reporting_period] that is None. *)
Lemma stamp_status_patch sdc opp kw st opp1 kw1 osn st1 k v :
  stamp_status E sdc opp kw st = (Ok (opp1, kw1, osn), st1) ->
  dict_get k kw = Some v ->
  (k = "reporting_period" -> is_none v = false) ->
  dict_get k kw1 = Some v.
Proof.
  intros Hrun Hk Hrp.
  destruct (String.eqb_spec k "reporting_period") as [->|Hne].
  - destruct (status_changes opp kw) eqn:Hch.
    + destruct (stamp_status_detail E _ _ _ _ _ _ _ _ Hch Hrun) as (_ & _ & _ & Hkw).
      unfold get_or in Hkw. rewrite Hk, (Hrp eq_refl) in Hkw.
      destruct Hkw as [-> _]. exact Hk.
    + rewrite (stamp_status_same E sdc opp kw st Hch) in Hrun.
      injection Hrun as _ <- _ _. exact Hk.
  - destruct (stamp_status_keeps E _ _ _ _ _ _ _ _ Hrun) as [_ Hkws].
    now rewrite Hkws.
Qed.

(** The clock only moves forward through the status branch. *)
Lemma stamp_status_ticks sdc opp kw st opp1 kw1 osn st1 :
  stamp_status E sdc opp kw st = (Ok (opp1, kw1, osn), st1) ->
  (ticks st <= ticks st1)%nat.
Proof.
  intros Hrun. destruct (status_changes opp kw) eqn:Hch.
  - destruct (stamp_status_detail E _ _ _ _ _ _ _ _ Hch Hrun) as (_ & _ & _ & Hkw).
    unfold period_reading in Hkw.
    destruct (is_none (get_or VNone "reporting_period" kw));
      [destruct Hkw as (p & _ & _ & ->) | destruct Hkw as [_ ->]];
      destruct (is_none sdc); lia.
  - rewrite (stamp_status_same E sdc opp kw st Hch) in Hrun.
    injection Hrun as _ _ _ <-. lia.
Qed.

(** What a returned call read of a key that no step writes. *)
Lemma update_opportunity_frame id sdc kwargs st fields opp1 kw1 osn st1
    opp2 kw2 opp3 opp4 k :
  stamp_status E sdc (("_id", VOid id) :: fields) kwargs st
  = (Ok (opp1, kw1, osn), st1) ->
  assign_deal_number opp1 kw1 = Ok (opp2, kw2) ->
  recompute_period E opp2 kw2 = Ok opp3 ->
  opp4 = (if truthy (get_or VNone "updated" kw2) then opp3
          else dict_set "updated" (VTime (utcnow E (ticks st1))) opp3) ->
  ~ In k ["last_status_change"; "dms_deal"; "reporting_period"; "updated"; "_id"] ->
  dict_get k opp4 = dict_get k fields.
Proof.
  intros Hstamp Hassign Hperiod -> Hk.
  assert (Hk1 : k <> "last_status_change") by (intros ->; apply Hk; cbn; auto).
  assert (Hk2 : k <> "dms_deal") by (intros ->; apply Hk; cbn; auto).
  assert (Hk3 : k <> "reporting_period") by (intros ->; apply Hk; cbn; auto).
  assert (Hk4 : k <> "updated") by (intros ->; apply Hk; cbn; auto 6).
  assert (Hk5 : k <> "_id") by (intros ->; apply Hk; cbn; auto 6).
  destruct (stamp_status_keeps E _ _ _ _ _ _ _ _ Hstamp) as [Hopp _].
  destruct (assign_keeps _ _ _ _ Hassign) as [_ Hopp2].
  pose proof (recompute_period_keeps E _ _ _ Hperiod) as Hopp3.
  assert (H4 : dict_get k (if truthy (get_or VNone "updated" kw2) then opp3
                           else dict_set "updated" (VTime (utcnow E (ticks st1))) opp3)
               = dict_get k opp3).
  { destruct (truthy _); [reflexivity | now apply dict_get_set_other]. }
  rewrite H4, Hopp3, Hopp2, Hopp by assumption.
  cbn [dict_get]. destruct (String.eqb_spec k "_id"); [contradiction | reflexivity].
Qed.

(** X6.  An update that raises leaves the collection as it was, and no
    update, raising or not, touches another opportunity.  An empty patch
    is refused as such; a patch for an opportunity that is not stored
    raises on the first read of it. *)
Theorem update_is_atomic_and_local (id : N) (sdc : value) (kwargs : dict)
    (st st' : state) (r : result dict) :
  update_opportunity E id sdc kwargs st = (r, st') ->
  (is_ok r = false -> db st' = db st)
  /\ (forall j, j <> id -> db st' !! j = db st !! j)
  /\ (is_ok r = true -> is_Some (db st !! id) /\ is_Some (db st' !! id))
  /\ (kwargs = [] -> r = Raise NoDataProvided)
  /\ (kwargs <> [] -> db st !! id = None -> r = Raise AttributeError).
Proof.
  intros Hrun. repeat split.
  - intros Hr. destruct (update_opportunity_run E _ _ _ _ _ _ Hrun)
      as [[_ Hdb]|(fields & opp1 & kw1 & osn & st1 & opp2 & kw2 & opp3 & opp4 & H)].
    + exact Hdb.
    + destruct H as (_ & _ & _ & _ & _ & _ & -> & _). discriminate Hr.
  - intros j Hj. destruct (update_opportunity_run E _ _ _ _ _ _ Hrun)
      as [[_ Hdb]|(fields & opp1 & kw1 & osn & st1 & opp2 & kw2 & opp3 & opp4 & H)].
    + now rewrite Hdb.
    + destruct H as (_ & _ & _ & _ & _ & _ & _ & ->).
      now apply lookup_insert_ne.
  - destruct (update_opportunity_run E _ _ _ _ _ _ Hrun)
      as [[Hr _]|(fields & opp1 & kw1 & osn & st1 & opp2 & kw2 & opp3 & opp4 & Hsteps)].
    + congruence.
    + destruct Hsteps as (-> & _). eauto.
  - destruct (update_opportunity_run E _ _ _ _ _ _ Hrun)
      as [[Hr _]|(fields & opp1 & kw1 & osn & st1 & opp2 & kw2 & opp3 & opp4 & Hsteps)].
    + congruence.
    + destruct Hsteps as (_ & _ & _ & _ & _ & _ & _ & ->).
      rewrite lookup_insert_eq. eauto.
  - intros ->. unfold update_opportunity, raise in Hrun. cbn in Hrun. congruence.
  - intros Hkw Hid. unfold update_opportunity in Hrun.
    destruct kwargs as [|kv kwargs]; [contradiction|].
    cbn [truthy] in Hrun. unfold bind, get_opportunity, find_by_id, raise in Hrun.
    rewrite Hid in Hrun. cbn in Hrun. congruence.
Qed.

(** X7.  A call that returned has stored the patch over the opportunity:
    each key of the patch is stored with the patch's value, and is so in
    the opportunity returned, but for [deal_number], [_id] and a
    [reporting_period] that is None; a key that is not in the patch, and
    that no step computes, is stored as it was; [deal_number] itself is
    never stored as a field of the opportunity. *)
Theorem patch_is_merged (id : N) (sdc : value) (kwargs : dict)
    (st st' : state) (o : dict) :
  update_opportunity E id sdc kwargs st = (Ok o, st') ->
  exists fields fields',
    db st !! id = Some fields
    /\ db st' !! id = Some fields'
    /\ (forall k v,
          dict_get k kwargs = Some v ->
          k <> "deal_number" -> k <> "_id" ->
          (k = "reporting_period" -> is_none v = false) ->
          dict_get k fields' = Some v /\ dict_get k o = Some v)
    /\ (forall k,
          dict_get k kwargs = None ->
          ~ In k ["last_status_change"; "dms_deal"; "reporting_period";
                  "updated"; "_id"] ->
          dict_get k fields' = dict_get k fields)
    /\ dict_get "deal_number" fields' = dict_get "deal_number" fields.
Proof.
  intros Hrun.
  destruct (update_opportunity_trace E _ _ _ _ _ _ Hrun)
    as (fields & opp1 & kw1 & osn & st1 & opp2 & kw2 & opp3 & opp4
        & Hid & Hstamp & _ & Hassign & Hperiod & Hopp4 & -> & Hdb & _).
  destruct (assign_keeps _ _ _ _ Hassign) as [Hkw2 _].
  destruct (stamp_status_keeps E _ _ _ _ _ _ _ _ Hstamp) as [_ Hkws].
  exists fields, (written fields (dict_update opp4 kw2)).
  split; [exact Hid|]. split; [rewrite Hdb; apply lookup_insert_eq|].
  split; [|split].
  - intros k v Hk Hdn Hnid Hrp.
    assert (Ho : dict_get k (dict_update opp4 kw2) = Some v).
    { rewrite dict_get_update, Hkw2, dict_get_remove_other by exact Hdn.
      now rewrite (stamp_status_patch _ _ _ _ _ _ _ _ _ _ Hstamp Hk Hrp). }
    split; [|exact Ho]. rewrite written_get by exact Hnid. now rewrite Ho.
  - intros k Hk Hspecial.
    assert (Hnid : k <> "_id") by (intros ->; apply Hspecial; cbn; auto 6).
    assert (Hnrp : k <> "reporting_period") by (intros ->; apply Hspecial; cbn; auto).
    apply written_get_same; [exact Hnid|].
    rewrite dict_get_update, Hkw2, dict_get_remove.
    destruct (String.eqb k "deal_number");
      [|rewrite (Hkws k Hnrp), Hk];
      exact (update_opportunity_frame _ _ _ _ _ _ _ _ _ _ _ _ _ _
               Hstamp Hassign Hperiod Hopp4 Hspecial).
  - apply written_get_same; [discriminate|].
    rewrite dict_get_update, Hkw2, dict_get_remove, String.eqb_refl.
    apply (update_opportunity_frame _ _ _ _ _ _ _ _ _ _ _ _ _ _
             Hstamp Hassign Hperiod Hopp4).
    cbn. intros [H|[H|[H|[H|[H|[]]]]]]; discriminate H.
Qed.

End UpdateMore.

Lemma update_is_atomic_and_local_witness :
  let out := update_opportunity Fixture.env 1 VNone [("dealer_id", VInt 20)]
                                Fixture.st0 in
  db (snd out) = db Fixture.st0
  /\ (forall j, j <> 1%N -> db (snd out) !! j = db Fixture.st0 !! j).
Proof.
  intros out. subst out.
  destruct (update_opportunity Fixture.env 1 VNone [("dealer_id", VInt 20)]
                               Fixture.st0)
    as [[opp'|e] st'] eqn:Hrun; [vm_compute in Hrun; discriminate Hrun|].
  destruct (update_is_atomic_and_local Fixture.env 1 VNone [("dealer_id", VInt 20)]
              Fixture.st0 st' (Raise e) Hrun) as (Hfail & Hlocal & _).
  split; [exact (Hfail eq_refl) | exact Hlocal].
Defined.

Lemma patch_is_merged_witness :
  let out := update_opportunity Fixture.env 1 VNone
               [("sub_status", VStr "hot"); ("deal_number", VStr "D100")]
               Fixture.st0 in
  exists fields',
    db (snd out) !! 1%N = Some fields'
    /\ dict_get "sub_status" fields' = Some (VStr "hot")
    /\ dict_get "dealer_id" fields' = Some (VInt 10)
    /\ dict_get "deal_number" fields' = None.
Proof.
  intros out. subst out.
  destruct (update_opportunity Fixture.env 1 VNone
              [("sub_status", VStr "hot"); ("deal_number", VStr "D100")]
              Fixture.st0)
    as [[opp'|e] st'] eqn:Hrun; [|vm_compute in Hrun; discriminate Hrun].
  destruct (patch_is_merged Fixture.env 1 VNone
              [("sub_status", VStr "hot"); ("deal_number", VStr "D100")]
              Fixture.st0 st' opp' Hrun)
    as (fields & fields' & Hid & Hid' & Hpatch & Hkept & Hnumber).
  assert (Hfields : fields = Fixture.fields).
  { vm_compute in Hid. now injection Hid as <-. }
  subst fields. exists fields'. split; [exact Hid'|]. split; [|split].
  - apply (Hpatch "sub_status" (VStr "hot") eq_refl); discriminate.
  - rewrite (Hkept "dealer_id" eq_refl); [reflexivity|].
    cbn. intros [H|[H|[H|[H|[H|[]]]]]]; discriminate H.
  - rewrite Hnumber. reflexivity.
Defined.

(** ** The keys of a patch *)

Lemma keys_dict_set (k : string) (v : value) (d : dict) :
  keys (dict_set k v d) = if dict_has k d then keys d else (keys d ++ [k])%list.
Proof.
  unfold dict_has, keys. induction d as [|[k0 v0] r IH]; cbn; [reflexivity|].
  destruct (String.eqb k k0); cbn; [reflexivity|].
  rewrite IH. now destruct (dict_get k r).
Qed.

Lemma dict_has_keys (k : string) (d : dict) :
  dict_has k d = false -> ~ In k (keys d).
Proof.
  unfold dict_has, keys. induction d as [|[k0 v0] r IH]; cbn; [tauto|].
  destruct (String.eqb_spec k k0) as [->|Hne]; [discriminate|].
  intros Hr [H|H]; [congruence | now apply IH].
Qed.

Lemma nodup_app_fresh (k : string) (l : list string) :
  ~ In k l -> nodup string_dec (l ++ [k]) = (nodup string_dec l ++ [k])%list.
Proof.
  induction l as [|x r IH]; cbn [nodup app]; intros Hk.
  - reflexivity.
  - assert (Hr : ~ In k r) by (intros H; apply Hk; now right).
    assert (Hx : x <> k) by (intros ->; apply Hk; now left).
    destruct (in_dec string_dec x (r ++ [k])) as [Hin|Hout];
      destruct (in_dec string_dec x r) as [Hin'|Hout'].
    + now apply IH.
    + exfalso. apply in_app_or in Hin. destruct Hin as [H|[H|[]]]; congruence.
    + exfalso. apply Hout. apply in_or_app. now left.
    + cbn. now rewrite IH.
Qed.

Lemma assignee_keys_set (E : Env) (k : string) (v : value) (d : dict) :
  ~ In k (assignee_roles E) ->
  assignee_keys E (dict_set k v d) = assignee_keys E d.
Proof.
  intros Hk. unfold assignee_keys. rewrite keys_dict_set.
  destruct (dict_has k d) eqn:Hhas; [reflexivity|].
  rewrite nodup_app_fresh by now apply dict_has_keys.
  rewrite stdpp.list_basics.list.filter_app.
  rewrite stdpp.list_basics.list.filter_cons_False; [apply app_nil_r|].
  intros Hex. apply Is_true_true_1, existsb_exists in Hex.
  destruct Hex as (x & Hin & Heq).
  apply String.eqb_eq in Heq. subst x. contradiction.
Qed.

Lemma assignee_keys_role (E : Env) (k : string) (d : dict) :
  In k (assignee_keys E d) -> In k (assignee_roles E).
Proof.
  unfold assignee_keys. intros Hin.
  apply list_elem_of_In, stdpp.list_basics.list.list_elem_of_filter in Hin.
  destruct Hin as [Hex _]. apply Is_true_true_1, existsb_exists in Hex.
  destruct Hex as (x & Hin & Heq). apply String.eqb_eq in Heq. now subst x.
Qed.

Section UpdateSignals.
Variable E : Env.
Hypothesis period_no_role : ~ In "reporting_period" (assignee_roles E).

(** The assignment signal is that of the patch as it came. *)
Lemma assignment_signals_patch sdc opp kw st opp1 kw1 osn st1 asked :
  stamp_status E sdc opp kw st = (Ok (opp1, kw1, osn), st1) ->
  assignment_signals E asked kw1 = assignment_signals E asked kw.
Proof.
  intros Hrun.
  destruct (stamp_status_keeps E _ _ _ _ _ _ _ _ Hrun) as [_ Hkws].
  assert (Hkeys : assignee_keys E kw1 = assignee_keys E kw).
  { destruct (status_changes opp kw) eqn:Hch.
    - destruct (stamp_status_changed E _ _ _ _ _ _ _ _ Hch Hrun)
        as (lsc & _ & _ & [->|(y & m & p & _ & ->)]); [reflexivity|].
      now apply assignee_keys_set.
    - rewrite (stamp_status_same E sdc opp kw st Hch) in Hrun.
      now injection Hrun as _ <- _ _. }
  unfold assignment_signals. rewrite Hkeys.
  destruct (assignee_keys E kw) as [|k [|k' r]] eqn:Hk; try reflexivity.
  assert (Hne : k <> "reporting_period").
  { intros ->. apply period_no_role. apply (assignee_keys_role E _ kw).
    rewrite Hk. now left. }
  unfold get_or. now rewrite (Hkws k Hne).
Qed.

(** X8.  The signals of a call that returned, in the order they are
    sent: the assignment signal when the patch holds just one of the
    assignment fields, with the opportunity as it was but for its
    history; the update signal; the status signal, with the old status
    name, exactly when the patch changes the status; the sub-status
    signal exactly when the sub-status merged differs from the stored
    one.  (The reporting period is not an assignment field.) *)
Theorem update_signals (id : N) (sdc : value) (kwargs : dict)
    (st st' : state) (o : dict) :
  update_opportunity E id sdc kwargs st = (Ok o, st') ->
  exists fields asked delta,
    db st !! id = Some fields
    /\ (forall k, k <> "last_status_change" ->
                  dict_get k asked = dict_get k (("_id", VOid id) :: fields))
    /\ sent st' =
       (sent st ++ assignment_signals E asked kwargs
        ++ [opportunity_updated o delta]
        ++ (if status_changes fields kwargs
            then [opportunity_status_updated
                    o (status_name E (("_id", VOid id) :: fields))]
            else [])
        ++ (if py_eq (get_or (VStr EmptyString) "sub_status" fields)
                     (get_or (VStr EmptyString) "sub_status" o)
            then []
            else [opportunity_sub_status_updated o]))%list.
Proof.
  intros Hrun.
  destruct (update_opportunity_trace E _ _ _ _ _ _ Hrun)
    as (fields & opp1 & kw1 & osn & st1 & opp2 & kw2 & opp3 & opp4
        & Hid & Hstamp & _ & Hassign & Hperiod & Hopp4 & Ho & _ & _ & Hsent).
  destruct (stamp_status_keeps E _ _ _ _ _ _ _ _ Hstamp) as [Hopp _].
  exists fields, opp1, (dictdelta E opp4 kw2).
  split; [exact Hid|]. split; [exact Hopp|].
  rewrite Hsent, (assignment_signals_patch _ _ _ _ _ _ _ _ opp1 Hstamp).
  assert (Hsub : get_or (VStr EmptyString) "sub_status" opp4
                 = get_or (VStr EmptyString) "sub_status" fields).
  { unfold get_or.
    rewrite (update_opportunity_frame E _ _ _ _ _ _ _ _ _ _ _ _ _ "sub_status"
               Hstamp Hassign Hperiod Hopp4); [reflexivity|].
    cbn. intros [H|[H|[H|[H|[H|[]]]]]]; discriminate H. }
  rewrite Hsub.
  assert (Hosn : osn = if status_changes fields kwargs
                       then Some (status_name E (("_id", VOid id) :: fields))
                       else None).
  { rewrite <- (status_changes_id id).
    destruct (status_changes (("_id", VOid id) :: fields) kwargs) eqn:Hch.
    - now destruct (stamp_status_detail E _ _ _ _ _ _ _ _ Hch Hstamp) as (-> & _).
    - rewrite (stamp_status_same E sdc _ kwargs st Hch) in Hstamp.
      now injection Hstamp as _ _ <- _. }
  rewrite Hosn.
  destruct (status_changes fields kwargs);
    destruct (py_eq (get_or (VStr EmptyString) "sub_status" fields)
                    (get_or (VStr EmptyString) "sub_status" o)); reflexivity.
Qed.

Lemma stamp_status_refuses sdc opp kw st e st1 :
  stamp_status E sdc opp kw st = (Raise e, st1) -> e = TypeError \/ e = HelperError.
Proof.
  unfold stamp_status.
  destruct (negb (is_none (get_or VNone "status" kw)) && _); run_monad;
    [|discriminate].
  destruct (is_none sdc); cbn;
    (destruct (get_or VNone "last_status_change" (setdefault "last_status_change" opp));
     try (intros [= <- <-]; now left));
    (destruct (is_none (get_or VNone "reporting_period" kw)); cbn;
     [destruct (reporting_period E _); cbn|]; try discriminate;
     intros [= <- <-]; now right).
Qed.

Lemma recompute_period_refuses opp kw e :
  recompute_period E opp kw = Raise e -> e = TypeError \/ e = HelperError.
Proof.
  unfold recompute_period.
  destruct (truthy _); [|discriminate].
  destruct (get_or VNone "reporting_period" kw); try (intros [= <-]; now left).
  destruct (reporting_period E d); cbn; [discriminate | intros [= <-]; now right].
Qed.

(** X9.  A patch that holds one assignment field and is refused, for
    the dealer lock or for the deal number, has its assignment signalled
    all the same: the signal is sent before either is looked at, and it
    is the only trace of the call, whose patch is not stored. *)
Theorem assignment_signalled_before_refusal (id : N) (sdc : value)
    (kwargs : dict) (st st' : state) (e : error) (k : string) :
  assignee_keys E kwargs = [k] ->
  e = DealerLocked \/ e = DealNumberAssigned ->
  update_opportunity E id sdc kwargs st = (Raise e, st') ->
  exists asked,
    sent st' = (sent st ++ [opportunity_assignment
                              asked [(k, get_or VNone k kwargs)]])%list
    /\ db st' = db st.
Proof.
  intros Hk He. unfold update_opportunity.
  destruct (truthy (VDict kwargs));
    [|intros [= <- _]; destruct He; discriminate].
  unfold bind at 1. unfold get_opportunity, find_by_id.
  destruct (db st !! id) as [fields|] eqn:Hid;
    [|intros [= <- _]; destruct He; discriminate].
  unfold bind at 1.
  destruct (stamp_status E sdc (("_id", VOid id) :: fields) kwargs st)
    as [[[[opp1 kw1] osn]|e1] st1] eqn:Hstamp.
  2:{ intros [= <- _]. apply stamp_status_refuses in Hstamp.
      destruct Hstamp, He; congruence. }
  pose proof (stamp_status_db _ _ _ _ _ _ _ Hstamp) as Hdb1.
  pose proof (stamp_status_quiet _ _ _ _ _ _ _ Hstamp) as Hsent1.
  unfold bind at 1.
  destruct (notify_assignment_sent E opp1 kw1 st1) as (st2 & -> & Hdb2 & Ht2 & Hsent2).
  rewrite (assignment_signals_patch _ _ _ _ _ _ _ _ opp1 Hstamp) in Hsent2.
  unfold assignment_signals in Hsent2. rewrite Hk in Hsent2.
  assert (Hdone : sent st2 = (sent st ++ [opportunity_assignment
                                             opp1 [(k, get_or VNone k kwargs)]])%list
                  /\ db st2 = db st) by (split; congruence).
  unfold bind at 1, lift at 1.
  destruct (check_dealer opp1 kw1) as [[]|e1] eqn:Hdealer;
    [|intros [= _ <-]; eauto].
  unfold bind at 1, lift at 1.
  destruct (assign_deal_number opp1 kw1) as [[opp2 kw2]|e1] eqn:Hassign;
    [|intros [= _ <-]; eauto].
  unfold bind at 1, lift at 1.
  destruct (recompute_period E opp2 kw2) as [opp3|e1] eqn:Hperiod.
  2:{ intros [= <- _]. apply recompute_period_refuses in Hperiod.
      destruct Hperiod, He; congruence. }
  unfold bind at 1.
  destruct (stamp_updated_run E opp3 kw2 st2) as (opp4 & st4 & -> & _).
  intros Hcommit. apply commit_raises in Hcommit. destruct He; congruence.
Qed.

End UpdateSignals.

Lemma fixture_period_no_role :
  ~ In "reporting_period" (assignee_roles Fixture.env).
Proof.
  cbn. intros H. repeat (destruct H as [H|H]; [discriminate H|]). exact H.
Qed.

Lemma update_signals_witness :
  let out := update_opportunity Fixture.env 1 VNone
               [("status", VInt 3); ("sub_status", VStr "hot");
                ("sales_reps", VList [VStr "ann"])]
               Fixture.st0 in
  exists asked o delta,
    sent (snd out)
    = [opportunity_assignment asked [("sales_reps", VList [VStr "ann"])];
       opportunity_updated o delta;
       opportunity_status_updated o (VInt 2);
       opportunity_sub_status_updated o].
Proof.
  intros out. subst out.
  destruct (update_opportunity Fixture.env 1 VNone
              [("status", VInt 3); ("sub_status", VStr "hot");
               ("sales_reps", VList [VStr "ann"])]
              Fixture.st0)
    as [[o|e] st'] eqn:Hrun; [|vm_compute in Hrun; discriminate Hrun].
  destruct (update_signals Fixture.env fixture_period_no_role 1 VNone
              [("status", VInt 3); ("sub_status", VStr "hot");
               ("sales_reps", VList [VStr "ann"])]
              Fixture.st0 st' o Hrun)
    as (fields & asked & delta & Hid & _ & Hsent).
  assert (Hfields : fields = Fixture.fields).
  { vm_compute in Hid. now injection Hid as <-. }
  assert (Hsub : get_or (VStr EmptyString) "sub_status" o = VStr "hot").
  { vm_compute in Hrun. injection Hrun as <- _. reflexivity. }
  subst fields. exists asked, o, delta. cbn [snd].
  rewrite Hsent, Hsub. reflexivity.
Defined.

Lemma assignment_signalled_before_refusal_witness :
  let out := update_opportunity Fixture.env 1 VNone
               [("dealer_id", VInt 20); ("sales_reps", VList [VStr "ann"])]
               Fixture.st0 in
  fst out = Raise DealerLocked
  /\ exists asked,
       sent (snd out)
       = [opportunity_assignment asked [("sales_reps", VList [VStr "ann"])]]
       /\ db (snd out) = db Fixture.st0.
Proof.
  intros out. subst out.
  destruct (update_opportunity Fixture.env 1 VNone
              [("dealer_id", VInt 20); ("sales_reps", VList [VStr "ann"])]
              Fixture.st0)
    as [[o|e] st'] eqn:Hrun; [vm_compute in Hrun; discriminate Hrun|].
  assert (He : e = DealerLocked) by (vm_compute in Hrun; congruence).
  subst e. split; [reflexivity|].
  exact (assignment_signalled_before_refusal Fixture.env fixture_period_no_role
           1 VNone [("dealer_id", VInt 20); ("sales_reps", VList [VStr "ann"])]
           Fixture.st0 st' DealerLocked "sales_reps"
           eq_refl (or_introl eq_refl) Hrun).
Defined.

Section UpdateFields.
Variable E : Env.

(** X10.  A deal number in the patch of a call that returned is stored
    in [dms_deal] of the opportunity, whose other entries stay: the
    record had no number, or had this one.  (The patch holds no
    [dms_deal] of its own.) *)
Theorem deal_number_stored_in_dms_deal (id : N) (sdc : value) (kwargs : dict)
    (st st' : state) (o : dict) (n : value) :
  dict_get "deal_number" kwargs = Some n ->
  truthy n = true ->
  dict_get "dms_deal" kwargs = None ->
  update_opportunity E id sdc kwargs st = (Ok o, st') ->
  exists fields dms fields',
    db st !! id = Some fields
    /\ get_or (VDict []) "dms_deal" fields = VDict dms
    /\ (truthy (get_or VNone "deal_number" dms) = true ->
        py_eq (get_or VNone "deal_number" dms) n = true)
    /\ db st' !! id = Some fields'
    /\ dict_get "dms_deal" fields' = Some (VDict (dict_set "deal_number" n dms))
    /\ stored_deal_number id (db st') = Some n.
Proof.
  intros Hn Htruthy Hdms Hrun.
  destruct (update_opportunity_trace E _ _ _ _ _ _ Hrun)
    as (fields & opp1 & kw1 & osn & st1 & opp2 & kw2 & opp3 & opp4
        & Hid & Hstamp & _ & Hassign & Hperiod & Hopp4 & -> & Hdb & _).
  destruct (stamp_status_keeps E _ _ _ _ _ _ _ _ Hstamp) as [Hopp Hkws].
  destruct (assign_keeps _ _ _ _ Hassign) as [Hkw2 _].
  pose proof (recompute_period_keeps E _ _ _ Hperiod) as Hopp3.
  assert (Hold : get_or VNone "dms_deal" (setdefault "dms_deal" opp1)
                 = get_or (VDict []) "dms_deal" fields).
  { unfold get_or at 1. rewrite dict_get_setdefault_same. unfold get_or.
    now rewrite (Hopp "dms_deal") by discriminate. }
  unfold assign_deal_number in Hassign.
  assert (Hn1 : get_or VNone "deal_number" kw1 = n).
  { unfold get_or. now rewrite (Hkws "deal_number"), Hn by discriminate. }
  rewrite Hn1, Htruthy, Hold in Hassign.
  destruct (get_or (VDict []) "dms_deal" fields) as [| | | | | | | |dms] eqn:Hrec;
    try discriminate Hassign.
  destruct (truthy (get_or VNone "deal_number" dms)
            && negb (py_eq (get_or VNone "deal_number" dms) n)) eqn:Hlock;
    [discriminate Hassign|].
  injection Hassign as <- _.
  assert (Hstored : dict_get "dms_deal"
                      (written fields (dict_update opp4 kw2))
                    = Some (VDict (dict_set "deal_number" n dms))).
  { rewrite written_get by discriminate.
    rewrite dict_get_update, Hkw2, dict_get_remove_other by discriminate.
    rewrite (Hkws "dms_deal"), Hdms by discriminate.
    assert (H4 : dict_get "dms_deal" opp4 = dict_get "dms_deal" opp3).
    { rewrite Hopp4.
      destruct (truthy (get_or VNone "updated" kw2)); [reflexivity|].
      now apply dict_get_set_other. }
    rewrite H4, Hopp3 by discriminate. now rewrite dict_get_set_same. }
  exists fields, dms, (written fields (dict_update opp4 kw2)).
  split; [exact Hid|]. split; [exact Hrec|]. split; [|split; [|split]].
  - intros Hhas. rewrite Hhas in Hlock. cbn in Hlock.
    now destruct (py_eq (get_or VNone "deal_number" dms) n).
  - rewrite Hdb. apply lookup_insert_eq.
  - exact Hstored.
  - unfold stored_deal_number. rewrite Hdb, lookup_insert_eq, Hstored.
    apply dict_get_set_same.
Qed.

(** X11.  When the patch of a call that returned changes the status and
    holds no reporting period, the period stored is the one the helper
    gives for the year and the month of the clock at the time of the
    call, whatever [status_date_change] was passed for the history. *)
Theorem status_change_period_follows_clock (id : N) (sdc : value)
    (kwargs : dict) (st st' : state) (o fields : dict) :
  db st !! id = Some fields ->
  status_changes fields kwargs = true ->
  is_none (get_or VNone "reporting_period" kwargs) = true ->
  update_opportunity E id sdc kwargs st = (Ok o, st') ->
  exists p fields',
    reporting_period E
      [("year", VInt (dt_year (utcnow E (period_reading sdc st))));
       ("month", VInt (dt_month (utcnow E (S (period_reading sdc st)))))]
    = Some p
    /\ db st' !! id = Some fields'
    /\ dict_get "reporting_period" fields' = Some p
    /\ dict_get "reporting_period" o = Some p.
Proof.
  intros Hid Hch Hnone Hrun.
  destruct (update_opportunity_trace E _ _ _ _ _ _ Hrun)
    as (fields0 & opp1 & kw1 & osn & st1 & opp2 & kw2 & opp3 & opp4
        & Hid0 & Hstamp & _ & Hassign & _ & _ & -> & Hdb & _).
  assert (fields0 = fields) by congruence. subst fields0.
  rewrite <- (status_changes_id id) in Hch.
  destruct (stamp_status_detail E _ _ _ _ _ _ _ _ Hch Hstamp) as (_ & _ & _ & Hkw).
  rewrite Hnone in Hkw. destruct Hkw as (p & Hp & -> & _).
  destruct (assign_keeps _ _ _ _ Hassign) as [-> _].
  assert (Ho : dict_get "reporting_period"
                 (dict_update opp4
                    (dict_remove "deal_number"
                       (dict_set "reporting_period" p kwargs))) = Some p).
  { rewrite dict_get_update, dict_get_remove_other by discriminate.
    now rewrite dict_get_set_same. }
  exists p, (written fields
               (dict_update opp4
                  (dict_remove "deal_number"
                     (dict_set "reporting_period" p kwargs)))).
  split; [exact Hp|]. split; [rewrite Hdb; apply lookup_insert_eq|].
  split; [|exact Ho].
  rewrite written_get by discriminate. now rewrite Ho.
Qed.

(** X12.  A patch whose status is the stored one, or that has none,
    leaves the history and the reporting period of the opportunity as
    they were, unless it holds them itself, and reads the clock at most
    once, for the [updated] stamp. *)
Theorem same_status_keeps_history_and_period (id : N) (sdc : value)
    (kwargs : dict) (st st' : state) (o fields : dict) :
  db st !! id = Some fields ->
  status_changes fields kwargs = false ->
  dict_get "last_status_change" kwargs = None ->
  dict_get "reporting_period" kwargs = None ->
  update_opportunity E id sdc kwargs st = (Ok o, st') ->
  exists fields',
    db st' !! id = Some fields'
    /\ dict_get "last_status_change" fields' = dict_get "last_status_change" fields
    /\ dict_get "reporting_period" fields' = dict_get "reporting_period" fields
    /\ (ticks st' <= S (ticks st))%nat.
Proof.
  intros Hid Hch Hlsc Hrp Hrun.
  destruct (update_opportunity_trace E _ _ _ _ _ _ Hrun)
    as (fields0 & opp1 & kw1 & osn & st1 & opp2 & kw2 & opp3 & opp4
        & Hid0 & Hstamp & _ & Hassign & Hperiod & Hopp4 & -> & Hdb & Hticks & _).
  assert (fields0 = fields) by congruence. subst fields0.
  rewrite <- (status_changes_id id) in Hch.
  rewrite (stamp_status_same E sdc _ kwargs st Hch) in Hstamp.
  injection Hstamp as <- <- _ <-.
  destruct (assign_keeps _ _ _ _ Hassign) as [Hkw2 Hopp2].
  assert (Hnorp : get_or VNone "reporting_period" kw2 = VNone).
  { unfold get_or. now rewrite Hkw2, dict_get_remove_other, Hrp by discriminate. }
  unfold recompute_period in Hperiod. rewrite Hnorp in Hperiod. cbn in Hperiod.
  injection Hperiod as <-.
  assert (H4 : forall k, k <> "updated" -> dict_get k opp4 = dict_get k opp2).
  { intros k Hk. rewrite Hopp4.
    destruct (truthy (get_or VNone "updated" kw2)); [reflexivity|].
    now apply dict_get_set_other. }
  exists (written fields (dict_update opp4 kw2)).
  split; [rewrite Hdb; apply lookup_insert_eq|]. split; [|split].
  - apply written_get_same; [discriminate|].
    rewrite dict_get_update, Hkw2, dict_get_remove_other, Hlsc by discriminate.
    rewrite H4, Hopp2 by discriminate. reflexivity.
  - apply written_get_same; [discriminate|].
    rewrite dict_get_update, Hkw2, dict_get_remove_other, Hrp by discriminate.
    rewrite H4, Hopp2 by discriminate. reflexivity.
  - rewrite Hticks. destruct (truthy _); lia.
Qed.

(** X13.  The [updated] field after a call that returned: the last
    reading of the clock when the patch has no [updated] key; the
    patch's own value when it has one, even one that is None or empty,
    in which case the stamp of the call is lost. *)
Theorem updated_is_stamped_or_patched (id : N) (sdc : value) (kwargs : dict)
    (st st' : state) (o : dict) :
  update_opportunity E id sdc kwargs st = (Ok o, st') ->
  exists fields',
    db st' !! id = Some fields'
    /\ match dict_get "updated" kwargs with
       | Some v => dict_get "updated" fields' = Some v
       | None =>
           exists i, ticks st' = S i /\ (ticks st <= i)%nat
                     /\ dict_get "updated" fields' = Some (VTime (utcnow E i))
       end.
Proof.
  intros Hrun.
  destruct (update_opportunity_trace E _ _ _ _ _ _ Hrun)
    as (fields & opp1 & kw1 & osn & st1 & opp2 & kw2 & opp3 & opp4
        & Hid & Hstamp & _ & Hassign & _ & Hopp4 & -> & Hdb & Hticks & _).
  destruct (stamp_status_keeps E _ _ _ _ _ _ _ _ Hstamp) as [_ Hkws].
  pose proof (stamp_status_ticks E _ _ _ _ _ _ _ _ Hstamp) as Hle.
  destruct (assign_keeps _ _ _ _ Hassign) as [Hkw2 _].
  assert (Hupd : dict_get "updated" kw2 = dict_get "updated" kwargs).
  { now rewrite Hkw2, dict_get_remove_other, (Hkws "updated") by discriminate. }
  exists (written fields (dict_update opp4 kw2)).
  split; [rewrite Hdb; apply lookup_insert_eq|].
  rewrite written_get, dict_get_update, Hupd by discriminate.
  destruct (dict_get "updated" kwargs) as [v|] eqn:Hv; [reflexivity|].
  assert (Hfalsy : truthy (get_or VNone "updated" kw2) = false).
  { unfold get_or. now rewrite Hupd. }
  rewrite Hfalsy in Hopp4, Hticks.
  exists (ticks st1). split; [exact Hticks|]. split; [exact Hle|].
  now rewrite Hopp4, dict_get_set_same.
Qed.

End UpdateFields.

Lemma deal_number_stored_in_dms_deal_witness :
  let out := update_opportunity Fixture.env 3 VNone [("deal_number", VStr "D7")]
                                Sample.st0 in
  stored_deal_number 3 (db Sample.st0) = None
  /\ stored_deal_number 3 (db (snd out)) = Some (VStr "D7").
Proof.
  intros out. subst out. split; [reflexivity|].
  destruct (update_opportunity Fixture.env 3 VNone [("deal_number", VStr "D7")]
                               Sample.st0)
    as [[o|e] st'] eqn:Hrun; [|vm_compute in Hrun; discriminate Hrun].
  destruct (deal_number_stored_in_dms_deal Fixture.env 3 VNone
              [("deal_number", VStr "D7")] Sample.st0 st' o (VStr "D7")
              eq_refl eq_refl eq_refl Hrun)
    as (fields & dms & fields' & _ & _ & _ & _ & _ & Hstored).
  exact Hstored.
Defined.

Lemma status_change_period_follows_clock_witness :
  let out := update_opportunity Fixture.env 1 Fixture.t0 [("status", VInt 3)]
                                Fixture.st0 in
  exists fields',
    db (snd out) !! 1%N = Some fields'
    /\ dict_get "reporting_period" fields'
       = Some (VDict [("year", VInt 2024); ("month", VInt 5); ("quarter", VInt 2)]).
Proof.
  intros out. subst out.
  destruct (update_opportunity Fixture.env 1 Fixture.t0 [("status", VInt 3)]
                               Fixture.st0)
    as [[o|e] st'] eqn:Hrun; [|vm_compute in Hrun; discriminate Hrun].
  destruct (status_change_period_follows_clock Fixture.env 1 Fixture.t0
              [("status", VInt 3)] Fixture.st0 st' o Fixture.fields
              eq_refl eq_refl eq_refl Hrun)
    as (p & fields' & Hp & Hid & Hstored & _).
  vm_compute in Hp. injection Hp as <-.
  exists fields'. split; [exact Hid | exact Hstored].
Defined.

Lemma same_status_keeps_history_and_period_witness :
  let out := update_opportunity Fixture.env 1 VNone
               [("status", VInt 2); ("sub_status", VStr "hot")] Fixture.st0 in
  exists fields',
    db (snd out) !! 1%N = Some fields'
    /\ dict_get "last_status_change" fields'
       = Some (VDict [("1", Fixture.t0); ("2", Fixture.t0)])
    /\ dict_get "reporting_period" fields'
       = Some (VDict [("year", VInt 2024); ("month", VInt 1); ("quarter", VInt 1)]).
Proof.
  intros out. subst out.
  destruct (update_opportunity Fixture.env 1 VNone
              [("status", VInt 2); ("sub_status", VStr "hot")] Fixture.st0)
    as [[o|e] st'] eqn:Hrun; [|vm_compute in Hrun; discriminate Hrun].
  destruct (same_status_keeps_history_and_period Fixture.env 1 VNone
              [("status", VInt 2); ("sub_status", VStr "hot")] Fixture.st0 st' o
              Fixture.fields eq_refl eq_refl eq_refl eq_refl Hrun)
    as (fields' & Hid & Hhistory & Hperiod & _).
  exists fields'. split; [exact Hid|]. split; [exact Hhistory | exact Hperiod].
Defined.

Lemma updated_is_stamped_or_patched_witness :
  let out := update_opportunity Fixture.env 1 VNone
               [("updated", VNone); ("sub_status", VStr "hot")] Fixture.st0 in
  exists fields',
    db (snd out) !! 1%N = Some fields'
    /\ dict_get "updated" fields' = Some VNone.
Proof.
  intros out. subst out.
  destruct (update_opportunity Fixture.env 1 VNone
              [("updated", VNone); ("sub_status", VStr "hot")] Fixture.st0)
    as [[o|e] st'] eqn:Hrun; [|vm_compute in Hrun; discriminate Hrun].
  exact (updated_is_stamped_or_patched Fixture.env 1 VNone
           [("updated", VNone); ("sub_status", VStr "hot")] Fixture.st0 st' o Hrun).
Defined.

(** ** The other operations *)

(** *** Attachments *)

Section MoreAttachments.
Variable E : Env.

Lemma has_id_new (aid : N) (atype key : value) (kwargs : dict) (t : datetime) :
  has_id aid (VDict (new_attachment aid atype key kwargs t)) = true.
Proof. cbn. apply N.eqb_refl. Qed.

(** A call of [add_attachment] on a stored opportunity. *)
Lemma add_attachment_run oid aid atype key kwargs st r st' fields :
  db st !! oid = Some fields ->
  add_attachment E oid aid atype key kwargs st = (r, st') ->
  (is_ok r = false /\ db st' = db st)
  \/ (exists fields',
        let added := VDict (new_attachment aid atype key kwargs
                                           (utcnow E (ticks st))) in
        let attachments := (stored_attachments oid (db st) ++ [added])%list in
        r = Ok (Some (dict_set "attachments" (VList attachments)
                               (("_id", VOid oid) :: fields)))
        /\ db st' = <[oid := fields']> (db st)
        /\ dict_get "attachments" fields' = Some (VList attachments)).
Proof.
  intros Hid. unfold add_attachment. unfold bind at 1.
  unfold get_opportunity, find_by_id, stored_attachments. rewrite Hid.
  cbv beta iota. unfold bind at 1, now at 1. cbv beta iota.
  change (get_or (VList []) "attachments" (("_id", VOid oid) :: fields))
    with (get_or (VList []) "attachments" fields).
  unfold get_or.
  set (added := VDict (new_attachment aid atype key kwargs (utcnow E (ticks st)))).
  set (st0 := State (db st) (sent st) (S (ticks st))).
  assert (Hid0 : db st0 !! oid = Some fields) by exact Hid.
  assert (Hlist : forall l,
             bind (call_update_opportunity E oid
                     (dict_set "attachments" (VList (l ++ [added]))
                               (("_id", VOid oid) :: fields)))
                  (fun _ => ret (Some (dict_set "attachments" (VList (l ++ [added]))
                                                (("_id", VOid oid) :: fields))))
                  st0 = (r, st') ->
             (is_ok r = false /\ db st' = db st)
             \/ (exists fields',
                   r = Ok (Some (dict_set "attachments" (VList (l ++ [added]))
                                          (("_id", VOid oid) :: fields)))
                   /\ db st' = <[oid := fields']> (db st)
                   /\ dict_get "attachments" fields' = Some (VList (l ++ [added])))).
  { intros l. unfold bind.
    destruct (call_update_opportunity E oid _ st0) as [[o|e] st1] eqn:Hcall.
    - destruct (call_update_attachments E oid _ (VList (l ++ [added])) st0 (Ok o)
                  st1 fields Hid0 (dict_get_set_same _ _ _) Hcall)
        as [[Hbad _]|(_ & fields' & Hdb & Hatt)]; [discriminate Hbad|].
      unfold ret. intros [= <- <-]. right. exists fields'. auto.
    - destruct (call_update_attachments E oid _ (VList (l ++ [added])) st0 (Raise e)
                  st1 fields Hid0 (dict_get_set_same _ _ _) Hcall)
        as [[_ Hdb]|(Hbad & _)]; [|discriminate Hbad].
      intros [= <- <-]. left. split; [reflexivity | exact Hdb]. }
  destruct (dict_get "attachments" fields) as [[| | | | | | |l|]|];
    try (unfold raise; intros [= <- <-]; left; split; reflexivity);
    cbv zeta; apply Hlist.
Qed.

(** X14.  [add_attachment] on an opportunity that is not stored returns
    None and does nothing.  A call that returns the opportunity has put
    the new attachment, not deleted and with the new id, after the
    stored ones, in the opportunity returned and in the stored one, where
    the query of [modify_attachment] finds it.  A call that raises leaves
    the collection as it was. *)
Theorem add_attachment_appends (oid aid : N) (atype key : value)
    (kwargs : dict) (st st' : state) (r : result (option dict)) :
  add_attachment E oid aid atype key kwargs st = (r, st') ->
  (db st !! oid = None -> r = Ok None /\ st' = st)
  /\ (is_ok r = false -> db st' = db st)
  /\ (forall o, r = Ok (Some o) ->
        let added := VDict (new_attachment aid atype key kwargs
                                           (utcnow E (ticks st))) in
        stored_attachments oid (db st')
        = (stored_attachments oid (db st) ++ [added])%list
        /\ dict_get "attachments" o
           = Some (VList (stored_attachments oid (db st) ++ [added]))
        /\ get_or VNone "deleted" (new_attachment aid atype key kwargs
                                                  (utcnow E (ticks st)))
           = VBool false
        /\ has_attachment oid aid (db st') = true).
Proof.
  intros Hrun. destruct (db st !! oid) as [fields|] eqn:Hid.
  - destruct (add_attachment_run _ _ _ _ _ _ _ _ _ Hid Hrun)
      as [[Hr Hdb]|(fields' & Hr & Hdb & Hatt)].
    + split; [discriminate|]. split; [intros _; exact Hdb|].
      intros o ->. discriminate Hr.
    + split; [discriminate|]. split; [rewrite Hr; discriminate|].
      intros o Ho. rewrite Hr in Ho. injection Ho as <-. cbv zeta.
      assert (Hid' : db st' !! oid = Some fields')
        by (rewrite Hdb; apply lookup_insert_eq).
      split; [|split; [|split]].
      * unfold stored_attachments at 1. now rewrite Hid', Hatt.
      * apply dict_get_set_same.
      * reflexivity.
      * unfold has_attachment, find_by_id. rewrite Hid'.
        change (get_or VNone "attachments" (("_id", VOid oid) :: fields'))
          with (get_or VNone "attachments" fields').
        unfold get_or. rewrite Hatt. cbn [elem_match].
        rewrite existsb_app. cbn [existsb]. rewrite has_id_new.
        cbn [orb]. apply orb_true_r.
  - unfold add_attachment, bind, get_opportunity, find_by_id, ret in Hrun.
    rewrite Hid in Hrun. injection Hrun as <- <-.
    split; [auto|]. split; [discriminate|]. discriminate.
Qed.

(** X15.  An attachment that [add_attachment] has added is one that
    [remove_attachment] finds, called with the two ids or with what
    [ObjectId] makes them of: whatever the removal does, the
    opportunity keeps one attachment more than before the two calls, and
    after a removal that returned every attachment with the new id has
    [deleted] True; when no older attachment has that id, the stored
    list is the old one followed by the new attachment marked deleted. *)
Theorem added_attachment_is_removed (oid aid : N) (v w atype key : value)
    (kwargs : dict) (st st1 st2 : state) (o : dict) (r : result (option dict)) :
  converts E v oid ->
  converts E w aid ->
  add_attachment E oid aid atype key kwargs st = (Ok (Some o), st1) ->
  remove_attachment E v w st1 = (r, st2) ->
  length (stored_attachments oid (db st2))
  = S (length (stored_attachments oid (db st)))
  /\ (is_ok r = true ->
      all_deleted aid (stored_attachments oid (db st2)) = true
      /\ (existsb (is_attachment aid) (stored_attachments oid (db st)) = false ->
          stored_attachments oid (db st2)
          = (stored_attachments oid (db st)
             ++ [VDict (dict_update
                          (new_attachment aid atype key kwargs (utcnow E (ticks st)))
                          [("deleted", VBool true)])])%list)).
Proof.
  intros Hv Hw Hadd Hremove.
  destruct (db st !! oid) as [fields|] eqn:Hid.
  2:{ unfold add_attachment, bind, get_opportunity, find_by_id, ret in Hadd.
      rewrite Hid in Hadd. discriminate Hadd. }
  destruct (add_attachment_run _ _ _ _ _ _ _ _ _ Hid Hadd)
    as [[Hr _]|(fields' & _ & Hdb & Hatt)]; [discriminate Hr|].
  cbv zeta in Hatt.
  assert (Hid' : db st1 !! oid = Some fields')
    by (rewrite Hdb; apply lookup_insert_eq).
  assert (Hstored : stored_attachments oid (db st1)
                    = (stored_attachments oid (db st)
                       ++ [VDict (new_attachment aid atype key kwargs
                                                 (utcnow E (ticks st)))])%list).
  { unfold stored_attachments at 1. now rewrite Hid', Hatt. }
  assert (Hhas : has_attachment oid aid (db st1) = true).
  { unfold has_attachment, find_by_id. rewrite Hid'.
    change (get_or VNone "attachments" (("_id", VOid oid) :: fields'))
      with (get_or VNone "attachments" fields').
    unfold get_or. rewrite Hatt. cbn [elem_match].
    rewrite existsb_app. cbn [existsb]. rewrite has_id_new.
        cbn [orb]. apply orb_true_r. }
  rewrite (remove_attachment_found E _ _ _ _ _ Hv Hw) in Hremove.
  destruct (modify_found_run E _ _ _ _ _ _ Hhas Hremove) as [Hlen Hmap].
  split.
  - rewrite Hlen, Hstored, length_app. cbn. lia.
  - intros Hr. rewrite (Hmap Hr). split; [apply all_deleted_modified|].
    intros Hfresh. rewrite Hstored, map_app.
    rewrite (modified_others aid _ _ Hfresh). f_equal.
    cbn. rewrite N.eqb_refl. reflexivity.
Qed.

(** X16.  [modify_attachment] that returned, for ids that [ObjectId]
    takes, has changed the stored attachments one by one and in place: an attachment with another id,
    or that is no document, is as it was; one with the id has the keys of
    the patch set to the patch's values and its other keys as they
    were. *)
Theorem modify_attachment_touches_its_attachment (oid aid : N) (v w : value)
    (kwargs : dict) (st st' : state) (o : option dict) :
  converts E v oid ->
  converts E w aid ->
  has_attachment oid aid (db st) = true ->
  modify_attachment E v w kwargs st = (Ok o, st') ->
  length (stored_attachments oid (db st')) = length (stored_attachments oid (db st))
  /\ forall i a,
       stored_attachments oid (db st) !! i = Some a ->
       exists a',
         stored_attachments oid (db st') !! i = Some a'
         /\ (is_attachment aid a = false -> a' = a)
         /\ (is_attachment aid a = true ->
             exists d d',
               a = VDict d /\ a' = VDict d'
               /\ forall k, dict_get k d'
                            = match dict_get k kwargs with
                              | Some v => Some v
                              | None => dict_get k d
                              end).
Proof.
  intros Hv Hw Hhas Hrun.
  rewrite (modify_attachment_found E _ _ _ _ _ _ Hv Hw) in Hrun.
  destruct (modify_found_run E _ _ _ _ _ _ Hhas Hrun) as [Hlen Hmap].
  split; [exact Hlen|]. intros i a Hi.
  exists (modified aid kwargs a). split.
  - rewrite (Hmap eq_refl), list_lookup_fmap, Hi. reflexivity.
  - destruct a as [| | | | | | | |d]; cbn [is_attachment modified];
      try (split; [reflexivity | discriminate]).
    destruct (py_eq (get_or VNone "_id" d) (VOid aid)).
    + split; [discriminate|]. intros _. exists d, (dict_update d kwargs).
      split; [reflexivity|]. split; [reflexivity|].
      intros k. apply dict_get_update.
    + split; [reflexivity | discriminate].
Qed.

End MoreAttachments.

Lemma add_attachment_appends_witness :
  let out := add_attachment Fixture.env 3 9 (VStr "license") (VStr "k.pdf")
                            [("label", VStr "front")] Sample.st0 in
  stored_attachments 3 (db (snd out))
  = [VDict (new_attachment 9 (VStr "license") (VStr "k.pdf")
                           [("label", VStr "front")] (DateTime 2024 5 0))]
  /\ has_attachment 3 9 (db (snd out)) = true.
Proof.
  intros out. subst out.
  destruct (add_attachment Fixture.env 3 9 (VStr "license") (VStr "k.pdf")
                           [("label", VStr "front")] Sample.st0)
    as [[[o|]|e] st'] eqn:Hrun; try (vm_compute in Hrun; discriminate Hrun).
  destruct (add_attachment_appends Fixture.env 3 9 (VStr "license") (VStr "k.pdf")
              [("label", VStr "front")] Sample.st0 st' (Ok (Some o)) Hrun)
    as (_ & _ & Hok).
  destruct (Hok o eq_refl) as (Hstored & _ & _ & Hhas).
  split; [exact Hstored | exact Hhas].
Defined.

Lemma added_attachment_is_removed_witness :
  let added := add_attachment Fixture.env 3 9 (VStr "license") (VStr "k.pdf")
                              [("label", VStr "front")] Sample.st0 in
  let removed := remove_attachment Fixture.env (VOid 3) (VOid 9) (snd added) in
  stored_attachments 3 (db (snd removed))
  = [VDict (dict_update
              (new_attachment 9 (VStr "license") (VStr "k.pdf")
                              [("label", VStr "front")] (DateTime 2024 5 0))
              [("deleted", VBool true)])].
Proof.
  intros added removed. subst removed added.
  assert (Hadd : is_ok (fst (add_attachment Fixture.env 3 9 (VStr "license")
                               (VStr "k.pdf") [("label", VStr "front")]
                               Sample.st0)) = true)
    by (vm_compute; reflexivity).
  destruct (add_attachment Fixture.env 3 9 (VStr "license") (VStr "k.pdf")
                           [("label", VStr "front")] Sample.st0)
    as [[[o|]|e] st1] eqn:Hrun; try (vm_compute in Hrun; discriminate Hrun).
  cbn [snd].
  assert (Hst1 : st1 = snd (add_attachment Fixture.env 3 9 (VStr "license")
                              (VStr "k.pdf") [("label", VStr "front")] Sample.st0))
    by (now rewrite Hrun).
  assert (Hremoved : is_ok (fst (remove_attachment Fixture.env (VOid 3) (VOid 9)
                                   st1)) = true)
    by (rewrite Hst1; vm_compute; reflexivity).
  destruct (remove_attachment Fixture.env (VOid 3) (VOid 9) st1)
    as [r st2] eqn:Hremove.
  destruct (added_attachment_is_removed Fixture.env 3 9 (VOid 3) (VOid 9)
              (VStr "license") (VStr "k.pdf") [("label", VStr "front")]
              Sample.st0 st1 st2 o r (or_introl eq_refl) (or_introl eq_refl)
              Hrun Hremove) as [_ Hok].
  exact (proj2 (Hok Hremoved) eq_refl).
Defined.

Lemma modify_attachment_touches_its_attachment_witness :
  let out := modify_attachment Fixture.env (VOid 1) (VOid 7)
                               [("label", VStr "back")] Fixture.st0 in
  exists a7 a8,
    stored_attachments 1 (db (snd out)) !! 0%nat = Some (VDict a7)
    /\ dict_get "label" a7 = Some (VStr "back")
    /\ dict_get "key" a7 = Some (VStr "a.pdf")
    /\ stored_attachments 1 (db (snd out)) !! 1%nat = Some a8
    /\ a8 = VDict [("_id", VOid 8); ("key", VStr "b.pdf"); ("deleted", VBool false)].
Proof.
  intros out. subst out.
  destruct (modify_attachment Fixture.env (VOid 1) (VOid 7)
                             [("label", VStr "back")] Fixture.st0)
    as [[o|e] st'] eqn:Hrun; [|vm_compute in Hrun; discriminate Hrun].
  destruct (modify_attachment_touches_its_attachment Fixture.env 1 7
              (VOid 1) (VOid 7) [("label", VStr "back")] Fixture.st0 st' o
              (or_introl eq_refl) (or_introl eq_refl) eq_refl Hrun)
    as [_ Heach].
  destruct (Heach 0%nat _ eq_refl) as (a7 & H7 & _ & Hmine).
  destruct (Heach 1%nat _ eq_refl) as (a8 & H8 & Hother & _).
  destruct (Hmine eq_refl) as (d & d' & Hd & -> & Hkeys).
  injection Hd as <-.
  exists d', a8. cbn [snd]. split; [exact H7|].
  split; [exact (Hkeys "label")|]. split; [exact (Hkeys "key")|].
  split; [exact H8 | exact (Hother eq_refl)].
Defined.

(** *** Single fields *)

Section SingleFields.
Variable E : Env.
Variable O : Outside.

(** A key of the patch of a call that returned, as it is stored. *)
Lemma update_stores_key id sdc kwargs st o st' k v :
  update_opportunity E id sdc kwargs st = (Ok o, st') ->
  dict_get k kwargs = Some v ->
  k <> "deal_number" -> k <> "_id" ->
  (k = "reporting_period" -> is_none v = false) ->
  exists fields fields',
    db st !! id = Some fields
    /\ db st' = <[id := fields']> (db st)
    /\ dict_get k fields' = Some v
    /\ dict_get k o = Some v.
Proof.
  intros Hrun Hk Hdn Hnid Hrp.
  destruct (update_opportunity_trace E _ _ _ _ _ _ Hrun)
    as (fields & opp1 & kw1 & osn & st1 & opp2 & kw2 & opp3 & opp4
        & Hid & Hstamp & _ & Hassign & _ & _ & -> & Hdb & _).
  destruct (assign_keeps _ _ _ _ Hassign) as [Hkw2 _].
  assert (Ho : dict_get k (dict_update opp4 kw2) = Some v).
  { rewrite dict_get_update, Hkw2, dict_get_remove_other by exact Hdn.
    now rewrite (stamp_status_patch E _ _ _ _ _ _ _ _ _ _ Hstamp Hk Hrp). }
  exists fields, (written fields (dict_update opp4 kw2)).
  split; [exact Hid|]. split; [exact Hdb|]. split; [|exact Ho].
  rewrite written_get by exact Hnid. now rewrite Ho.
Qed.

Lemma update_fails_quietly id sdc kwargs st e st' :
  update_opportunity E id sdc kwargs st = (Raise e, st') -> db st' = db st.
Proof.
  intros Hrun.
  destruct (update_opportunity_run E _ _ _ _ _ _ Hrun)
    as [[_ Hdb]|(fields & opp1 & kw1 & osn & st1 & opp2 & kw2 & opp3 & opp4 & H)];
    [exact Hdb|].
  destruct H as (_ & _ & _ & _ & _ & _ & Hbad & _). discriminate Hbad.
Qed.

(** What the items of [kwargs], with no key twice, make of a mapping. *)
Lemma set_items_spec (kwargs : dict) :
  List.NoDup (keys kwargs) ->
  forall d, exists d',
    set_items (VDict d) kwargs = Ok (VDict d')
    /\ forall k, dict_get k d' = match dict_get k kwargs with
                                 | Some v => Some v
                                 | None => dict_get k d
                                 end.
Proof.
  induction kwargs as [|[k0 v0] rest IH]; intros Hnodup d; cbn [set_items].
  - exists d. split; reflexivity.
  - cbn [keys map fst] in Hnodup. apply List.NoDup_cons_iff in Hnodup as [Hfresh Hrest].
    destruct (IH Hrest (dict_set k0 v0 d)) as (d' & -> & Hd').
    exists d'. split; [reflexivity|]. intros k. rewrite Hd'. cbn [dict_get].
    destruct (String.eqb_spec k k0) as [->|Hne].
    + assert (Hnone : dict_get k0 rest = None).
      { destruct (dict_get k0 rest) eqn:Hget; [|reflexivity].
        exfalso. apply Hfresh. clear -Hget.
        induction rest as [|[k1 v1] r IHr]; cbn in *; [discriminate|].
        destruct (String.eqb_spec k0 k1); [now left | right; now apply IHr]. }
      rewrite Hnone. apply dict_get_set_same.
    + destruct (dict_get k rest); [reflexivity|]. now apply dict_get_set_other.
Qed.

Lemma set_items_refuses (target : value) (kwargs : dict) :
  kwargs <> [] -> (forall d, target <> VDict d) ->
  set_items target kwargs = Raise TypeError.
Proof.
  destruct kwargs as [|[k v] rest]; [contradiction|]. intros _ Hnot.
  destruct target; try reflexivity. now destruct (Hnot d).
Qed.

(** X17.  [set_reporting_period] stores the period that the helper
    gives for the year and the month, in full, and returns it in the
    opportunity; the status, the history and every other field but
    [updated] stay.  When the helper gives no period, nothing is
    updated. *)
Theorem set_reporting_period_stores_derived (id : N) (year month : value)
    (st st' : state) (r : result dict) :
  set_reporting_period E id year month st = (r, st') ->
  (reporting_period E [("year", year); ("month", month)] = None ->
   r = Raise HelperError /\ st' = st)
  /\ (is_ok r = false -> db st' = db st)
  /\ (forall o, r = Ok o ->
        exists p fields fields',
          reporting_period E [("year", year); ("month", month)] = Some p
          /\ db st !! id = Some fields
          /\ db st' !! id = Some fields'
          /\ dict_get "reporting_period" fields' = Some p
          /\ dict_get "reporting_period" o = Some p
          /\ forall k, k <> "reporting_period" -> k <> "updated" ->
                       dict_get k fields' = dict_get k fields).
Proof.
  unfold set_reporting_period. unfold bind at 1, lift at 1.
  destruct (reporting_period E [("year", year); ("month", month)]) as [p|];
    cbn [or_raise].
  - intros Hrun. split; [discriminate|]. split.
    + destruct r as [o|e]; [discriminate|]. intros _.
      exact (update_fails_quietly _ _ _ _ _ _ Hrun).
    + intros o ->.
      destruct (update_opportunity_trace E _ _ _ _ _ _ Hrun)
        as (fields & opp1 & kw1 & osn & st1 & opp2 & kw2 & opp3 & opp4
            & Hid & Hstamp & _ & Hassign & Hperiod & Hopp4 & -> & Hdb & _).
      rewrite (stamp_status_same E VNone _ [("reporting_period", p)] st eq_refl)
        in Hstamp.
      injection Hstamp as <- <- _ <-.
      cbn in Hassign. injection Hassign as <- <-.
      pose proof (recompute_period_keeps E _ _ _ Hperiod) as Hopp3.
      exists p, fields, (written fields (dict_update opp4 [("reporting_period", p)])).
      split; [reflexivity|]. split; [exact Hid|].
      split; [rewrite Hdb; apply lookup_insert_eq|].
      assert (Ho : dict_get "reporting_period"
                     (dict_update opp4 [("reporting_period", p)]) = Some p)
        by apply dict_get_set_same.
      split; [rewrite written_get by discriminate; now rewrite Ho|].
      split; [exact Ho|].
      intros k Hk Hupd.
      destruct (String.eqb_spec k "_id") as [->|Hnid].
      * unfold written. rewrite dict_get_update, dict_get_remove, String.eqb_refl.
        reflexivity.
      * apply written_get_same; [exact Hnid|].
        cbn [dict_update]. rewrite dict_get_set_other by exact Hk.
        assert (H4 : dict_get k opp4 = dict_get k opp3).
        { rewrite Hopp4.
          destruct (truthy (get_or VNone "updated" [("reporting_period", p)]));
            [reflexivity | now apply dict_get_set_other]. }
        rewrite H4, Hopp3 by exact Hk. cbn [dict_get].
        destruct (String.eqb_spec k "_id"); [contradiction | reflexivity].
  - unfold raise. intros [= <- <-]. split; [auto|]. split; [reflexivity|].
    discriminate.
Qed.

(** The preferences that [update_preferences] starts from: the stored
    ones, or the defaults when there are none or they are empty. *)
Lemma update_preferences_run id kwargs st r st' fields :
  db st !! id = Some fields ->
  update_preferences E id kwargs st = (r, st') ->
  let base := if truthy (get_or VNone "preferences" fields)
              then get_or VNone "preferences" fields
              else VDict default_preferences in
  (is_ok r = false /\ db st' = db st)
  \/ exists preferences o fields',
       set_items base kwargs = Ok preferences
       /\ r = Ok (Some o)
       /\ db st' = <[id := fields']> (db st)
       /\ dict_get "preferences" fields' = Some preferences
       /\ dict_get "preferences" o = Some preferences.
Proof.
  intros Hid. unfold update_preferences. unfold bind at 1.
  unfold get_opportunity, find_by_id. rewrite Hid. cbv beta iota zeta.
  change (get_or VNone "preferences" (("_id", VOid id) :: fields))
    with (get_or VNone "preferences" fields).
  assert (Hbase : get_or VNone "preferences"
                    (if negb (truthy (get_or VNone "preferences" fields))
                     then dict_set "preferences" (VDict default_preferences)
                                   (("_id", VOid id) :: fields)
                     else ("_id", VOid id) :: fields)
                  = if truthy (get_or VNone "preferences" fields)
                    then get_or VNone "preferences" fields
                    else VDict default_preferences).
  { destruct (truthy (get_or VNone "preferences" fields)); cbn [negb].
    - reflexivity.
    - unfold get_or at 1. now rewrite dict_get_set_same. }
  rewrite Hbase. unfold bind at 1, lift at 1.
  destruct (set_items _ kwargs) as [preferences|e] eqn:Hset;
    [|intros [= <- <-]; left; split; reflexivity].
  unfold bind at 1.
  destruct (update_opportunity E id VNone [("preferences", preferences)] st)
    as [[o|e] st1] eqn:Hrun.
  - unfold ret. intros [= <- <-].
    destruct (update_stores_key _ _ _ _ _ _ "preferences" preferences Hrun eq_refl)
      as (fields0 & fields' & _ & Hdb & Hstored & Ho); try discriminate.
    right. exists preferences, o, fields'. auto.
  - intros [= <- <-]. left. split; [reflexivity|].
    exact (update_fails_quietly _ _ _ _ _ _ Hrun).
Qed.

(** X18.  After [update_preferences] has returned the opportunity,
    [get_preferences] returns its preferences: those the opportunity
    had, or the defaults when it had none or empty ones, with every key
    of the call set to the call's value.  With no such opportunity
    [update_preferences] returns None and does nothing, where
    [get_preferences] raises. *)
Theorem preferences_round_trip (id : N) (kwargs : dict) (st st' : state)
    (r : result (option dict)) :
  List.NoDup (keys kwargs) ->
  update_preferences E id kwargs st = (r, st') ->
  (db st !! id = None ->
   r = Ok None /\ st' = st /\ get_preferences id st = (Raise TypeError, st))
  /\ (forall fields o, db st !! id = Some fields -> r = Ok (Some o) ->
        forall base,
          (if truthy (get_or VNone "preferences" fields)
           then get_or VNone "preferences" fields
           else VDict default_preferences) = VDict base ->
          exists preferences,
            get_preferences id st' = (Ok (VDict preferences), st')
            /\ dict_get "preferences" o = Some (VDict preferences)
            /\ forall k, dict_get k preferences
                         = match dict_get k kwargs with
                           | Some v => Some v
                           | None => dict_get k base
                           end).
Proof.
  intros Hnodup Hrun. split.
  - intros Hid. unfold update_preferences, get_preferences, bind, get_opportunity,
      find_by_id, ret, raise in *. rewrite Hid in *.
    injection Hrun as <- <-. auto.
  - intros fields o Hid -> base Hbase.
    destruct (update_preferences_run _ _ _ _ _ _ Hid Hrun)
      as [[Hbad _]|(preferences & o' & fields' & Hset & Ho & Hdb & Hstored & Hret)];
      [discriminate Hbad|].
    injection Ho as <-. cbv zeta in Hset. rewrite Hbase in Hset.
    destruct (set_items_spec kwargs Hnodup base) as (d' & Hd' & Hkeys).
    rewrite Hd' in Hset. injection Hset as <-.
    exists d'. split; [|split; [exact Hret | exact Hkeys]].
    unfold get_preferences, bind, get_opportunity, find_by_id, lift, subscript.
    rewrite Hdb, lookup_insert_eq.
    change (dict_get "preferences" (("_id", VOid id) :: fields'))
      with (dict_get "preferences" fields').
    now rewrite Hstored.
Qed.

(** X19.  [update_marketing_data] sets the keys of the call on the
    marketing data of the opportunity, which [get_marketing_data] then
    returns; unlike the preferences, marketing data that the opportunity
    does not have are not made up: the call raises KeyError and changes
    nothing.  With no such opportunity both return None. *)
Theorem marketing_round_trip (id : N) (kwargs : dict) (st st' : state)
    (r : result (option dict)) :
  List.NoDup (keys kwargs) ->
  update_marketing_data E id kwargs st = (r, st') ->
  (db st !! id = None ->
   r = Ok None /\ st' = st /\ get_marketing_data id st = (Ok VNone, st))
  /\ (forall fields, db st !! id = Some fields ->
        dict_get "marketing" fields = None ->
        r = Raise KeyError /\ st' = st)
  /\ (forall fields o marketing,
        db st !! id = Some fields -> r = Ok (Some o) ->
        dict_get "marketing" fields = Some (VDict marketing) ->
        exists marketing',
          get_marketing_data id st' = (Ok (VDict marketing'), st')
          /\ dict_get "marketing" o = Some (VDict marketing')
          /\ forall k, dict_get k marketing'
                       = match dict_get k kwargs with
                         | Some v => Some v
                         | None => dict_get k marketing
                         end).
Proof.
  intros Hnodup Hrun. split; [|split].
  - intros Hid. unfold update_marketing_data, get_marketing_data, bind,
      get_opportunity, find_by_id, ret in *. rewrite Hid in *.
    injection Hrun as <- <-. auto.
  - intros fields Hid Hnone.
    unfold update_marketing_data, bind, get_opportunity, find_by_id, lift,
      subscript in Hrun.
    rewrite Hid in Hrun.
    change (dict_get "marketing" (("_id", VOid id) :: fields))
      with (dict_get "marketing" fields) in Hrun.
    rewrite Hnone in Hrun. injection Hrun as <- <-. auto.
  - intros fields o marketing Hid -> Hsome.
    unfold update_marketing_data in Hrun. unfold bind at 1 in Hrun.
    unfold get_opportunity, find_by_id in Hrun. rewrite Hid in Hrun.
    cbv beta iota in Hrun. unfold bind at 1, lift at 1, subscript in Hrun.
    change (dict_get "marketing" (("_id", VOid id) :: fields))
      with (dict_get "marketing" fields) in Hrun.
    rewrite Hsome in Hrun. cbv beta iota in Hrun.
    unfold bind at 1, lift at 1 in Hrun.
    destruct (set_items_spec kwargs Hnodup marketing) as (d' & Hd' & Hkeys).
    rewrite Hd' in Hrun. cbv beta iota in Hrun. unfold bind at 1 in Hrun.
    destruct (update_opportunity E id VNone [("marketing", VDict d')] st)
      as [[o'|e] st1] eqn:Hupdate; [|discriminate Hrun].
    unfold ret in Hrun. injection Hrun as <- <-.
    destruct (update_stores_key _ _ _ _ _ _ "marketing" (VDict d') Hupdate eq_refl)
      as (fields0 & fields' & _ & Hdb & Hstored & Ho); try discriminate.
    exists d'. split; [|split; [exact Ho | exact Hkeys]].
    unfold get_marketing_data, bind, get_opportunity, find_by_id, lift, subscript.
    rewrite Hdb, lookup_insert_eq.
    change (dict_get "marketing" (("_id", VOid id) :: fields'))
      with (dict_get "marketing" fields').
    now rewrite Hstored.
Qed.

End SingleFields.

Lemma set_reporting_period_stores_derived_witness :
  let out := set_reporting_period Fixture.env 1 (VInt 2020) (VInt 5) Fixture.st0 in
  exists fields',
    db (snd out) !! 1%N = Some fields'
    /\ dict_get "reporting_period" fields'
       = Some (VDict [("year", VInt 2020); ("month", VInt 5); ("quarter", VInt 2)])
    /\ dict_get "status" fields' = Some (VInt 2).
Proof.
  intros out. subst out.
  destruct (set_reporting_period Fixture.env 1 (VInt 2020) (VInt 5) Fixture.st0)
    as [[o|e] st'] eqn:Hrun; [|vm_compute in Hrun; discriminate Hrun].
  destruct (set_reporting_period_stores_derived Fixture.env 1 (VInt 2020) (VInt 5)
              Fixture.st0 st' (Ok o) Hrun) as (_ & _ & Hok).
  destruct (Hok o eq_refl) as (p & fields & fields' & Hp & Hid & Hid' & Hstored & _ & Hkept).
  vm_compute in Hp. injection Hp as <-.
  vm_compute in Hid. injection Hid as <-.
  exists fields'. split; [exact Hid'|]. split; [exact Hstored|].
  rewrite (Hkept "status") by discriminate. reflexivity.
Defined.

Lemma preferences_round_trip_witness :
  let out := update_preferences Fixture.env 1 [("vehicle_color", VList [VStr "red"])]
                                Fixture.st0 in
  exists preferences,
    get_preferences 1 (snd out) = (Ok (VDict preferences), snd out)
    /\ dict_get "vehicle_color" preferences = Some (VList [VStr "red"])
    /\ dict_get "passenger_count_upper" preferences = Some (VInt 0).
Proof.
  intros out. subst out.
  destruct (update_preferences Fixture.env 1 [("vehicle_color", VList [VStr "red"])]
                               Fixture.st0)
    as [[[o|]|e] st'] eqn:Hrun; try (vm_compute in Hrun; discriminate Hrun).
  assert (Hnodup : List.NoDup (keys [("vehicle_color", VList [VStr "red"])])).
  { constructor; [intros [] | constructor]. }
  destruct (preferences_round_trip Fixture.env 1
              [("vehicle_color", VList [VStr "red"])] Fixture.st0 st' (Ok (Some o))
              Hnodup Hrun) as [_ Hok].
  destruct (Hok Fixture.fields o eq_refl eq_refl default_preferences eq_refl)
    as (preferences & Hget & _ & Hkeys).
  exists preferences. split; [exact Hget|].
  split; [exact (Hkeys "vehicle_color") | exact (Hkeys "passenger_count_upper")].
Defined.

Lemma marketing_round_trip_witness :
  update_marketing_data Fixture.env 1 [("lead_channel", VStr "phone")] Fixture.st0
  = (Raise KeyError, Fixture.st0)
  /\ (let out := update_marketing_data Fixture.env 3
                   [("lead_channel", VStr "phone")] Sample.st0 in
      exists marketing,
        get_marketing_data 3 (snd out) = (Ok (VDict marketing), snd out)
        /\ dict_get "lead_channel" marketing = Some (VStr "phone")
        /\ dict_get "lead_source" marketing = Some (VStr "ad")).
Proof.
  assert (Hnodup : List.NoDup (keys [("lead_channel", VStr "phone")])).
  { constructor; [intros [] | constructor]. }
  split.
  - destruct (update_marketing_data Fixture.env 1 [("lead_channel", VStr "phone")]
                                    Fixture.st0) as [r st'] eqn:Hrun.
    destruct (marketing_round_trip Fixture.env 1 [("lead_channel", VStr "phone")]
                Fixture.st0 st' r Hnodup Hrun) as (_ & Hmissing & _).
    destruct (Hmissing Fixture.fields eq_refl eq_refl) as [-> ->]. reflexivity.
  - intros out. subst out.
    destruct (update_marketing_data Fixture.env 3 [("lead_channel", VStr "phone")]
                                    Sample.st0)
      as [[[o|]|e] st'] eqn:Hrun; try (vm_compute in Hrun; discriminate Hrun).
    destruct (marketing_round_trip Fixture.env 3 [("lead_channel", VStr "phone")]
                Sample.st0 st' (Ok (Some o)) Hnodup Hrun) as (_ & _ & Hok).
    destruct (Hok Sample.fields o
                [("lead_channel", VStr "web"); ("lead_source", VStr "ad")]
                eq_refl eq_refl eq_refl)
      as (marketing & Hget & _ & Hkeys).
    exists marketing. split; [exact Hget|].
    split; [exact (Hkeys "lead_channel") | exact (Hkeys "lead_source")].
Defined.

(** *** The deal record from the DMS *)

Section DmsDeal.
Variable E : Env.
Variable O : Outside.


Lemma stock_type_of_known (dms_deal : dict) (s : value) :
  stock_type_of O dms_deal = Ok s ->
  In s (STOCK_TYPE_ALL O) \/ s = STOCK_TYPE_UNKNOWN O.
Proof.
  unfold stock_type_of.
  assert (Hlowered : forall t,
             (if existsb (fun option => py_eq option (VStr t)) (STOCK_TYPE_ALL O)
              then Ok (VStr t) else Ok (STOCK_TYPE_UNKNOWN O)) = Ok s ->
             In s (STOCK_TYPE_ALL O) \/ s = STOCK_TYPE_UNKNOWN O).
  { intros t.
    destruct (existsb (fun option => py_eq option (VStr t)) (STOCK_TYPE_ALL O))
      eqn:Hex; intros [= <-]; [left | now right].
    apply existsb_exists in Hex. destruct Hex as (x & Hin & Heq).
    destruct x; cbn in Heq; try discriminate.
    apply String.eqb_eq in Heq. now subst. }
  destruct (truthy (get_or VNone "deal_type" dms_deal)).
  - destruct (get_or VNone "deal_type" dms_deal); cbn [rbind]; try discriminate.
    apply Hlowered.
  - cbn [rbind]. apply Hlowered.
Qed.

(** X21.  [update_dms_deal] with a mapping of deal data.  It refuses,
    and leaves the state as it was, an opportunity without a deal number
    and data that hold a deal number; nothing is written when it raises
    for any other reason.  When it returns, the deal record stored is the
    old one with the data merged over it, so the deal number is the one
    it was, and the stock type stored is one of the known options or the
    unknown one. *)
Theorem update_dms_deal_keeps_number (id : N) (data : dict) (st st' : state)
    (r : dict + dms_error) :
  update_dms_deal E O id (VDict data) st = (r, st') ->
  (r = inr NoDealNumber \/ r = inr AssertionError -> st' = st)
  /\ (forall e, r = inr e -> db st' = db st)
  /\ (dict_has "deal_number" data = true -> forall o, r <> inl o)
  /\ (forall o, r = inl o ->
        exists fields dms number fields' stock_type,
          db st !! id = Some fields
          /\ dict_get "dms_deal" fields = Some (VDict dms)
          /\ dict_get "deal_number" dms = Some number
          /\ truthy number = true
          /\ db st' !! id = Some fields'
          /\ dict_get "dms_deal" fields' = Some (VDict (dict_update dms data))
          /\ stored_deal_number id (db st') = Some number
          /\ dict_get "stock_type" fields' = Some stock_type
          /\ (In stock_type (STOCK_TYPE_ALL O)
              \/ stock_type = STOCK_TYPE_UNKNOWN O)
          /\ dict_get "dms_deal" o = Some (VDict (dict_update dms data))).
Proof.
  unfold update_dms_deal, find_by_id.
  destruct (db st !! id) as [fields|] eqn:Hid.
  2:{ intros [= <- <-]. repeat split; try discriminate;
        try (intros [H|H]; discriminate H). }
  unfold subscript.
  change (dict_get "dms_deal" (("_id", VOid id) :: fields))
    with (dict_get "dms_deal" fields).
  destruct (dict_get "dms_deal" fields) as [dms_value|] eqn:Hdms.
  2:{ intros [= <- <-]. repeat split; try discriminate;
        try (intros [H|H]; discriminate H). }
  unfold attr_get.
  destruct dms_value as [| | | | | | | |dms];
    try (intros [= <- <-]; repeat split; try discriminate;
         try (intros [H|H]; discriminate H); fail).
  destruct (truthy (get_or VNone "deal_number" dms)) eqn:Hnumber; cbn [negb].
  2:{ intros [= <- <-]. repeat split; try discriminate;
        try (intros [H|H]; discriminate H). }
  cbn [py_in].
  destruct (dict_has "deal_number" data) eqn:Hhas.
  { intros [= <- <-]. repeat split; try discriminate;
      try (intros [H|H]; discriminate H). }
  unfold escalate. unfold bind at 1, lift at 1. cbn [items_of]. cbv beta iota.
  unfold bind at 1, lift at 1.
  destruct (stock_type_of O (dict_update dms data)) as [stock_type|e] eqn:Hstock.
  2:{ intros [= <- <-]. repeat split; try discriminate;
        try (intros [H|H]; discriminate H). }
  cbv beta iota. unfold bind at 1.
  destruct (update_opportunity E id VNone
              [("dms_deal", VDict (dict_update dms data));
               ("stock_type", stock_type)] st)
    as [[o1|e] st1] eqn:Hupdate.
  2:{ intros [= <- <-]. split; [intros [H|H]; discriminate H|].
      split; [intros _ _; exact (update_fails_quietly E _ _ _ _ _ _ Hupdate)|].
      split; discriminate. }
  unfold bind, send, ret. cbn [db sent ticks]. intros [= <- <-].
  split; [intros [H|H]; discriminate H|]. split; [discriminate|].
  split; [discriminate|]. intros o [= <-].
  destruct (update_stores_key E _ _ _ _ _ _ "dms_deal"
              (VDict (dict_update dms data)) Hupdate eq_refl)
    as (f0 & fields' & _ & Hdb & Hrecord & _); try discriminate.
  destruct (update_stores_key E _ _ _ _ _ _ "stock_type" stock_type Hupdate eq_refl)
    as (f1 & fields'' & _ & Hdb' & Hstock' & _); try discriminate.
  assert (Hsame : fields'' = fields').
  { assert (H1 : db st1 !! id = Some fields')
      by (rewrite Hdb; apply lookup_insert_eq).
    assert (H2 : db st1 !! id = Some fields'')
      by (rewrite Hdb'; apply lookup_insert_eq).
    congruence. }
  subst fields''.
  assert (Hold : exists number, dict_get "deal_number" dms = Some number
                                /\ truthy number = true).
  { unfold get_or in Hnumber.
    destruct (dict_get "deal_number" dms) as [number|]; [eauto | discriminate]. }
  destruct Hold as (number & Hold & Htruthy).
  assert (Hkept : dict_get "deal_number" (dict_update dms data) = Some number).
  { rewrite dict_get_update. unfold dict_has in Hhas.
    destruct (dict_get "deal_number" data); [discriminate | exact Hold]. }
  exists fields, dms, number, fields', stock_type. cbn [db].
  split; [reflexivity|]. split; [exact Hdms|]. split; [exact Hold|].
  split; [exact Htruthy|].
  split; [rewrite Hdb; apply lookup_insert_eq|]. split; [exact Hrecord|].
  split; [unfold stored_deal_number;
          rewrite Hdb, lookup_insert_eq, Hrecord; exact Hkept|].
  split; [exact Hstock'|].
  split; [exact (stock_type_of_known _ _ Hstock)|].
  apply dict_get_set_same.
Qed.

End DmsDeal.


Lemma update_dms_deal_keeps_number_witness :
  let out := update_dms_deal Fixture.env Sample.outside 1
               (VDict [("deal_type", VStr "NEW")]) Fixture.st0 in
  exists fields',
    db (snd out) !! 1%N = Some fields'
    /\ stored_deal_number 1 (db (snd out)) = Some (VStr "D100")
    /\ dict_get "dms_deal" fields'
       = Some (VDict [("deal_number", VStr "D100"); ("deal_type", VStr "NEW")])
    /\ dict_get "stock_type" fields' = Some (VStr "new").
Proof.
  intros out. subst out.
  destruct (update_dms_deal Fixture.env Sample.outside 1
              (VDict [("deal_type", VStr "NEW")]) Fixture.st0)
    as [[o|e] st'] eqn:Hrun; [|vm_compute in Hrun; discriminate Hrun].
  destruct (update_dms_deal_keeps_number Fixture.env Sample.outside 1
              [("deal_type", VStr "NEW")] Fixture.st0 st' (inl o) Hrun)
    as (_ & _ & _ & Hok).
  destruct (Hok o eq_refl)
    as (fields & dms & number & fields' & stock_type
        & Hid & Hdms & Hnumber & _ & Hid' & Hrecord & Hstored & Hstock & _).
  vm_compute in Hid. injection Hid as <-.
  vm_compute in Hdms. injection Hdms as <-.
  vm_compute in Hnumber. injection Hnumber as <-.
  assert (Htype : stock_type = VStr "new").
  { vm_compute in Hrun. injection Hrun as _ Hst. subst st'.
    vm_compute in Hid'. injection Hid' as <-.
    vm_compute in Hstock. now injection Hstock as <-. }
  subst stock_type.
  exists fields'. split; [exact Hid'|]. split; [exact Hstored|].
  split; [exact Hrecord | exact Hstock].
Defined.

(** *** Creation and deletion *)

Lemma dict_of_get (old : value) (kw h : dict) (k : string) (v : value) :
  dict_of old kw = Ok h -> dict_get k kw = Some v -> dict_get k h = Some v.
Proof.
  intros Hof Hk.
  assert (Hupd : forall d, dict_get k (dict_update d kw) = Some v)
    by (intros d; now rewrite dict_get_update, Hk).
  destruct old as [| | |s| | | |l|d]; cbn in Hof; try discriminate.
  - destruct s; [|discriminate]. injection Hof as <-. apply Hupd.
  - destruct (pairs_of (rev l)); cbn in Hof; [|discriminate].
    injection Hof as <-. apply Hupd.
  - injection Hof as <-. apply Hupd.
Qed.

Section Lifecycle.
Variable E : Env.
Variable O : Outside.

Lemma build_and_insert_run new_id kwargs st r st' :
  build_and_insert E O new_id kwargs st = (r, st') ->
  (is_ok r = false /\ db st' = db st)
  \/ exists o period history,
       r = Ok o
       /\ truthy (get_or VNone "organization_id" kwargs) = true
       /\ truthy (get_or VNone "dealer_id" kwargs) = true
       /\ db st !! new_id = None
       /\ db st' = <[new_id := dict_remove "_id" o]> (db st)
       /\ reporting_period_at O (VInt (dt_year (utcnow E (ticks st))))
                              (VInt (dt_month (utcnow E (ticks st))))
          = Some period
       /\ dict_get (str E (get_or (STATUS_FRESH O) "status" kwargs)) history
          = Some (VTime (utcnow E (ticks st)))
       /\ ((is_none (get_or VNone "preferences" kwargs) = true
            /\ o = drafted O new_id kwargs (utcnow E (ticks st)) period history)
           \/ exists given,
                get_or VNone "preferences" kwargs = VDict given
                /\ o = dict_set "preferences"
                         (VDict (dict_update default_preferences given))
                         (drafted O new_id kwargs (utcnow E (ticks st))
                                  period history)).
Proof.
  unfold build_and_insert. unfold bind at 1, now at 1. cbv beta iota zeta.
  set (t := utcnow E (ticks st)).
  set (st0 := State (db st) (sent st) (S (ticks st))).
  unfold bind at 1, lift at 1.
  destruct (reporting_period_at O (VInt (dt_year t)) (VInt (dt_month t)))
    as [period|] eqn:Hperiod; cbn [or_raise];
    [|intros [= <- <-]; left; split; reflexivity].
  cbv beta iota. unfold bind at 1, lift at 1.
  set (opp := dict_set "reporting_period" period _).
  assert (Hstatus : get_or VNone "status" opp = get_or (STATUS_FRESH O) "status" kwargs).
  { unfold get_or, opp. rewrite !dict_get_set_other by discriminate.
    cbn [dict_update]. rewrite dict_get_set_other by discriminate.
    rewrite dict_get_update. now destruct (dict_get "status" kwargs). }
  rewrite Hstatus.
  destruct (dict_of (get_or VNone "last_status_change" opp) _) as [history|e]
    eqn:Hhistory; [|intros [= <- <-]; left; split; reflexivity].
  pose proof (dict_of_get _ _ _ (str E (get_or (STATUS_FRESH O) "status" kwargs))
                (VTime t) Hhistory) as Hstamp.
  cbn [dict_get] in Hstamp. rewrite String.eqb_refl in Hstamp.
  specialize (Hstamp eq_refl).
  cbv beta iota. fold (drafted O new_id kwargs t period history).
  assert (Htail : forall o,
             (if negb (truthy (get_or VNone "organization_id" kwargs))
              then raise TypeError
              else if negb (truthy (get_or VNone "dealer_id" kwargs))
                   then raise TypeError
                   else insert_one new_id o ;;; ret o) st0 = (r, st') ->
             (is_ok r = false /\ db st' = db st)
             \/ (r = Ok o
                 /\ truthy (get_or VNone "organization_id" kwargs) = true
                 /\ truthy (get_or VNone "dealer_id" kwargs) = true
                 /\ db st !! new_id = None
                 /\ db st' = <[new_id := dict_remove "_id" o]> (db st))).
  { intros o. unfold raise.
    destruct (truthy (get_or VNone "organization_id" kwargs)); cbn [negb];
      [|intros [= <- <-]; left; split; reflexivity].
    destruct (truthy (get_or VNone "dealer_id" kwargs)); cbn [negb];
      [|intros [= <- <-]; left; split; reflexivity].
    unfold bind, insert_one, ret, st0. cbn [db sent ticks].
    destruct (db st !! new_id) eqn:Hfresh; intros [= <- <-].
    - left. split; reflexivity.
    - right. repeat split; reflexivity. }
  unfold bind at 1.
  destruct (is_none (get_or VNone "preferences" kwargs)) eqn:Hnone; cbn [negb].
  2:{ destruct (get_or VNone "preferences" kwargs) as [| | | | | | | |given] eqn:Hgiven;
      try (unfold raise at 1; intros [= <- <-]; left; split; reflexivity).
    unfold ret at 1. intros Hrun.
    destruct (Htail _ Hrun) as [Hbad|(Hr & Horg & Hdealer & Hfresh & Hdb)];
      [left; exact Hbad|].
    right. eexists _, period, history.
    split; [exact Hr|]. split; [exact Horg|]. split; [exact Hdealer|].
    split; [exact Hfresh|]. split; [exact Hdb|]. split; [reflexivity|].
    split; [exact Hstamp|].
    right. exists given. split; reflexivity. }
  unfold ret at 1. intros Hrun.
  destruct (Htail _ Hrun) as [Hbad|(Hr & Horg & Hdealer & Hfresh & Hdb)];
    [left; exact Hbad|].
  right. eexists _, period, history.
    split; [exact Hr|]. split; [exact Horg|]. split; [exact Hdealer|].
    split; [exact Hfresh|]. split; [exact Hdb|]. split; [reflexivity|].
    split; [exact Hstamp|].
  left. split; reflexivity.
Qed.

Lemma drafted_get new_id kwargs t period history k :
  dict_get k (drafted O new_id kwargs t period history)
  = if String.eqb k "last_status_change" then Some (VDict history)
    else if String.eqb k "reporting_period" then Some period
    else if String.eqb k "updated" then Some (VTime t)
    else if String.eqb k "created" then Some (VTime t)
    else if String.eqb k "_id" then Some (VOid new_id)
    else match dict_get k kwargs with
         | Some v => Some v
         | None => dict_get k (OPPORTUNITY_DEFAULTS O)
         end.
Proof.
  unfold drafted. rewrite !dict_get_set. cbn [dict_update].
  rewrite dict_get_set, dict_get_update. reflexivity.
Qed.

(** X22.  [add_opportunity] refuses keyword arguments without an
    organization or a dealer; when it raises, for this or anything else,
    nothing is inserted and no signal is sent.  When it returns, the
    opportunity has the new id, is stored under it, where
    [get_opportunity] finds it, beside the others, and is the one
    signalled; it was created and updated at the one reading of the
    clock, which also gives its reporting period and the date of its
    status in the history; its other fields are those given, or else the
    defaults, and preferences given are merged over the default ones. *)
Theorem add_opportunity_creates (new_id : N) (kwargs : dict) (st st' : state)
    (r : result dict) (signals : list lifecycle_signal) :
  add_opportunity E O new_id kwargs st = (r, st', signals) ->
  (truthy (get_or VNone "organization_id" kwargs) = false
   \/ truthy (get_or VNone "dealer_id" kwargs) = false -> is_ok r = false)
  /\ (is_ok r = false -> db st' = db st /\ signals = [])
  /\ (forall o, r = Ok o ->
        let t := utcnow E (ticks st) in
        signals = [opportunity_created o]
        /\ db st !! new_id = None
        /\ get_opportunity new_id st'
           = (Ok (Some (("_id", VOid new_id) :: dict_remove "_id" o)), st')
        /\ (forall j, j <> new_id -> db st' !! j = db st !! j)
        /\ dict_get "_id" o = Some (VOid new_id)
        /\ dict_get "created" o = Some (VTime t)
        /\ dict_get "updated" o = Some (VTime t)
        /\ dict_get "reporting_period" o
           = reporting_period_at O (VInt (dt_year t)) (VInt (dt_month t))
        /\ (exists history,
              dict_get "last_status_change" o = Some (VDict history)
              /\ dict_get (str E (get_or (STATUS_FRESH O) "status" kwargs)) history
                 = Some (VTime t))
        /\ (forall k,
              ~ In k ["_id"; "created"; "updated"; "reporting_period";
                      "last_status_change"; "preferences"] ->
              dict_get k o = match dict_get k kwargs with
                             | Some v => Some v
                             | None => dict_get k (OPPORTUNITY_DEFAULTS O)
                             end)
        /\ (forall given,
              dict_get "preferences" kwargs = Some (VDict given) ->
              dict_get "preferences" o
              = Some (VDict (dict_update default_preferences given)))
        /\ (dict_get "preferences" kwargs = None ->
            dict_get "preferences" o = Some (VDict default_preferences))).
Proof.
  unfold add_opportunity.
  destruct (build_and_insert E O new_id kwargs st) as [r0 st0] eqn:Hrun.
  destruct (build_and_insert_run _ _ _ _ _ Hrun)
    as [[Hbad Hdb]|(o & period & history & -> & Horg & Hdealer & Hfresh & Hdb
                    & Hperiod & Hstamp & Hshape)].
  - destruct r0 as [o|e]; [discriminate Hbad|]. intros [= <- <- <-].
    split; [reflexivity|]. split; [auto|]. discriminate.
  - intros [= <- <- <-].
    split; [intros [H|H]; congruence|]. split; [discriminate|].
    intros o' [= <-]. cbv zeta.
    assert (Hget : forall k, k <> "preferences" ->
                     dict_get k o
                     = dict_get k (drafted O new_id kwargs (utcnow E (ticks st))
                                           period history)).
    { intros k Hk. destruct Hshape as [[_ ->]|(given & _ & ->)]; [reflexivity|].
      now apply dict_get_set_other. }
    split; [reflexivity|]. split; [exact Hfresh|].
    split; [unfold get_opportunity, find_by_id;
            now rewrite Hdb, lookup_insert_eq|].
    split; [intros j Hj; rewrite Hdb; now apply lookup_insert_ne|].
    rewrite !Hget by discriminate. rewrite !drafted_get. cbn [String.eqb Ascii.eqb Bool.eqb].
    repeat (split; [reflexivity|]).
    split; [congruence|].
    split; [exists history; split; [reflexivity | exact Hstamp]|].
    split; [|split].
    + intros k Hk. rewrite Hget by (intros ->; apply Hk; cbn; auto 7).
      rewrite drafted_get.
      repeat match goal with
             | |- context [String.eqb k ?s] =>
                 destruct (String.eqb_spec k s) as [->|_];
                 [exfalso; apply Hk; cbn; auto 7|]
             end.
      reflexivity.
    + intros given Hgiven. destruct Hshape as [[Hnone ->]|(given' & Hg & ->)].
      * unfold get_or in Hnone. rewrite Hgiven in Hnone. discriminate Hnone.
      * unfold get_or in Hg. rewrite Hgiven in Hg. injection Hg as <-.
        apply dict_get_set_same.
    + intros Hnone. destruct Hshape as [[_ ->]|(given' & Hg & ->)].
      * rewrite drafted_get. cbn [String.eqb Ascii.eqb Bool.eqb].
        now rewrite Hnone.
      * unfold get_or in Hg. rewrite Hnone in Hg. discriminate Hg.
Qed.

(** X23.  [delete_opportunity] removes the opportunity of the id and no
    other, signals it as it was stored, and returns True; with no such
    opportunity it returns False and does nothing, as does a second
    deletion. *)
Theorem delete_opportunity_removes (id : N) (st st' : state)
    (r : result bool) (signals : list lifecycle_signal) :
  delete_opportunity id st = (r, st', signals) ->
  db st' !! id = None
  /\ (forall j, j <> id -> db st' !! j = db st !! j)
  /\ (forall fields, db st !! id = Some fields ->
        r = Ok true
        /\ signals = [opportunity_deleted (("_id", VOid id) :: fields)])
  /\ (db st !! id = None -> r = Ok false /\ signals = [] /\ st' = st)
  /\ delete_opportunity id st' = (Ok false, st', []).
Proof.
  unfold delete_opportunity, find_by_id.
  destruct (db st !! id) as [fields|] eqn:Hid; intros [= <- <- <-]; cbn [db].
  - rewrite lookup_delete_eq.
    split; [reflexivity|].
    split; [intros j Hj; now apply lookup_delete_ne|].
    split; [intros fields0 [= <-]; auto|]. split; [discriminate | reflexivity].
  - rewrite Hid. split; [reflexivity|]. split; [reflexivity|].
    split; [discriminate|]. split; [auto | reflexivity].
Qed.

(** X24.  An opportunity that [add_opportunity] has created is one that
    [delete_opportunity] deletes: the deletion returns True, signals the
    opportunity created, and leaves the collection as it was before the
    two calls. *)
Theorem add_then_delete_restores (new_id : N) (kwargs : dict)
    (st st1 st2 : state) (o : dict) (r : result bool)
    (created deleted : list lifecycle_signal) :
  add_opportunity E O new_id kwargs st = (Ok o, st1, created) ->
  delete_opportunity new_id st1 = (r, st2, deleted) ->
  r = Ok true
  /\ db st2 = db st
  /\ created = [opportunity_created o]
  /\ deleted = [opportunity_deleted (("_id", VOid new_id) :: dict_remove "_id" o)].
Proof.
  unfold add_opportunity.
  destruct (build_and_insert E O new_id kwargs st) as [r0 st0] eqn:Hrun.
  destruct (build_and_insert_run _ _ _ _ _ Hrun)
    as [[Hbad Hdb]|(o' & period & history & -> & _ & _ & Hfresh & Hdb & _)].
  - destruct r0 as [o'|e]; [discriminate Hbad | discriminate].
  - intros [= <- <- <-]. unfold delete_opportunity, find_by_id.
    rewrite Hdb, lookup_insert_eq. intros [= <- <- <-]. cbn [db].
    rewrite delete_insert_id by exact Hfresh. auto.
Qed.

End Lifecycle.

Lemma add_opportunity_creates_witness :
  is_ok (fst (fst (add_opportunity Fixture.env Sample.outside 5
                     [("organization_id", VStr "org1")] Fixture.st0))) = false
  /\ (let out := add_opportunity Fixture.env Sample.outside 5
                   [("organization_id", VStr "org1"); ("dealer_id", VInt 10);
                    ("name", VStr "Ann")] Fixture.st0 in
      exists o,
        out = (Ok o, snd (fst out), [opportunity_created o])
        /\ get_opportunity 5 (snd (fst out))
           = (Ok (Some (("_id", VOid 5) :: dict_remove "_id" o)), snd (fst out))
        /\ dict_get "name" o = Some (VStr "Ann")
        /\ dict_get "status" o = Some (VInt 1)
        /\ dict_get "created" o = Some (VTime (DateTime 2024 5 0))).
Proof.
  split.
  - destruct (add_opportunity Fixture.env Sample.outside 5
                [("organization_id", VStr "org1")] Fixture.st0)
      as [[r st'] signals] eqn:Hrun.
    destruct (add_opportunity_creates Fixture.env Sample.outside 5
                [("organization_id", VStr "org1")] Fixture.st0 st' r signals Hrun)
      as (Hrequired & _).
    exact (Hrequired (or_intror eq_refl)).
  - intros out. subst out.
    destruct (add_opportunity Fixture.env Sample.outside 5
                [("organization_id", VStr "org1"); ("dealer_id", VInt 10);
                 ("name", VStr "Ann")] Fixture.st0)
      as [[[o|e] st'] signals] eqn:Hrun; [|vm_compute in Hrun; discriminate Hrun].
    destruct (add_opportunity_creates Fixture.env Sample.outside 5
                [("organization_id", VStr "org1"); ("dealer_id", VInt 10);
                 ("name", VStr "Ann")] Fixture.st0 st' (Ok o) signals Hrun)
      as (_ & _ & Hok).
    destruct (Hok o eq_refl)
      as (-> & _ & Hfound & _ & _ & Hcreated & _ & _ & _ & Hfields & _).
    exists o. cbn [fst snd]. split; [reflexivity|]. split; [exact Hfound|].
    split; [|split; [|exact Hcreated]].
    + rewrite (Hfields "name"); [reflexivity|].
      cbn. intros H. repeat (destruct H as [H|H]; [discriminate H|]). exact H.
    + rewrite (Hfields "status"); [reflexivity|].
      cbn. intros H. repeat (destruct H as [H|H]; [discriminate H|]). exact H.
Defined.

Lemma delete_opportunity_removes_witness :
  let out := delete_opportunity 1 Fixture.st0 in
  fst (fst out) = Ok true
  /\ db (snd (fst out)) !! 1%N = None
  /\ db (snd (fst out)) !! 2%N = Some Fixture.fields_fi
  /\ delete_opportunity 1 (snd (fst out)) = (Ok false, snd (fst out), []).
Proof.
  intros out. subst out.
  destruct (delete_opportunity 1 Fixture.st0) as [[r st'] signals] eqn:Hrun.
  destruct (delete_opportunity_removes 1 Fixture.st0 st' r signals Hrun)
    as (Hgone & Hothers & Hthere & _ & Hagain).
  destruct (Hthere Fixture.fields eq_refl) as [-> _].
  cbn [fst snd]. split; [reflexivity|]. split; [exact Hgone|].
  split; [|exact Hagain].
  rewrite (Hothers 2%N) by discriminate. reflexivity.
Defined.

Lemma add_then_delete_restores_witness :
  let added := add_opportunity Fixture.env Sample.outside 5
                 [("organization_id", VStr "org1"); ("dealer_id", VInt 10)]
                 Fixture.st0 in
  let deleted := delete_opportunity 5 (snd (fst added)) in
  fst (fst deleted) = Ok true /\ db (snd (fst deleted)) = db Fixture.st0.
Proof.
  intros added deleted. subst deleted added.
  destruct (add_opportunity Fixture.env Sample.outside 5
              [("organization_id", VStr "org1"); ("dealer_id", VInt 10)]
              Fixture.st0)
    as [[[o|e] st1] created] eqn:Hadd; [|vm_compute in Hadd; discriminate Hadd].
  cbn [fst snd].
  destruct (delete_opportunity 5 st1) as [[r st2] deleted] eqn:Hdelete.
  destruct (add_then_delete_restores Fixture.env Sample.outside 5
              [("organization_id", VStr "org1"); ("dealer_id", VInt 10)]
              Fixture.st0 st1 st2 o r created deleted Hadd Hdelete)
    as (-> & Hdb & _).
  cbn [fst snd]. split; [reflexivity | exact Hdb].
Defined.

(** ** The request schemas *)

Lemma dict_has_get (k : string) (d : dict) :
  dict_has k d = false -> dict_get k d = None.
Proof. unfold dict_has. now destruct (dict_get k d). Qed.

(** One of the three moves of the hook (schemas.py 252-257). *)
Lemma move_loose_spec (k : string) (data updated_data period : dict) :
  k <> "reporting_period" ->
  dict_get "reporting_period" updated_data = Some (VDict period) ->
  dict_get k updated_data = dict_get k data ->
  dict_get k period = None ->
  exists period',
    dict_get "reporting_period" (move_loose k data updated_data)
    = Some (VDict period')
    /\ (forall j, dict_get j period'
                  = if String.eqb j k then dict_get k data else dict_get j period)
    /\ dict_get k (move_loose k data updated_data) = None
    /\ (forall j, j <> k -> j <> "reporting_period" ->
                  dict_get j (move_loose k data updated_data)
                  = dict_get j updated_data).
Proof.
  intros Hk Hperiod Hsame Hfresh. unfold move_loose, dict_has.
  destruct (dict_get k data) as [v|] eqn:Hdata.
  - unfold get_or. rewrite Hperiod, Hsame.
    exists (dict_set k v period). split; [apply dict_get_set_same|].
    split; [intros j; apply dict_get_set|]. split.
    + rewrite dict_get_set_other, dict_get_remove, String.eqb_refl by exact Hk.
      reflexivity.
    + intros j Hj Hjp. now rewrite dict_get_set_other, dict_get_remove_other.
  - exists period. split; [exact Hperiod|]. split; [|split; [congruence | auto]].
    intros j. destruct (String.eqb_spec j k) as [->|_]; [exact Hfresh | reflexivity].
Qed.

(** X25.  The filter schema moves the loose [month], [year] and
    [quarter] parameters of a request under [reporting_period], where
    the filter compiler looks for them: the period holds them and nothing
    else, they are no longer parameters of their own, and the other
    parameters are as they came.  It leaves the request alone when it has
    a [reporting_period] or none of the three, so that it changes
    nothing when applied again. *)
Theorem loose_period_params_wrapped (data : dict) :
  (wrap_loose_reporting_period_params data = None <->
   dict_has "reporting_period" data = true
   \/ (dict_has "month" data = false /\ dict_has "year" data = false
       /\ dict_has "quarter" data = false))
  /\ (forall updated_data,
        wrap_loose_reporting_period_params data = Some updated_data ->
        (exists period,
            dict_get "reporting_period" updated_data = Some (VDict period)
            /\ forall k, dict_get k period
                         = if existsb (String.eqb k) ["month"; "year"; "quarter"]
                           then dict_get k data else None)
        /\ (forall k, In k ["month"; "year"; "quarter"] ->
                      dict_get k updated_data = None)
        /\ (forall k, ~ In k ["reporting_period"; "month"; "year"; "quarter"] ->
                      dict_get k updated_data = dict_get k data)
        /\ wrap_loose_reporting_period_params updated_data = None).
Proof.
  split.
  - unfold wrap_loose_reporting_period_params. cbn [existsb].
    destruct (dict_has "reporting_period" data); cbn [negb andb];
      [split; auto|].
    destruct (dict_has "month" data), (dict_has "year" data),
      (dict_has "quarter" data); cbn [orb];
      split; auto; try discriminate;
      intros [H|(H1 & H2 & H3)]; discriminate.
  - intros updated_data. unfold wrap_loose_reporting_period_params.
    destruct (negb (dict_has "reporting_period" data) && _); [|discriminate].
    intros [= <-].
    set (u0 := dict_set "reporting_period" (VDict []) data).
    assert (Hu0 : forall j, j <> "reporting_period" -> dict_get j u0 = dict_get j data)
      by (intros j Hj; now apply dict_get_set_other).
    destruct (move_loose_spec "month" data u0 [])
      as (p1 & Hp1 & Hk1 & Hgone1 & Hkept1);
      [discriminate | apply dict_get_set_same | now apply Hu0 | reflexivity |].
    set (u1 := move_loose "month" data u0) in *.
    destruct (move_loose_spec "year" data u1 p1)
      as (p2 & Hp2 & Hk2 & Hgone2 & Hkept2);
      [discriminate | exact Hp1
       | rewrite Hkept1 by discriminate; now apply Hu0
       | now rewrite Hk1 |].
    set (u2 := move_loose "year" data u1) in *.
    destruct (move_loose_spec "quarter" data u2 p2)
      as (p3 & Hp3 & Hk3 & Hgone3 & Hkept3);
      [discriminate | exact Hp2
       | rewrite Hkept2, Hkept1 by discriminate; now apply Hu0
       | now rewrite Hk2, Hk1 |].
    set (u3 := move_loose "quarter" data u2) in *.
    split; [|split; [|split]].
    + exists p3. split; [exact Hp3|]. intros k. rewrite Hk3, Hk2, Hk1.
      cbn [existsb dict_get].
      destruct (String.eqb_spec k "quarter") as [->|_]; [reflexivity|].
      destruct (String.eqb_spec k "year") as [->|_]; [reflexivity|].
      destruct (String.eqb_spec k "month") as [->|_]; reflexivity.
    + intros k [<-|[<-|[<-|[]]]].
      * now rewrite Hkept3, Hkept2 by discriminate.
      * now rewrite Hkept3 by discriminate.
      * exact Hgone3.
    + intros k Hk.
      assert (k <> "reporting_period") by (intros ->; apply Hk; cbn; auto).
      assert (k <> "month") by (intros ->; apply Hk; cbn; auto).
      assert (k <> "year") by (intros ->; apply Hk; cbn; auto).
      assert (k <> "quarter") by (intros ->; apply Hk; cbn; auto 6).
      rewrite Hkept3, Hkept2, Hkept1 by assumption. now apply Hu0.
    + unfold dict_has. now rewrite Hp3.
Qed.

(** X26.  The parameters schema hands the DAO its [sort_by] as a list:
    after the hook the parameter is missing or a list, and the other
    parameters are as they came.  For a single ordering, given as a
    mapping, this is what makes the list query work: where the query
    without an order returns a cursor, the query ordered by the mapping
    itself raises, and the query ordered by what the hook made of it
    returns that cursor, ordered by the first item of the mapping. *)
Theorem sort_by_wrapped_for_list_query (E : Env) (F data : dict)
    (kv : string * value) (rest : dict) (page page_size filter_query : value)
    (c : cursor) :
  dict_get "sort_by" data = Some (VDict (kv :: rest)) ->
  _get_opportunities E F VNone page page_size filter_query = Ok c ->
  let loaded := pre_loaded sort_by_to_array data in
  dict_get "sort_by" loaded = Some (VList [VDict (kv :: rest)])
  /\ (forall k, k <> "sort_by" -> dict_get k loaded = dict_get k data)
  /\ sort_by_to_array loaded = None
  /\ _get_opportunities E F (VDict (kv :: rest)) page page_size filter_query
     = Raise AttributeError
  /\ _get_opportunities E F (get_or VNone "sort_by" loaded) page page_size
                        filter_query
     = Ok (Cursor (cur_query c) (cur_skip c) (cur_limit c) [kv]).
Proof.
  intros Hsort Hplain. cbv zeta.
  unfold pre_loaded, sort_by_to_array. rewrite Hsort.
  split; [apply dict_get_set_same|].
  split; [intros k Hk; now apply dict_get_set_other|].
  split; [now rewrite dict_get_set_same|].
  unfold get_or. rewrite dict_get_set_same.
  unfold _get_opportunities in *.
  destruct (make_query E F) as [query|e]; cbn [rbind] in *; [|discriminate].
  destruct (negb (truthy query)); [discriminate|].
  destruct (if truthy page && truthy page_size
            then match as_int page, as_int page_size with
                 | Some p, Some n =>
                     if n * (p - 1) <? 0 then Raise ValueError
                     else Ok (n * (p - 1), n)
                 | _, _ => Raise TypeError
                 end
            else Ok (0, 0)) as [window|e]; cbn [rbind] in *; [|discriminate].
  cbn in Hplain. injection Hplain as <-. cbn [cur_query cur_skip cur_limit].
  destruct kv as [k v]. split; reflexivity.
Qed.

Lemma sort_by_wrapped_for_list_query_witness :
  let data := [("page", VInt 1);
               ("sort_by", VDict [("created", VInt (-1))])] in
  let filters := [("organization_id", VStr "org1")] in
  _get_opportunities Fixture.env filters (VDict [("created", VInt (-1))])
                     VNone VNone VNone
  = Raise AttributeError
  /\ option_map cur_sort
       (match _get_opportunities Fixture.env filters
                (get_or VNone "sort_by" (pre_loaded sort_by_to_array data))
                VNone VNone VNone with
        | Ok c => Some c
        | Raise _ => None
        end)
     = Some [("created", VInt (-1))].
Proof.
  intros data filters. subst data filters.
  destruct (_get_opportunities Fixture.env [("organization_id", VStr "org1")]
                               VNone VNone VNone VNone)
    as [c|e] eqn:Hplain; [|vm_compute in Hplain; discriminate Hplain].
  destruct (sort_by_wrapped_for_list_query Fixture.env
              [("organization_id", VStr "org1")]
              [("page", VInt 1); ("sort_by", VDict [("created", VInt (-1))])]
              ("created", VInt (-1)) [] VNone VNone VNone c eq_refl Hplain)
    as (_ & _ & _ & Hbare & Hwrapped).
  split; [exact Hbare|]. rewrite Hwrapped. reflexivity.
Defined.
